(** * Resume analysis pipeline: scoring, contact extraction, suggestions

    A shallow embedding of the analysis-to-rating pipeline of the resume
    analysis application:

    - [src/rating_system.py], class [ResumeRatingSystem]  (module [Rating]);
    - [src/text_analyzer.py], class [TextAnalyzer]        (module [Analyzer]);
    - [src/suggestions.py],   class [SuggestionsSystem]   (module [Suggestions]).

    Modelling conventions.

    - Python numbers (int and float alike) are exact rationals [Q]; every
      numeric literal of the source is a short decimal and is written as the
      source writes it.  Binary rounding of IEEE doubles is not modelled:
      where a product ends in 5 at the digit [round] cuts, the double may
      round the other way.  The theorems therefore state exact values only
      where the doubles are exact, and ranges, orders and tolerances
      elsewhere.
    - A Python [dict] that the code iterates over ([skills], [sections],
      [detailed_scores], [weights]) is an association list in insertion
      order; a [dict] that is only probed ([contact_info], [readability],
      [job_keywords]) is a [gmap].
    - Subscripting a dict with a computed key ([d[k]]) can raise [KeyError];
      such code lives in the [option] monad, [None] standing for the raised
      exception.
    - Strings are [string]s of bytes; the case and whitespace functions are
      the ASCII restrictions of Python's.
    - A tokenizer whose corpus may be missing returns an [option]; [None]
      stands for the [LookupError] it raises then. *)

From Stdlib Require Import QArith Qabs Qround Qminmax Lqa ZArith List String Ascii Bool Lia.
From stdpp Require Import gmap strings list sorting.

(** ** Python built-ins used by the three modules *)

Module Py.

Local Open Scope Q_scope.

(** [x <= y] and [x < y] on numbers, as booleans. *)
Definition leb (x y : Q) : bool := Qle_bool x y.
Definition ltb (x y : Q) : bool := negb (Qle_bool y x).

(** An int used where a float is expected. *)
Definition of_nat (n : nat) : Q := inject_Z (Z.of_nat n).

(** [min(a, b)] returns [a] unless [b < a]; [max(a, b)] returns [a] unless
    [b > a].  [Qmin] and [Qmax] make the same choice. *)
Definition min (a b : Q) : Q := Qmin a b.
Definition max (a b : Q) : Q := Qmax a b.

(** Nearest integer, ties to the even one. *)
Definition round_half_even (x : Q) : Z :=
  let f := Qfloor x in
  match Qcompare (x - inject_Z f) (1 # 2) with
  | Lt => f
  | Gt => (f + 1)%Z
  | Eq => if Z.even f then f else (f + 1)%Z
  end.

(** [round(x, ndigits)]. *)
Definition round (x : Q) (ndigits : nat) : Q :=
  let p := inject_Z (10 ^ Z.of_nat ndigits) in
  inject_Z (round_half_even (x * p)) / p.

(** [sum(xs)] over numbers. *)
Definition sum (xs : list Q) : Q := fold_left Qplus xs 0.

(** *** Insertion-ordered dictionaries *)

Definition dict (V : Type) : Type := list (string * V).

Definition keys {V} (d : dict V) : list string := map fst d.
Definition values {V} (d : dict V) : list V := map snd d.
Definition items {V} (d : dict V) : list (string * V) := d.

(** [l.append(x)] and [l.extend(xs)], as the list they leave in [l]. *)
Definition append {A} (l : list A) (x : A) : list A := l ++ [x].
Definition extend {A} (l xs : list A) : list A := l ++ xs.

(** [not d]. *)
Definition is_empty {A} (l : list A) : bool :=
  match l with [] => true | _ => false end.

(** [d.get(k)]: the value bound to [k], if any. *)
Fixpoint get {V} (d : dict V) (k : string) : option V :=
  match d with
  | [] => None
  | (k', v) :: d' => if String.eqb k k' then Some v else get d' k
  end.

(** [k in d]. *)
Definition mem {V} (k : string) (d : dict V) : bool :=
  match get d k with Some _ => true | None => false end.

(** [not m] for a probed mapping. *)
Definition map_is_empty {V} (m : gmap string V) : bool :=
  Nat.eqb (size m) 0.

(** [k in m] for a probed mapping. *)
Definition map_mem {V} (k : string) (m : gmap string V) : bool :=
  match m !! k with Some _ => true | None => false end.

(** *** Sorting

    [sorted(xs, key=f)] is stable: elements with equal keys keep their
    relative order.  With [reverse=True] the order of the keys is
    descending and equal keys still keep their relative order. *)

Section Sorting.
Context {A : Type} (key : A -> Q).

Fixpoint insert_asc (x : A) (l : list A) : list A :=
  match l with
  | [] => [x]
  | y :: l' => if leb (key x) (key y) then x :: y :: l'
               else y :: insert_asc x l'
  end.

Definition sorted (l : list A) : list A := foldr insert_asc [] l.

Fixpoint insert_desc (x : A) (l : list A) : list A :=
  match l with
  | [] => [x]
  | y :: l' => if leb (key y) (key x) then x :: y :: l'
               else y :: insert_desc x l'
  end.

Definition sorted_reverse (l : list A) : list A := foldr insert_desc [] l.
End Sorting.

(** *** Strings (ASCII) *)

Definition is_upper (c : ascii) : bool :=
  let n := nat_of_ascii c in Nat.leb 65 n && Nat.leb n 90.
Definition is_lower (c : ascii) : bool :=
  let n := nat_of_ascii c in Nat.leb 97 n && Nat.leb n 122.
Definition is_digit (c : ascii) : bool :=
  let n := nat_of_ascii c in Nat.leb 48 n && Nat.leb n 57.
Definition is_alpha (c : ascii) : bool := is_upper c || is_lower c.
(** The characters [str.isspace] accepts below 128. *)
Definition is_space (c : ascii) : bool :=
  let n := nat_of_ascii c in
  Nat.leb 9 n && Nat.leb n 13 || Nat.leb 28 n && Nat.leb n 32.

Definition to_lower (c : ascii) : ascii :=
  if is_upper c then ascii_of_nat (nat_of_ascii c + 32) else c.
Definition to_upper (c : ascii) : ascii :=
  if is_lower c then ascii_of_nat (nat_of_ascii c - 32) else c.

Fixpoint map_chars (f : ascii -> ascii) (s : string) : string :=
  match s with
  | EmptyString => EmptyString
  | String c s' => String (f c) (map_chars f s')
  end.

(** [s.lower()]. *)
Definition lower (s : string) : string := map_chars to_lower s.

(** [s.replace(a, b)] for one-character [a] and [b]. *)
Definition replace (a b : ascii) (s : string) : string :=
  map_chars (fun c => if Ascii.eqb c a then b else c) s.

(** [s.title()]: a cased character is upper-cased when it follows an
    uncased one (or starts the string) and lower-cased otherwise. *)
Fixpoint title_from (prev_cased : bool) (s : string) : string :=
  match s with
  | EmptyString => EmptyString
  | String c s' =>
      if is_alpha c
      then String (if prev_cased then to_lower c else to_upper c)
                  (title_from true s')
      else String c (title_from false s')
  end.
Definition title (s : string) : string := title_from false s.

(** [s.split()]: the maximal runs of non-whitespace characters. *)
Fixpoint split_from (cur : string) (s : string) : list string :=
  match s with
  | EmptyString => if String.eqb cur "" then [] else [cur]
  | String c s' =>
      if is_space c
      then (if String.eqb cur "" then split_from "" s'
            else cur :: split_from "" s')
      else split_from (cur ++ String c "") s'
  end.
Definition split (s : string) : list string := split_from "" s.

(** [sep.join(xs)]. *)
Fixpoint join (sep : string) (xs : list string) : string :=
  match xs with
  | [] => ""
  | [x] => x
  | x :: xs' => x ++ sep ++ join sep xs'
  end.

(** [sub in s]. *)
Fixpoint contains (sub s : string) : bool :=
  String.prefix sub s ||
  match s with
  | EmptyString => false
  | String _ s' => contains sub s'
  end.

(** [s.lstrip()], [s.rstrip()] and [s.strip()]. *)
Fixpoint lstrip (s : string) : string :=
  match s with
  | EmptyString => EmptyString
  | String c s' => if is_space c then lstrip s' else s
  end.

Fixpoint rstrip (s : string) : string :=
  match s with
  | EmptyString => EmptyString
  | String c s' =>
      let r := rstrip s' in
      if is_space c && String.eqb r "" then EmptyString else String c r
  end.

Definition strip (s : string) : string := rstrip (lstrip s).

(** [s.isalpha()]: not empty, and every character a letter. *)
Fixpoint all_alpha (s : string) : bool :=
  match s with
  | EmptyString => true
  | String c s' => is_alpha c && all_alpha s'
  end.
Definition isalpha (s : string) : bool :=
  negb (String.eqb s "") && all_alpha s.

(** [collections.Counter(xs)]: the number of occurrences of each element,
    in the order the elements are first met. *)
Fixpoint count_one (x : string) (counts : dict nat) : dict nat :=
  match counts with
  | [] => [(x, 1%nat)]
  | (y, n) :: counts' =>
      if String.eqb x y then (y, S n) :: counts'
      else (y, n) :: count_one x counts'
  end.
Definition counter (xs : list string) : dict nat :=
  fold_left (fun counts x => count_one x counts) xs [].

(** [c.most_common(n)]: the [n] largest counts first, elements of equal
    count in the order they were first met. *)
Definition most_common (n : nat) (counts : dict nat) : list (string * nat) :=
  take n (sorted_reverse (fun kv => of_nat (snd kv)) counts).

End Py.

(** ** The feature bundle and the score report

    Both are Python dicts with string keys and values of mixed types; a key
    may be absent, which the readers meet with [d.get(k, default)]. *)

Module AnalysisResult.
(** The keys of an analysis result that scoring, suggestions and job
    comparison read. *)
Record t : Type := make {
  error : option string;
  skills : option (Py.dict (list string));
  keywords : option (list string);
  projects : option (list string);
  contact_info : option (gmap string string);
  sections : option (Py.dict bool);
  readability : option (gmap string Q)
}.
End AnalysisResult.

Module BreakdownEntry.
Record t : Type := make {
  criterion : string;
  score : Q;
  weight : Q;
  explanation : string;
  contribution : Q
}.
End BreakdownEntry.

Module RatingResult.
Record t : Type := make {
  overall_score : option Q;
  rating_category : option string;
  rating_description : option string;
  detailed_scores : option (Py.dict Q);
  score_breakdown : option (list BreakdownEntry.t);
  improvement_priority : option (list string);
  error : option string
}.
End RatingResult.

(** ** [ResumeRatingSystem] *)

Module Rating.

Local Open Scope Q_scope.

(** [self.weights] *)
Definition weights : Py.dict Q :=
  [ ("skills_diversity", 0.20);
    ("skills_quantity", 0.15);
    ("contact_completeness", 0.10);
    ("sections_completeness", 0.15);
    ("readability", 0.15);
    ("project_quality", 0.15);
    ("content_length", 0.10) ]%string.

(** [self.thresholds]; every key is read by a literal subscript. *)
Record thresholds_t : Type := {
  min_skills : Q;
  ideal_skills : Q;
  min_word_count : Q;
  ideal_word_count : Q;
  max_word_count : Q;
  min_projects : Q;
  ideal_projects : Q;
  ideal_sentence_length : Q;
  max_sentence_length : Q
}.

Definition thresholds : thresholds_t := {|
  min_skills := 5;
  ideal_skills := 15;
  min_word_count := 150;
  ideal_word_count := 400;
  max_word_count := 800;
  min_projects := 1;
  ideal_projects := 3;
  ideal_sentence_length := 15;
  max_sentence_length := 25
|}.

Definition score_skills_diversity (skills : Py.dict (list string)) : Q :=
  if Py.is_empty skills then 0.0
  else
    let categories := Py.of_nat (length (Py.keys skills)) in
    if Py.leb 5 categories then 10.0
    else if Py.leb 3 categories then 7.0 + (categories - 3) * 1.5
    else if Py.leb 1 categories then 4.0 + (categories - 1) * 1.5
    else 0.0.

(** [sum(len(skill_list) for skill_list in skills.values())] *)
Definition total_skills_of (skills : Py.dict (list string)) : nat :=
  fold_left Nat.add (map (@length string) (Py.values skills)) 0%nat.

Definition score_skills_quantity (skills : Py.dict (list string)) : Q :=
  if Py.is_empty skills then 0.0
  else
    let total_skills := Py.of_nat (total_skills_of skills) in
    if Py.leb thresholds.(ideal_skills) total_skills then 10.0
    else if Py.leb thresholds.(min_skills) total_skills then
      let progress := (total_skills - thresholds.(min_skills)) /
                      (thresholds.(ideal_skills) - thresholds.(min_skills)) in
      5.0 + (progress * 5.0)
    else (total_skills / thresholds.(min_skills)) * 5.0.

(** The [for field in fields: if field in d: score += pts] loops. *)
Definition add_if_present {V} (d : gmap string V) (pts : Q)
    (score : Q) (fields : list string) : Q :=
  fold_left (fun score field =>
               if Py.map_mem field d then score + pts else score)
            fields score.

Definition score_contact_completeness (contact_info : gmap string string) : Q :=
  if Py.map_is_empty contact_info then 0.0
  else
    let essential_fields := ["email"; "phone"]%string in
    let bonus_fields := ["linkedin"; "github"]%string in
    let score := 0.0 in
    let score := add_if_present contact_info 3.5 score essential_fields in
    let score := add_if_present contact_info 1.5 score bonus_fields in
    Py.min score 10.0.

(** The [for section in names: if sections.get(section, False): score += pts]
    loops. *)
Definition add_if_true (sections : Py.dict bool) (pts : Q)
    (score : Q) (names : list string) : Q :=
  fold_left (fun score section =>
               if default false (Py.get sections section)
               then score + pts else score)
            names score.

Definition score_sections_completeness (sections : Py.dict bool) : Q :=
  if Py.is_empty sections then 0.0
  else
    let essential := ["experience"; "education"; "skills"]%string in
    let important := ["summary"; "projects"]%string in
    let bonus := ["certifications"; "achievements"]%string in
    let score := 0.0 in
    let score := add_if_true sections 2.0 score essential in
    let score := add_if_true sections 1.5 score important in
    let score := add_if_true sections 0.5 score bonus in
    Py.min score 10.0.

(** The two sub-scores of [score_readability] (its local variables
    [length_score] and [complexity_score]). *)
Definition length_score (sentence_length : Q) : Q :=
  if Py.leb sentence_length thresholds.(ideal_sentence_length) then 5.0
  else if Py.leb sentence_length thresholds.(max_sentence_length) then
    let excess := sentence_length - thresholds.(ideal_sentence_length) in
    let max_excess :=
      thresholds.(max_sentence_length) - thresholds.(ideal_sentence_length) in
    5.0 - (excess / max_excess) * 2.0
  else 3.0.

Definition complexity_score (complexity_ratio : Q) : Q :=
  if Py.leb 0.2 complexity_ratio && Py.leb complexity_ratio 0.4 then 5.0
  else if Py.ltb complexity_ratio 0.2 then
    3.0 + (complexity_ratio / 0.2) * 2.0
  else 5.0 - ((complexity_ratio - 0.4) / 0.3) * 2.0.

Definition score_readability (readability_metrics : gmap string Q) : Q :=
  if Py.map_is_empty readability_metrics then 5.0
  else
    let sentence_length :=
      default 20 (readability_metrics !! "avg_sentence_length"%string) in
    let complexity_ratio :=
      default 0.3 (readability_metrics !! "complexity_ratio"%string) in
    Py.max 0 (Py.min (length_score sentence_length
                      + complexity_score complexity_ratio) 10.0).

(** The loop over [projects[:3]] that accumulates [quality_score]. *)
Definition quality_step (quality_score : Q) (project : string) : Q :=
  let words := Py.of_nat (length (Py.split project)) in
  if Py.leb 15 words then quality_score + 1.67
  else if Py.leb 8 words then quality_score + 1.0
  else quality_score + 0.5.

Definition score_project_quality (projects : list string) : Q :=
  if Py.is_empty projects then 0.0
  else
    let num_projects := Py.of_nat (length projects) in
    let quantity_score :=
      if Py.leb thresholds.(ideal_projects) num_projects then 5.0
      else if Py.leb thresholds.(min_projects) num_projects then
        3.0 + ((num_projects - 1) / 2) * 2.0
      else 0.0 in
    let quality_score := fold_left quality_step (take 3 projects) 0.0 in
    Py.min (quantity_score + quality_score) 10.0.

Definition score_content_length (word_count : Q) : Q :=
  if Py.ltb word_count thresholds.(min_word_count) then
    (word_count / thresholds.(min_word_count)) * 4.0
  else if Py.leb word_count thresholds.(ideal_word_count) then
    7.0 + ((word_count - thresholds.(min_word_count)) /
           (thresholds.(ideal_word_count) - thresholds.(min_word_count))) * 3.0
  else if Py.leb word_count thresholds.(max_word_count) then
    let excess := word_count - thresholds.(ideal_word_count) in
    let max_excess :=
      thresholds.(max_word_count) - thresholds.(ideal_word_count) in
    10.0 - (excess / max_excess) * 3.0
  else 5.0.

(** [criterion.replace('_', ' ').title()] *)
Definition display_name (criterion : string) : string :=
  Py.title (Py.replace "_" " " criterion).

Definition explanations : Py.dict string :=
  [ ("skills_diversity",
     "Variety of skill categories (technical, soft skills, tools)");
    ("skills_quantity",
     "Total number of skills mentioned throughout resume");
    ("contact_completeness",
     "Presence of email, phone, LinkedIn, GitHub");
    ("sections_completeness",
     "Essential sections: experience, education, skills, projects");
    ("readability",
     "Text clarity, sentence length, and complexity");
    ("project_quality",
     "Number and quality of project descriptions");
    ("content_length",
     "Appropriate resume length (not too short or long)") ]%string.

Definition _generate_score_breakdown (detailed_scores : Py.dict Q)
    : option (list BreakdownEntry.t) :=
  breakdown ← mapM (fun '(criterion, score) =>
      w ← Py.get weights criterion;
      e ← Py.get explanations criterion;
      Some {| BreakdownEntry.criterion := display_name criterion;
              BreakdownEntry.score := score;
              BreakdownEntry.weight := w * 100;
              BreakdownEntry.explanation := e;
              BreakdownEntry.contribution := Py.round (score * w) 1 |})
    (Py.items detailed_scores);
  Some (Py.sorted_reverse BreakdownEntry.contribution breakdown).

Definition _identify_improvement_priorities (detailed_scores : Py.dict Q)
    : list string :=
  let sorted_scores := Py.sorted snd (Py.items detailed_scores) in
  fold_left (fun priorities '(criterion, score) =>
               if Py.ltb score 7.0
               then Py.append priorities (display_name criterion)
               else priorities)
            (take 3 sorted_scores) [].

(** The rating category and its description, from the rounded score. *)
Definition rating_of (overall_score : Q) : string * string :=
  if Py.leb 8.5 overall_score then
    ("Excellent", "Outstanding resume with strong impact potential")%string
  else if Py.leb 7.0 overall_score then
    ("Good", "Solid resume with room for minor improvements")%string
  else if Py.leb 5.5 overall_score then
    ("Average", "Decent resume but needs significant improvements")%string
  else if Py.leb 3.0 overall_score then
    ("Below Average",
     "Resume needs major improvements to be competitive")%string
  else
    ("Poor", "Resume requires complete overhaul")%string.

(** The seven scores, in the order the dict literal lists them. *)
Definition detailed_scores_of (analysis_result : AnalysisResult.t)
    : Py.dict Q :=
  let skills := default [] (AnalysisResult.skills analysis_result) in
  let contact_info := default ∅ (AnalysisResult.contact_info analysis_result) in
  let sections := default [] (AnalysisResult.sections analysis_result) in
  let readability := default ∅ (AnalysisResult.readability analysis_result) in
  let projects := default [] (AnalysisResult.projects analysis_result) in
  let word_count := default 0 (readability !! "word_count"%string) in
  [ ("skills_diversity", score_skills_diversity skills);
    ("skills_quantity", score_skills_quantity skills);
    ("contact_completeness", score_contact_completeness contact_info);
    ("sections_completeness", score_sections_completeness sections);
    ("readability", score_readability readability);
    ("project_quality", score_project_quality projects);
    ("content_length", score_content_length word_count) ]%string.

Definition calculate_overall_score (analysis_result : AnalysisResult.t)
    : option RatingResult.t :=
  match AnalysisResult.error analysis_result with
  | Some err =>
      Some {| RatingResult.overall_score := Some 0.0;
              RatingResult.rating_category := None;
              RatingResult.rating_description := None;
              RatingResult.detailed_scores := Some [];
              RatingResult.score_breakdown := None;
              RatingResult.improvement_priority := None;
              RatingResult.error := Some err |}
  | None =>
      let detailed_scores := detailed_scores_of analysis_result in
      weighted ← mapM (fun '(criterion, score) =>
                         w ← Py.get weights criterion; Some (score * w))
                      (Py.items detailed_scores);
      let overall_score := Py.round (Py.sum weighted) 1 in
      let '(rating_category, rating_description) := rating_of overall_score in
      breakdown ← _generate_score_breakdown detailed_scores;
      Some {| RatingResult.overall_score := Some overall_score;
              RatingResult.rating_category := Some rating_category;
              RatingResult.rating_description := Some rating_description;
              RatingResult.detailed_scores :=
                Some (map (fun '(k, v) => (k, Py.round v 1)) detailed_scores);
              RatingResult.score_breakdown := Some breakdown;
              RatingResult.improvement_priority :=
                Some (_identify_improvement_priorities detailed_scores);
              RatingResult.error := None |}
  end.

(** [rate_resume] *)
Definition rate_resume (analysis_result : AnalysisResult.t)
    : option RatingResult.t :=
  calculate_overall_score analysis_result.

End Rating.

(** ** Regular expressions ([re.findall])

    A backtracking matcher for the fragment of Python's [re] syntax that the
    four contact patterns use: character classes, [\b], greedy bounded and
    unbounded repetition of a class, greedy [?], numbered capture groups and
    concatenation.  Alternatives are tried in the order Python's engine tries
    them (greedy first), so the first match found is Python's match. *)

Module Re.

Inductive t : Type :=
| Eps                                          (* the empty pattern *)
| Class (p : ascii -> bool)                    (* one character of a class *)
| Boundary                                     (* \b *)
| Rep (p : ascii -> bool) (lo : nat) (hi : option nat)  (* [..]{lo,hi} *)
| Opt (r : t)                                  (* r? *)
| Group (i : nat) (r : t)                      (* ( r ), the i-th group *)
| Seq (r1 r2 : t).

(** The position of a match in progress: the character before the cursor,
    the text after it, the text consumed since the match began, and the
    groups captured so far. *)
Record state : Type := {
  prev : option ascii;
  rest : string;
  matched : string;
  groups : gmap nat string
}.

(** [\w], [\d], [\s] on ASCII. *)
Definition word_char (c : ascii) : bool :=
  Py.is_alpha c || Py.is_digit c || Ascii.eqb c "_".
Definition digit (c : ascii) : bool := Py.is_digit c.
Definition space (c : ascii) : bool := Py.is_space c.
Definition one_of (cs : string) (c : ascii) : bool :=
  existsb (Ascii.eqb c) (list_ascii_of_string cs).
Definition union (p q : ascii -> bool) (c : ascii) : bool := p c || q c.

(** The literal string [s]. *)
Fixpoint lit (s : string) : t :=
  match s with
  | EmptyString => Eps
  | String c s' => Seq (Class (Ascii.eqb c)) (lit s')
  end.

Definition is_word (o : option ascii) : bool :=
  match o with Some c => word_char c | None => false end.
Definition next_char (s : string) : option ascii :=
  match s with String c _ => Some c | EmptyString => None end.

(** Greedy repetition of a class: take one more character when allowed,
    and fall back to stopping here when the rest of the pattern fails. *)
Fixpoint rep (p : ascii -> bool) (s : string) (lo : nat) (hi : option nat)
    (pv : option ascii) (m : string) (g : gmap nat string)
    (k : state -> option state) {struct s} : option state :=
  let stop :=
    match lo with
    | O => k {| prev := pv; rest := s; matched := m; groups := g |}
    | S _ => None
    end in
  match s with
  | EmptyString => stop
  | String c s' =>
      if p c && negb (bool_decide (hi = Some O))
      then match rep p s' (Nat.pred lo) (Nat.pred <$> hi) (Some c)
                     (m ++ String c EmptyString) g k with
           | Some st => Some st
           | None => stop
           end
      else stop
  end.

Fixpoint run (r : t) (st : state) (k : state -> option state)
    : option state :=
  match r with
  | Eps => k st
  | Class p =>
      match rest st with
      | String c s' =>
          if p c
          then k {| prev := Some c; rest := s';
                    matched := matched st ++ String c EmptyString;
                    groups := groups st |}
          else None
      | EmptyString => None
      end
  | Boundary =>
      if xorb (is_word (prev st)) (is_word (next_char (rest st)))
      then k st else None
  | Rep p lo hi => rep p (rest st) lo hi (prev st) (matched st) (groups st) k
  | Opt r' =>
      match run r' st k with
      | Some st' => Some st'
      | None => k st
      end
  | Group i r' =>
      run r' st (fun st' =>
        let captured :=
          String.substring (String.length (matched st))
                           (String.length (matched st')
                            - String.length (matched st))
                           (matched st') in
        k {| prev := prev st'; rest := rest st'; matched := matched st';
             groups := <[i := captured]> (groups st') |})
  | Seq r1 r2 => run r1 st (fun st' => run r2 st' k)
  end.

(** [re.match] at the cursor. *)
Definition match_here (r : t) (pv : option ascii) (s : string)
    : option state :=
  run r {| prev := pv; rest := s; matched := EmptyString; groups := ∅ |} Some.

Fixpoint n_groups (r : t) : nat :=
  match r with
  | Eps | Class _ | Boundary | Rep _ _ _ => 0
  | Opt r' => n_groups r'
  | Group _ r' => S (n_groups r')
  | Seq r1 r2 => n_groups r1 + n_groups r2
  end.

(** An element of the list [re.findall] returns: the whole match when the
    pattern has no group, the group when it has one, the tuple of groups
    when it has several.  A group that took no part in the match reads as
    the empty string. *)
Inductive found : Type :=
| Str (s : string)
| Tuple (gs : list string).

Definition group (st : state) (i : nat) : string :=
  default EmptyString (groups st !! i).

Definition result (r : t) (st : state) : found :=
  match n_groups r with
  | 0 => Str (matched st)
  | 1 => Str (group st 1)
  | n => Tuple (map (group st) (seq 1 n))
  end.

(** Scan left to right for non-overlapping matches.  Each round moves the
    cursor at least one character forward, so [S (length s)] rounds reach
    the end of [s]. *)
Fixpoint scan (fuel : nat) (r : t) (pv : option ascii) (s : string)
    : list found :=
  match fuel with
  | O => []
  | S fuel' =>
      match match_here r pv s with
      | Some st =>
          result r st ::
          match matched st, s with
          | EmptyString, String c s' => scan fuel' r (Some c) s'
          | EmptyString, EmptyString => []
          | _, _ => scan fuel' r (prev st) (rest st)
          end
      | None =>
          match s with
          | String c s' => scan fuel' r (Some c) s'
          | EmptyString => []
          end
      end
  end.

Definition findall (r : t) (s : string) : list found :=
  scan (S (String.length s)) r None s.

(** [re.search]: the first position at which the pattern matches. *)
Fixpoint search_from (r : t) (pv : option ascii) (s : string)
    : option state :=
  match match_here r pv s with
  | Some st => Some st
  | None =>
      match s with
      | String c s' => search_from r (Some c) s'
      | EmptyString => None
      end
  end.
Definition search (r : t) (s : string) : option state :=
  search_from r None s.

End Re.

(** ** [TextAnalyzer] *)

Module JobComparison.
(** The dict [compare_with_job] returns; the two return statements bind
    different keys. *)
Record t : Type := make {
  error : option string;
  required_keywords : option (list string);
  matched_keywords : option (list string);
  missing_keywords : option (list string);
  match_score : option Q;
  recommendations : option (list string)
}.
End JobComparison.

Module SummaryStats.
(** The [summary_stats] entry of an analysis. *)
Record t : Type := make {
  total_skills_found : nat;
  skills_categories : nat;
  projects_found : nat;
  sections_present : nat;
  has_contact_info : bool
}.
End SummaryStats.

Module Analysis.
(** The dict [analyze_resume] returns: the bundle and, when the text was
    analysed, its [summary_stats]. *)
Record t : Type := make {
  bundle : AnalysisResult.t;
  summary_stats : option SummaryStats.t
}.
End Analysis.

Module Analyzer.

Local Open Scope string_scope.

(** *** The contact patterns *)

Definition upper_lower_digit : ascii -> bool :=
  Re.union Py.is_alpha Py.is_digit.

(** [\b[A-Za-z0-9._%+-]+@[A-Za-z0-9.-]+\.[A-Z|a-z]{2,}\b] *)
Definition email_pattern : Re.t :=
  Re.Seq Re.Boundary
 (Re.Seq (Re.Rep (Re.union upper_lower_digit (Re.one_of "._%+-")) 1 None)
 (Re.Seq (Re.lit "@")
 (Re.Seq (Re.Rep (Re.union upper_lower_digit (Re.one_of ".-")) 1 None)
 (Re.Seq (Re.lit ".")
 (Re.Seq (Re.Rep (Re.union Py.is_alpha (Re.one_of "|")) 2 None)
         Re.Boundary))))).

Definition separator : ascii -> bool := Re.union (Re.one_of "-.") Re.space.

(** [(\+?\d{1,3}[-.\s]?)?\(?\d{3}\)?[-.\s]?\d{3}[-.\s]?\d{4}] *)
Definition phone_pattern : Re.t :=
  Re.Seq (Re.Opt (Re.Group 1
           (Re.Seq (Re.Rep (Re.one_of "+") 0 (Some 1%nat))
           (Re.Seq (Re.Rep Re.digit 1 (Some 3%nat))
                   (Re.Rep separator 0 (Some 1%nat))))))
 (Re.Seq (Re.Rep (Re.one_of "(") 0 (Some 1%nat))
 (Re.Seq (Re.Rep Re.digit 3 (Some 3%nat))
 (Re.Seq (Re.Rep (Re.one_of ")") 0 (Some 1%nat))
 (Re.Seq (Re.Rep separator 0 (Some 1%nat))
 (Re.Seq (Re.Rep Re.digit 3 (Some 3%nat))
 (Re.Seq (Re.Rep separator 0 (Some 1%nat))
         (Re.Rep Re.digit 4 (Some 4%nat)))))))).

Definition handle_char : ascii -> bool := Re.union Re.word_char (Re.one_of "-").

(** [linkedin\.com/in/[\w-]+] *)
Definition linkedin_pattern : Re.t :=
  Re.Seq (Re.lit "linkedin.com/in/") (Re.Rep handle_char 1 None).

(** [github\.com/[\w-]+] *)
Definition github_pattern : Re.t :=
  Re.Seq (Re.lit "github.com/") (Re.Rep handle_char 1 None).

(** [''.join(x) if isinstance(x, tuple) else x] *)
Definition join_if_tuple (x : Re.found) : string :=
  match x with
  | Re.Tuple gs => Py.join EmptyString gs
  | Re.Str s => s
  end.

(** An element of a [findall] list stored as it is.  The patterns it is
    used with have no group, so the element is a string. *)
Definition as_str (x : Re.found) : string := join_if_tuple x.

Definition analyze_contact_info (text : string) : gmap string string :=
  let contact_info : gmap string string := ∅ in
  let emails := Re.findall email_pattern text in
  let contact_info :=
    match emails with
    | e :: _ => <["email" := as_str e]> contact_info
    | [] => contact_info
    end in
  let phones := Re.findall phone_pattern text in
  let contact_info :=
    match phones with
    | p :: _ => <["phone" := join_if_tuple p]> contact_info
    | [] => contact_info
    end in
  let linkedin := Re.findall linkedin_pattern (Py.lower text) in
  let contact_info :=
    match linkedin with
    | l :: _ => <["linkedin" := as_str l]> contact_info
    | [] => contact_info
    end in
  let github := Re.findall github_pattern (Py.lower text) in
  let contact_info :=
    match github with
    | g :: _ => <["github" := as_str g]> contact_info
    | [] => contact_info
    end in
  contact_info.

(** *** Readability

    Sentence and word segmentation is TextBlob's; [calculate_readability]
    is given the two token lists [blob.sentences] and [blob.words]. *)

Local Open Scope Q_scope.

Definition calculate_readability (blob_sentences blob_words : list string)
    : gmap string Q :=
  let sentences := Py.of_nat (length blob_sentences) in
  let words := Py.of_nat (length blob_words) in
  if Qeq_bool sentences 0 || Qeq_bool words 0 then
    <["readability_score" := 0]>
      (<["avg_sentence_length" := 0]> (<["word_count" := words]> ∅))
  else
    let avg_sentence_length := words / sentences in
    let complex_words :=
      Py.of_nat (length (filter (fun word => (6 < String.length word)%nat)
                                blob_words)) in
    let complexity_ratio :=
      if Py.ltb 0 words then complex_words / words else 0 in
    let readability_score :=
      Py.max 1 (10 - (avg_sentence_length / 3) - (complexity_ratio * 5)) in
    <["readability_score" := Py.round readability_score 2]>
      (<["avg_sentence_length" := Py.round avg_sentence_length 2]>
      (<["word_count" := words]>
      (<["sentence_count" := sentences]>
      (<["complexity_ratio" := Py.round complexity_ratio 2]> ∅)))).

(** *** Job comparison *)

Section JobKeywords.
(** [self.job_keywords], loaded from [data/job_keywords.json]. *)
Variable job_keywords : gmap string (list string).

Definition quote : string := String (ascii_of_nat 34) EmptyString.

Definition compare_with_job (resume_analysis : AnalysisResult.t)
    (job_title : string) : JobComparison.t :=
  match job_keywords !! Py.lower job_title with
  | None =>
      {| JobComparison.error :=
           Some ("Job title " ++ quote ++ job_title ++ quote
                 ++ " not found in database")%string;
         JobComparison.required_keywords := None;
         JobComparison.matched_keywords := None;
         JobComparison.missing_keywords := Some [];
         JobComparison.match_score := Some 0;
         JobComparison.recommendations := None |}
  | Some required_keywords =>
      let resume_text :=
        Py.join " " (default [] (AnalysisResult.keywords resume_analysis)) in
      let '(matched_keywords, missing_keywords) :=
        fold_left (fun '(matched, missing) keyword =>
                     if Py.contains (Py.lower keyword) (Py.lower resume_text)
                     then (Py.append matched keyword, missing)
                     else (matched, Py.append missing keyword))
                  required_keywords (([], []) : list string * list string) in
      let match_score :=
        if Py.is_empty required_keywords then 0
        else Py.of_nat (length matched_keywords)
             / Py.of_nat (length required_keywords) * 100 in
      {| JobComparison.error := None;
         JobComparison.required_keywords := Some required_keywords;
         JobComparison.matched_keywords := Some matched_keywords;
         JobComparison.missing_keywords := Some missing_keywords;
         JobComparison.match_score := Some (Py.round match_score 2);
         JobComparison.recommendations :=
           Some (map (fun keyword =>
                        ("Add '" ++ keyword ++ "' to relevant sections")%string)
                     (take 5 missing_keywords)) |}
  end.
End JobKeywords.

(** *** Section detection *)

Local Open Scope string_scope.

(** [self.resume_sections] *)
Definition resume_sections : Py.dict (list string) :=
  [ ("contact", ["contact"; "email"; "phone"; "address"; "linkedin"]);
    ("summary", ["summary"; "profile"; "objective"; "about"]);
    ("experience",
     ["experience"; "work"; "employment"; "career"; "professional"]);
    ("education", ["education"; "degree"; "university"; "college"; "school"]);
    ("skills", ["skills"; "technical"; "technologies"; "competencies"]);
    ("projects", ["projects"; "portfolio"; "work samples"]);
    ("certifications", ["certifications"; "certificates"; "licensed"]);
    ("achievements", ["achievements"; "awards"; "honors"; "accomplishments"]) ].

(** [any(keyword in text for keyword in keywords)] *)
Definition any_in (keywords : list string) (text : string) : bool :=
  existsb (fun keyword => Py.contains keyword text) keywords.

Definition detect_sections (text : string) : Py.dict bool :=
  let text_lower := Py.lower text in
  map (fun '(section_name, keywords) =>
         (section_name, any_in keywords text_lower))
      (Py.items resume_sections).

(** *** Skill extraction *)

(** [r'\b' + re.escape(skill.lower()) + r'\b'] *)
Definition skill_pattern (skill : string) : Re.t :=
  Re.Seq Re.Boundary (Re.Seq (Re.lit (Py.lower skill)) Re.Boundary).

Definition mentions (text_lower : string) (skill : string) : bool :=
  match Re.search (skill_pattern skill) text_lower with
  | Some _ => true
  | None => false
  end.

Section SkillsDatabase.
(** [self.skills_database], loaded from [data/skills_database.json]; the
    keys of a JSON object are distinct. *)
Variable skills_database : Py.dict (list string).

Definition extract_skills (text : string) : Py.dict (list string) :=
  let text_lower := Py.lower text in
  let found_skills :=
    map (fun '(category, skills_list) =>
           (category, List.filter (mentions text_lower) skills_list))
        (Py.items skills_database) in
  List.filter (fun '(k, v) => negb (Py.is_empty v)) found_skills.
End SkillsDatabase.

(** *** Project detection *)

Definition project_indicators : list string :=
  [ "developed"; "built"; "created"; "designed"; "implemented";
    "project"; "application"; "system"; "website"; "app" ].

Section SentenceTokenizer.
(** [nltk.tokenize.sent_tokenize] *)
Variable sent_tokenize : string -> list string.

Definition detect_projects (text : string) : list string :=
  let sentences := sent_tokenize text in
  let projects :=
    fold_left (fun projects sentence =>
                 let sentence_lower := Py.lower sentence in
                 if any_in project_indicators sentence_lower then
                   if (8 <? length (Py.split sentence))%nat
                   then Py.append projects (Py.strip sentence)
                   else projects
                 else projects)
              sentences [] in
  take 5 projects.
End SentenceTokenizer.

(** *** Keyword extraction *)

Section Tagger.
(** [nltk.tokenize.word_tokenize], the English stop words, and
    [nltk.tag.pos_tag], which raises [LookupError] ([None]) when its model
    is not installed. *)
Variable word_tokenize : string -> list string.
Variable stop_words : gset string.
Variable pos_tag : list string -> option (list (string * string)).

Definition extract_keywords (text : string) : list string :=
  let tokens := word_tokenize (Py.lower text) in
  let filtered_tokens :=
    List.filter (fun token =>
                   Py.isalpha token
                   && negb (bool_decide (token ∈ stop_words))
                   && (2 <? String.length token)%nat)
                tokens in
  let keywords :=
    match pos_tag filtered_tokens with
    | Some pos_tags =>
        map fst (List.filter (fun '(word, pos) =>
                                String.prefix "NN" pos || String.prefix "JJ" pos)
                             pos_tags)
    | None => filtered_tokens
    end in
  let keyword_freq := Py.counter keywords in
  map fst (Py.most_common 20 keyword_freq).
End Tagger.

(** *** The whole analysis

    [word_tokenize], [sent_tokenize] and TextBlob's segmentation read
    corpora that may not be installed; they then raise [LookupError]
    (TextBlob: [MissingCorpusError]), which [analyze_resume] does not
    catch.  Here they return [None] in that case, and so does the
    analysis.  The methods called on the way are those above, given the
    tokens the tokenizer returned. *)

Section Analysis.
Variable skills_database : Py.dict (list string).
Variable sent_tokenize : string -> option (list string).
Variable word_tokenize : string -> option (list string).
Variable stop_words : gset string.
Variable pos_tag : list string -> option (list (string * string)).
(** [TextBlob(text).sentences] and [TextBlob(text).words] *)
Variable blob_sentences : string -> option (list string).
Variable blob_words : string -> option (list string).

Definition analyze_resume (text : string) : option Analysis.t :=
  if String.eqb text "" || String.eqb (Py.strip text) "" then
    Some
      {| Analysis.bundle :=
           {| AnalysisResult.error := Some "No text provided for analysis";
              AnalysisResult.skills := Some [];
              AnalysisResult.keywords := Some [];
              AnalysisResult.projects := Some [];
              AnalysisResult.contact_info := Some ∅;
              AnalysisResult.sections := Some [];
              AnalysisResult.readability := Some ∅ |};
         Analysis.summary_stats := None |}
  else
    let skills := extract_skills skills_database text in
    tokens ← word_tokenize (Py.lower text);
    let keywords :=
      extract_keywords (fun _ => tokens) stop_words pos_tag text in
    sentences ← sent_tokenize text;
    let projects := detect_projects (fun _ => sentences) text in
    let contact_info := analyze_contact_info text in
    let sections := detect_sections text in
    blob_sentence_list ← blob_sentences text;
    blob_word_list ← blob_words text;
    let readability :=
      calculate_readability blob_sentence_list blob_word_list in
    let total_skills :=
      fold_left Nat.add (map (@length string) (Py.values skills)) 0%nat in
    let skills_diversity := length (Py.keys skills) in
    Some
      {| Analysis.bundle :=
           {| AnalysisResult.error := None;
              AnalysisResult.skills := Some skills;
              AnalysisResult.keywords := Some keywords;
              AnalysisResult.projects := Some projects;
              AnalysisResult.contact_info := Some contact_info;
              AnalysisResult.sections := Some sections;
              AnalysisResult.readability := Some readability |};
         Analysis.summary_stats := Some
           {| SummaryStats.total_skills_found := total_skills;
              SummaryStats.skills_categories := skills_diversity;
              SummaryStats.projects_found := length projects;
              SummaryStats.sections_present :=
                length (List.filter (fun present => present)
                                    (Py.values sections));
              SummaryStats.has_contact_info :=
                (0 <? size contact_info)%nat |} |}.
End Analysis.


End Analyzer.

(** ** The [random] module

    The generator is an endless tape of draws and a cursor on it; a draw
    below [n] reads the tape at the cursor and advances it.  Quantifying
    over the tape covers every behaviour of the generator. *)

Module Random.

Record t : Type := { tape : nat -> nat; pos : nat }.

Definition M (A : Type) : Type := t -> A * t.

Definition ret {A} (a : A) : M A := fun g => (a, g).
Definition bind {A B} (m : M A) (f : A -> M B) : M B :=
  fun g => let '(a, g') := m g in f a g'.

Declare Scope random_scope.
Delimit Scope random_scope with random.
Notation "x <- m ;; k" := (bind m (fun x => k))
  (at level 100, m at next level, right associativity) : random_scope.
Local Open Scope random_scope.

Definition randbelow (n : nat) : M nat :=
  fun g => (tape g (pos g) mod n, {| tape := tape g; pos := S (pos g) |}).

(** [random.choice(seq)], for a non-empty [seq]. *)
Definition choice (seq : list string) : M string :=
  i <- randbelow (length seq) ;;
  ret (default EmptyString (seq !! i)).

(** [random.sample(population, k)] for a small population: draw a position
    of the pool, take its element and move the pool's last element into
    the hole. *)
Fixpoint sample_pool (pool : list string) (k : nat) : M (list string) :=
  match k with
  | O => ret []
  | S k' =>
      let n := length pool in
      j <- randbelow n ;;
      let x := default EmptyString (pool !! j) in
      let last := default EmptyString (pool !! Nat.pred n) in
      result <- sample_pool (take (Nat.pred n) (<[j := last]> pool)) k' ;;
      ret (x :: result)
  end.
Definition sample (population : list string) (k : nat) : M (list string) :=
  sample_pool population k.

(** A [for] loop whose body draws from the generator. *)
Fixpoint for_each {A S} (xs : list A) (body : S -> A -> M S) (s : S) : M S :=
  match xs with
  | [] => ret s
  | x :: xs' => s' <- body s x ;; for_each xs' body s'
  end.

End Random.

(** ** [SuggestionsSystem] *)

Module PrioritySuggestions.
Record t : Type := make {
  critical : list string;
  important : list string;
  enhancement : list string
}.
End PrioritySuggestions.

Module ActionItem.
(** An entry of the action plan. *)
Record t : Type := make {
  priority : string;
  timeline : string;
  items : list string;
  impact : string
}.
End ActionItem.

Module SuggestionsResult.
Record t : Type := make {
  suggestions_by_priority : PrioritySuggestions.t;
  action_plan : list ActionItem.t;
  total_suggestions : nat
}.
End SuggestionsResult.

Module Suggestions.

Import Random.
Local Open Scope string_scope.
Local Open Scope random_scope.

Definition skill_suggestions : Py.dict (list string) :=
  [ ("programming_languages",
     [ "Add specific programming languages you've used in projects";
       "Mention version numbers for programming languages (e.g., Python 3.9)";
       "Include both frontend and backend technologies if applicable";
       "Add emerging technologies relevant to your field" ]);
    ("web_technologies",
     [ "List specific frameworks and libraries you've worked with";
       "Mention responsive design and mobile-first development experience";
       "Include API development and integration experience";
       "Add version control systems (Git, GitHub, GitLab)" ]);
    ("databases",
     [ "Specify database management systems you've used";
       "Mention both SQL and NoSQL databases if applicable";
       "Include database design and optimization experience";
       "Add data modeling and schema design skills" ]);
    ("cloud_platforms",
     [ "List cloud platforms and services you've used";
       "Mention specific AWS/Azure/GCP services";
       "Include containerization technologies (Docker, Kubernetes)";
       "Add CI/CD pipeline experience" ]);
    ("soft_skills",
     [ "Include leadership and team collaboration skills";
       "Mention communication and presentation abilities";
       "Add problem-solving and analytical thinking skills";
       "Include project management and organizational skills" ]) ].

Definition section_suggestions : Py.dict (list string) :=
  [ ("summary",
     [ "Add a professional summary highlighting your key achievements";
       "Include 2-3 lines summarizing your expertise and career goals";
       "Mention years of experience and key specializations";
       "Include your most impressive accomplishment or metric" ]);
    ("experience",
     [ "Use action verbs to start each bullet point (Developed, Implemented, Led)";
       "Include quantifiable achievements and metrics";
       "Mention specific technologies and tools used";
       "Focus on impact and results rather than just responsibilities" ]);
    ("education",
     [ "Include your degree, major, university, and graduation year";
       "Add relevant coursework if you're a recent graduate";
       "Mention academic achievements, honors, or high GPA";
       "Include relevant certifications and professional development" ]);
    ("skills",
     [ "Organize skills into categories (Technical, Languages, Tools)";
       "List skills in order of proficiency";
       "Include both hard and soft skills";
       "Match skills to job requirements when possible" ]);
    ("projects",
     [ "Include 2-4 relevant projects with brief descriptions";
       "Mention technologies used and your role";
       "Add links to GitHub repos or live demos";
       "Quantify impact or results where possible" ]) ].

Definition formatting_suggestions : list string :=
  [ "Use consistent formatting throughout the document";
    "Keep margins between 0.5-1 inch on all sides";
    "Use a professional, readable font (Arial, Calibri, Times New Roman)";
    "Maintain consistent font sizes (10-12pt for body, 14-16pt for headers)";
    "Use bullet points for easy scanning";
    "Ensure adequate white space between sections";
    "Keep resume to 1-2 pages maximum";
    "Save as PDF to preserve formatting" ].

(** [self.content_improvement_tips], one definition per key. *)
Definition action_verbs : list string :=
  [ "Achieved"; "Developed"; "Implemented"; "Led"; "Managed"; "Created";
    "Improved"; "Increased"; "Reduced"; "Optimized"; "Designed"; "Built" ].

Definition metrics_examples : list string :=
  [ "Increased system efficiency by 25%";
    "Reduced processing time by 4 hours daily";
    "Led a cross-functional team of 8 developers";
    "Improved user satisfaction scores from 3.2 to 4.6";
    "Generated $2M+ in additional revenue through optimization";
    "Completed 95% of projects ahead of schedule" ].

(** [table[key]] for a key of the table: each subscript of a template
    table is by a literal key of it or by a key tested with [in]. *)
Definition subscript (table : Py.dict (list string)) (key : string)
    : list string :=
  default [] (Py.get table key).

(** [detailed_scores.get(criterion, 0)] *)
Definition score_of (detailed_scores : Py.dict Q) (criterion : string) : Q :=
  default 0%Q (Py.get detailed_scores criterion).

(** [list(s)] for a set [s]: Python leaves the order unspecified, [elements]
    fixes one. *)
Definition list_of_set (s : gset string) : list string := elements s.

Definition generate_skill_suggestions
    (skills_analysis : Py.dict (list string)) (detailed_scores : Py.dict Q)
    : M (list string) :=
  let suggestions : list string := [] in
  suggestions <-
    (if Py.ltb (score_of detailed_scores "skills_diversity") 7.0 then
       let suggestions := Py.append suggestions
         "💡 **Skills Diversity**: Add skills from different categories (technical, tools, soft skills)" in
       let present_categories : gset string :=
         list_to_set (Py.keys skills_analysis) in
       let all_categories : gset string :=
         list_to_set (Py.keys skill_suggestions) in
       let missing_categories := all_categories ∖ present_categories in
       for_each (take 2 (list_of_set missing_categories))
         (fun suggestions category =>
            suggestion <- choice (subscript skill_suggestions category) ;;
            ret (Py.append suggestions
                   ("✨ **" ++ Py.title (Py.replace "_" " " category)
                    ++ "**: " ++ suggestion)))
         suggestions
     else ret suggestions) ;;
  (if Py.ltb (score_of detailed_scores "skills_quantity") 7.0 then
     let suggestions := Py.append suggestions
       "📈 **Skills Quantity**: Add more specific skills and technologies you've worked with" in
     for_each (Py.items skills_analysis)
       (fun suggestions '(category, skills_list) =>
          if (length skills_list <? 3)%nat then
            (suggestion <-
               choice (default ["Add more specific skills in this category"]
                               (Py.get skill_suggestions category)) ;;
             ret (Py.append suggestions
                    ("🔧 **" ++ Py.title (Py.replace "_" " " category)
                     ++ "**: " ++ suggestion)))
          else ret suggestions)
       suggestions
   else ret suggestions).

Definition generate_section_suggestions
    (sections_analysis : Py.dict bool) (detailed_scores : Py.dict Q)
    : M (list string) :=
  let suggestions : list string := [] in
  let essential_sections := ["experience"; "education"; "skills"] in
  let suggestions :=
    fold_left (fun suggestions section =>
                 if negb (default false (Py.get sections_analysis section))
                 then Py.append suggestions
                        ("⚠️ **Missing " ++ Py.title section
                         ++ " Section**: This is essential for any resume")
                 else suggestions)
              essential_sections suggestions in
  let important_sections := ["summary"; "projects"] in
  suggestions <-
    for_each important_sections
      (fun suggestions section =>
         if negb (default false (Py.get sections_analysis section)) then
           (suggestion <- choice (subscript section_suggestions section) ;;
            ret (Py.append suggestions
                   ("➕ **Add " ++ Py.title section ++ " Section**: "
                    ++ suggestion)))
         else ret suggestions)
      suggestions ;;
  if Py.ltb (score_of detailed_scores "sections_completeness") 8.0 then
    for_each (Py.items sections_analysis)
      (fun suggestions '(section, present) =>
         if present && Py.mem section section_suggestions then
           (suggestion <- choice (subscript section_suggestions section) ;;
            ret (Py.append suggestions
                   ("✏️ **Improve " ++ Py.title section ++ " Section**: "
                    ++ suggestion)))
         else ret suggestions)
      suggestions
  else ret suggestions.

Definition generate_content_suggestions
    (analysis_result : AnalysisResult.t) (detailed_scores : Py.dict Q)
    : list string :=
  let suggestions : list string := [] in
  let readability : gmap string Q :=
    default ∅ (AnalysisResult.readability analysis_result) in
  let word_count := default 0%Q (readability !! "word_count") in
  let suggestions :=
    if Py.ltb (score_of detailed_scores "content_length") 7.0 then
      if Py.ltb word_count 150 then
        Py.append suggestions
          "📝 **Content Length**: Your resume is too brief. Add more details about your experience and achievements"
      else if Py.ltb 800 word_count then
        Py.append suggestions
          "✂️ **Content Length**: Your resume is too long. Focus on the most relevant and impactful information"
      else suggestions
    else suggestions in
  let suggestions :=
    if Py.ltb (score_of detailed_scores "readability") 7.0 then
      let avg_sentence_length :=
        default 20%Q (readability !! "avg_sentence_length") in
      let suggestions :=
        if Py.ltb 25 avg_sentence_length then
          Py.append suggestions
            "🎯 **Readability**: Use shorter, more concise sentences for better readability"
        else suggestions in
      let complexity_ratio :=
        default 0.3%Q (readability !! "complexity_ratio") in
      if Py.ltb 0.5 complexity_ratio then
        Py.append suggestions
          "💭 **Readability**: Simplify complex words where possible while maintaining professionalism"
      else suggestions
    else suggestions in
  let projects := default [] (AnalysisResult.projects analysis_result) in
  let suggestions :=
    if Py.ltb (score_of detailed_scores "project_quality") 7.0 then
      let suggestions :=
        if (length projects =? 0)%nat then
          Py.append suggestions
            "🚀 **Projects**: Add 2-3 relevant projects that showcase your skills"
        else if (length projects <? 3)%nat then
          Py.append suggestions
            "🚀 **Projects**: Add more projects to demonstrate your practical experience"
        else suggestions in
      let short_projects :=
        filter (fun p => (length (Py.split p) < 10)%nat) projects in
      if negb (Py.is_empty short_projects) then
        Py.append suggestions
          "📋 **Project Descriptions**: Expand your project descriptions with technologies used and impact achieved"
      else suggestions
    else suggestions in
  let contact_info : gmap string string :=
    default ∅ (AnalysisResult.contact_info analysis_result) in
  if Py.ltb (score_of detailed_scores "contact_completeness") 8.0 then
    let missing_contact : list string := [] in
    let missing_contact :=
      if negb (Py.map_mem "email" contact_info)
      then Py.append missing_contact "professional email"
      else missing_contact in
    let missing_contact :=
      if negb (Py.map_mem "phone" contact_info)
      then Py.append missing_contact "phone number"
      else missing_contact in
    let missing_contact :=
      if negb (Py.map_mem "linkedin" contact_info)
      then Py.append missing_contact "LinkedIn profile"
      else missing_contact in
    if negb (Py.is_empty missing_contact) then
      Py.append suggestions
        ("📞 **Contact Info**: Add " ++ Py.join ", " missing_contact)
    else suggestions
  else suggestions.

Definition generate_formatting_suggestions (detailed_scores : Py.dict Q)
    : M (list string) :=
  let suggestions : list string := [] in
  formatting_tips <- sample formatting_suggestions 3 ;;
  ret (fold_left (fun suggestions tip =>
                    Py.append suggestions ("🎨 **Formatting**: " ++ tip))
                 formatting_tips suggestions).

Definition generate_content_enhancement_tips : M (list string) :=
  let suggestions : list string := [] in
  action_verbs <- sample action_verbs 4 ;;
  let suggestions := Py.append suggestions
    ("💪 **Action Verbs**: Start bullet points with strong verbs like: "
     ++ Py.join ", " action_verbs) in
  metrics_examples <- sample metrics_examples 3 ;;
  let examples_text := Py.join " | " metrics_examples in
  let suggestions := Py.append suggestions
    ("📊 **Quantify Achievements**: Include specific metrics and numbers (e.g., "
     ++ examples_text ++ ")") in
  ret suggestions.

(** [list(set(filter(None, xs)))]: the non-empty strings of [xs], each
    once, in the order the set yields them. *)
Definition unique_nonempty (xs : list string) : list string :=
  list_of_set (list_to_set (filter (fun s => s <> EmptyString) xs)).

Definition generate_priority_suggestions
    (analysis_result : AnalysisResult.t) (rating_result : RatingResult.t)
    : M PrioritySuggestions.t :=
  let detailed_scores :=
    default [] (RatingResult.detailed_scores rating_result) in
  let improvement_priority :=
    default [] (RatingResult.improvement_priority rating_result) in
  let skills := default [] (AnalysisResult.skills analysis_result) in
  let sections := default [] (AnalysisResult.sections analysis_result) in
  let critical : list string := [] in
  let important : list string := [] in
  let enhancement : list string := [] in
  critical <-
    for_each improvement_priority
      (fun critical priority =>
         if Py.contains "skills" (Py.lower priority) then
           (found <- generate_skill_suggestions skills detailed_scores ;;
            ret (Py.extend critical (take 2 found)))
         else if Py.contains "section" (Py.lower priority) then
           (found <- generate_section_suggestions sections detailed_scores ;;
            ret (Py.extend critical (take 2 found)))
         else if Py.contains "content" (Py.lower priority)
                 || Py.contains "readability" (Py.lower priority) then
           ret (Py.extend critical
                  (take 2 (generate_content_suggestions
                             analysis_result detailed_scores)))
         else ret critical)
      critical ;;
  let important :=
    Py.extend important
      (take 2 (drop 2 (generate_content_suggestions
                         analysis_result detailed_scores))) in
  found <- generate_section_suggestions sections detailed_scores ;;
  let important := Py.extend important (take 2 (drop 2 found)) in
  found <- generate_formatting_suggestions detailed_scores ;;
  let enhancement := Py.extend enhancement (take 2 found) in
  found <- generate_content_enhancement_tips ;;
  let enhancement := Py.extend enhancement (take 3 found) in
  ret {| PrioritySuggestions.critical := unique_nonempty critical;
         PrioritySuggestions.important := unique_nonempty important;
         PrioritySuggestions.enhancement := unique_nonempty enhancement |}.

Definition generate_improvement_action_plan
    (suggestions : PrioritySuggestions.t) : list ActionItem.t :=
  let action_plan : list ActionItem.t := [] in
  let action_plan :=
    if negb (Py.is_empty (PrioritySuggestions.critical suggestions)) then
      Py.append action_plan
        {| ActionItem.priority := "High Priority";
           ActionItem.timeline := "Complete within 1-2 days";
           ActionItem.items :=
             take 3 (PrioritySuggestions.critical suggestions);
           ActionItem.impact :=
             "These changes will significantly improve your resume score" |}
    else action_plan in
  let action_plan :=
    if negb (Py.is_empty (PrioritySuggestions.important suggestions)) then
      Py.append action_plan
        {| ActionItem.priority := "Medium Priority";
           ActionItem.timeline := "Complete within 1 week";
           ActionItem.items :=
             take 3 (PrioritySuggestions.important suggestions);
           ActionItem.impact :=
             "These improvements will make your resume more competitive" |}
    else action_plan in
  let action_plan :=
    if negb (Py.is_empty (PrioritySuggestions.enhancement suggestions)) then
      Py.append action_plan
        {| ActionItem.priority := "Low Priority";
           ActionItem.timeline := "Complete when you have time";
           ActionItem.items :=
             take 3 (PrioritySuggestions.enhancement suggestions);
           ActionItem.impact :=
             "These refinements will polish your resume presentation" |}
    else action_plan in
  action_plan.

(** [generate_suggestions] *)
Definition generate_suggestions (analysis_result : AnalysisResult.t)
    (rating_result : RatingResult.t) : M SuggestionsResult.t :=
  priority_suggestions <-
    generate_priority_suggestions analysis_result rating_result ;;
  let action_plan := generate_improvement_action_plan priority_suggestions in
  ret {| SuggestionsResult.suggestions_by_priority := priority_suggestions;
         SuggestionsResult.action_plan := action_plan;
         SuggestionsResult.total_suggestions :=
           (length (PrioritySuggestions.critical priority_suggestions)
            + length (PrioritySuggestions.important priority_suggestions)
            + length (PrioritySuggestions.enhancement priority_suggestions))%nat |}.

End Suggestions.

(** ** Specification vocabulary and sample inputs *)

Module Spec.

Local Open Scope string_scope.

(** The seven criteria, in the order [detailed_scores] lists them. *)
Definition criteria : list string :=
  [ "skills_diversity"; "skills_quantity"; "contact_completeness";
    "sections_completeness"; "readability"; "project_quality";
    "content_length" ].

(** [readability.get('word_count', 0)] of a bundle. *)
Definition word_count_of (a : AnalysisResult.t) : Q :=
  default 0%Q (default ∅ (AnalysisResult.readability a) !! "word_count").

(** A degenerate bundle: no error, and an empty skills map, contact map,
    sections map and project list, with a word count of zero. *)
Definition degenerate (a : AnalysisResult.t) : Prop :=
  AnalysisResult.error a = None /\
  default [] (AnalysisResult.skills a) = [] /\
  default ∅ (AnalysisResult.contact_info a) = ∅ /\
  default [] (AnalysisResult.sections a) = [] /\
  default [] (AnalysisResult.projects a) = [] /\
  (word_count_of a == 0)%Q.

(** The improvement priorities in the specification's words: the criteria
    sorted by score ascending, truncated to the first three, of which
    those scoring below 7.0 are kept; each is listed under the name the
    report displays. *)
Definition improvement_priority_spec (detailed_scores : Py.dict Q)
    : list string :=
  map (fun kv => Rating.display_name (fst kv))
      (List.filter (fun kv => Py.ltb (snd kv) 7.0)
                   (take 3 (Py.sorted snd detailed_scores))).

(** The bundle with every map empty and the given readability map. *)
Definition bare_bundle (readability : gmap string Q) : AnalysisResult.t :=
  {| AnalysisResult.error := None;
     AnalysisResult.skills := Some [];
     AnalysisResult.keywords := Some [];
     AnalysisResult.projects := Some [];
     AnalysisResult.contact_info := Some ∅;
     AnalysisResult.sections := Some [];
     AnalysisResult.readability := Some readability |}.

(** The degenerate bundle of a text without words: its readability map is
    what [calculate_readability] returns when TextBlob finds no token. *)
Definition zero_word_bundle : AnalysisResult.t :=
  bare_bundle (Analyzer.calculate_readability [] []).

(** The bundle an upstream failure hands on. *)
Definition failed_bundle : AnalysisResult.t :=
  {| AnalysisResult.error := Some "No text provided for analysis";
     AnalysisResult.skills := Some [];
     AnalysisResult.keywords := Some [];
     AnalysisResult.projects := Some [];
     AnalysisResult.contact_info := Some ∅;
     AnalysisResult.sections := Some [];
     AnalysisResult.readability := Some ∅ |}.

Definition long_project : string :=
  "Built a web application with Python and Flask that serves ten thousand users every single day".

(** The specification's ideal resume: five skill categories with 18
    skills, all sections, three long projects, full contact details,
    450 words, 14 words a sentence, complexity ratio 0.3. *)
Definition ideal_bundle : AnalysisResult.t :=
  {| AnalysisResult.error := None;
     AnalysisResult.skills := Some
       [ ("programming_languages", ["python"; "java"; "c"; "go"]);
         ("web_technologies", ["html"; "css"; "react"; "flask"]);
         ("databases", ["mysql"; "postgresql"; "redis"; "mongodb"]);
         ("cloud_platforms", ["aws"; "gcp"; "azure"]);
         ("soft_skills", ["leadership"; "teamwork"; "communication"]) ];
     AnalysisResult.keywords := Some ["python"; "flask"];
     AnalysisResult.projects := Some [long_project; long_project; long_project];
     AnalysisResult.contact_info := Some
       (<["email" := "a@b.com"]>
       (<["phone" := "555-123-4567"]>
       (<["linkedin" := "linkedin.com/in/a"]>
       (<["github" := "github.com/a"]> ∅))));
     AnalysisResult.sections := Some
       [ ("contact", true); ("summary", true); ("experience", true);
         ("education", true); ("skills", true); ("projects", true);
         ("certifications", true); ("achievements", true) ];
     AnalysisResult.readability := Some
       (<["word_count" := 450%Q]>
       (<["avg_sentence_length" := 14%Q]>
       (<["complexity_ratio" := 0.3%Q]> ∅))) |}.

(** The report of the ideal resume. *)
Definition ideal_rating : RatingResult.t :=
  default (RatingResult.make None None None None None None None)
          (Rating.calculate_overall_score ideal_bundle).

(** A generator state. *)
Definition some_generator : Random.t :=
  {| Random.tape := fun n => (7 * n + 3)%nat; Random.pos := 0 |}.

(** A resume line with a ten-digit phone number and no country code. *)
Definition phone_text : string := "Phone: 555-123-4567".

(** A job-keyword table with one title. *)
Definition sample_job_keywords : gmap string (list string) :=
  {[ "data scientist" := ["python"; "statistics"; "machine learning"] ]}.

(** A list of suggestions none of which is the empty string. *)
Definition filled (l : list string) : Prop :=
  Forall (fun s => s <> EmptyString) l.

(** [sections.get(section, False)] is true. *)
Definition present (sections : Py.dict bool) (section : string) : Prop :=
  default false (Py.get sections section) = true.

(** [text.isascii()]: every character is below 128.  On such text the
    string functions of [Py] are Python's. *)
Fixpoint ascii_text (text : string) : bool :=
  match text with
  | EmptyString => true
  | String c text' => (nat_of_ascii c <? 128)%nat && ascii_text text'
  end.

(** The two lines on the resume's length. *)
Definition too_brief : string :=
  "📝 **Content Length**: Your resume is too brief. Add more details about your experience and achievements".
Definition too_long : string :=
  "✂️ **Content Length**: Your resume is too long. Focus on the most relevant and impactful information".

End Spec.

(** * Verification

    ** Facts about the Python built-ins *)

Module PyFacts.

Local Open Scope Q_scope.

Lemma leb_true x y : Py.leb x y = true <-> x <= y.
Proof. apply Qle_bool_iff. Qed.

Lemma leb_false x y : Py.leb x y = false <-> y < x.
Proof.
  unfold Py.leb. rewrite <- not_true_iff_false, Qle_bool_iff.
  split; [apply Qnot_le_lt | apply Qlt_not_le].
Qed.

Lemma ltb_true x y : Py.ltb x y = true <-> x < y.
Proof. unfold Py.ltb. rewrite negb_true_iff. apply leb_false. Qed.

Lemma ltb_false x y : Py.ltb x y = false <-> y <= x.
Proof. unfold Py.ltb. rewrite negb_false_iff. apply leb_true. Qed.

(** Split on every comparison of the goal, keeping its meaning. *)
Ltac compare_cases :=
  repeat match goal with
  | |- context [Py.leb ?x ?y] =>
      let H := fresh "Hle" in
      destruct (Py.leb x y) eqn:H;
      [apply leb_true in H | apply leb_false in H]
  | |- context [Py.ltb ?x ?y] =>
      let H := fresh "Hlt" in
      destruct (Py.ltb x y) eqn:H;
      [apply ltb_true in H | apply ltb_false in H]
  end.

(** [lra] after division by a literal has been turned into multiplication
    by its inverse. *)
Ltac divide_out :=
  unfold Qdiv in *;
  repeat match goal with
  | |- context [ / ?c ] =>
      let c' := eval vm_compute in (/ c) in change (/ c) with c'
  | H : context [ / ?c ] |- _ =>
      let c' := eval vm_compute in (/ c) in change (/ c) with c' in H
  end.
Ltac q_arith := divide_out; lra.

Lemma min_cases x y :
  (x <= y /\ Py.min x y == x) \/ (y < x /\ Py.min x y == y).
Proof.
  unfold Py.min. destruct (Q.min_spec x y) as [[H1 H2]|[H1 H2]].
  - left. split; [lra | exact H2].
  - destruct (Qlt_le_dec y x) as [H|H].
    + right. split; [exact H | exact H2].
    + left. split; [exact H|]. rewrite H2. lra.
Qed.

Lemma max_cases x y :
  (y <= x /\ Py.max x y == x) \/ (x < y /\ Py.max x y == y).
Proof.
  unfold Py.max. destruct (Q.max_spec x y) as [[H1 H2]|[H1 H2]].
  - right. split; [exact H1 | exact H2].
  - left. split; [exact H1 | exact H2].
Qed.

Lemma min_upper x y : Py.min x y <= y.
Proof. destruct (min_cases x y) as [[H1 H2]|[H1 H2]]; rewrite H2; lra. Qed.

Lemma min_lower x y z : z <= x -> z <= y -> z <= Py.min x y.
Proof. intros. destruct (min_cases x y) as [[H1 H2]|[H1 H2]]; rewrite H2; lra. Qed.

Lemma capped_bounds x : 0 <= x -> 0 <= Py.min x 10.0 <= 10.
Proof.
  intros H. destruct (min_cases x 10.0) as [[H1 H2]|[H1 H2]]; rewrite H2; lra.
Qed.

Lemma clamp_bounds x : 0 <= Py.max 0 (Py.min x 10.0) <= 10.
Proof.
  pose proof (min_upper x 10.0).
  destruct (max_cases 0 (Py.min x 10.0)) as [[H1 H2]|[H1 H2]]; rewrite H2; lra.
Qed.

(** Rounding never crosses an integer. *)
Lemma round_half_even_lower (a : Z) x :
  inject_Z a <= x -> (a <= Py.round_half_even x)%Z.
Proof.
  intros H. assert (a <= Qfloor x)%Z as Hf.
  { rewrite <- (Qfloor_Z a). apply Qfloor_resp_le. exact H. }
  unfold Py.round_half_even.
  destruct (Qcompare _ _); [destruct (Z.even _)| |]; lia.
Qed.

Lemma round_half_even_upper (b : Z) x :
  x <= inject_Z b -> (Py.round_half_even x <= b)%Z.
Proof.
  intros H. pose proof (Qfloor_le x) as Hf.
  assert (Qfloor x <= b)%Z as Hfb.
  { rewrite <- (Qfloor_Z b). apply Qfloor_resp_le. exact H. }
  assert (inject_Z (Qfloor x) < x -> (Qfloor x + 1 <= b)%Z) as Hstep.
  { intros Hlt. assert (inject_Z (Qfloor x) < inject_Z b) as Hlt' by lra.
    rewrite <- Zlt_Qlt in Hlt'. lia. }
  unfold Py.round_half_even.
  destruct (Qcompare _ _) eqn:Hc.
  - apply Qeq_alt in Hc. destruct (Z.even _); [lia|]. apply Hstep. lra.
  - lia.
  - apply Qgt_alt in Hc. apply Hstep. lra.
Qed.

Lemma pow10_pos (n : nat) : 0 < inject_Z (10 ^ Z.of_nat n).
Proof.
  replace 0 with (inject_Z 0) by reflexivity. rewrite <- Zlt_Qlt.
  apply Z.pow_pos_nonneg; lia.
Qed.

(** [round(x, n)] stays between two numbers with at most [n] decimals. *)
Lemma round_between (a b : Z) x n :
  inject_Z a / inject_Z (10 ^ Z.of_nat n) <= x ->
  x <= inject_Z b / inject_Z (10 ^ Z.of_nat n) ->
  inject_Z a / inject_Z (10 ^ Z.of_nat n) <= Py.round x n
    <= inject_Z b / inject_Z (10 ^ Z.of_nat n).
Proof.
  pose proof (pow10_pos n) as Hp. unfold Py.round.
  set (p := inject_Z (10 ^ Z.of_nat n)) in *. intros Ha Hb.
  assert (0 < / p) as Hi by (apply Qinv_lt_0_compat; exact Hp).
  assert (inject_Z a <= x * p) as Ha'.
  { assert (inject_Z a == inject_Z a / p * p) as E by (field; lra).
    rewrite E. apply Qmult_le_compat_r; lra. }
  assert (x * p <= inject_Z b) as Hb'.
  { assert (inject_Z b == inject_Z b / p * p) as E by (field; lra).
    rewrite E. apply Qmult_le_compat_r; lra. }
  apply round_half_even_lower in Ha'. apply round_half_even_upper in Hb'.
  rewrite Zle_Qle in Ha', Hb'. unfold Qdiv.
  split; apply Qmult_le_compat_r; lra.
Qed.

Lemma round_bounds x n : 0 <= x <= 10 -> 0 <= Py.round x n <= 10.
Proof.
  intros [H0 H10]. pose proof (pow10_pos n) as Hp.
  pose proof (round_between 0 (10 * 10 ^ Z.of_nat n) x n) as H.
  rewrite inject_Z_mult in H.
  set (p := inject_Z (10 ^ Z.of_nat n)) in *.
  assert (inject_Z 0 / p == 0) as E0 by (unfold Qdiv; ring).
  assert (inject_Z 10 * p / p == 10) as E10 by (field; lra).
  rewrite E0, E10 in H. apply H; assumption.
Qed.

(** Rounding to one decimal keeps a score below a one-decimal bound. *)
Lemma round1_upper (b : Z) x :
  x <= inject_Z b / 10 -> Py.round x 1 <= inject_Z b / 10.
Proof.
  intros H. unfold Py.round. change (inject_Z (10 ^ Z.of_nat 1)) with 10.
  assert (x * 10 <= inject_Z b) as H' by q_arith.
  apply round_half_even_upper in H'. rewrite Zle_Qle in H'. q_arith.
Qed.

Lemma round_half_even_proper x y :
  x == y -> Py.round_half_even x = Py.round_half_even y.
Proof.
  intros H. unfold Py.round_half_even.
  rewrite (Qfloor_comp x y H).
  assert (x - inject_Z (Qfloor y) == y - inject_Z (Qfloor y)) as E
    by (rewrite H; reflexivity).
  rewrite (Qcompare_comp _ _ E (1 # 2) (1 # 2) (Qeq_refl _)). reflexivity.
Qed.

Lemma round_proper x y n : x == y -> Py.round x n = Py.round y n.
Proof.
  intros H. unfold Py.round.
  set (p := inject_Z (10 ^ Z.of_nat n)).
  rewrite (round_half_even_proper (x * p) (y * p)); [reflexivity|].
  rewrite H. reflexivity.
Qed.

Lemma round_zero x n : x == 0 -> Py.round x n == 0.
Proof. intros H. rewrite (round_proper x 0 n H). unfold Py.round.
  assert (0 * inject_Z (10 ^ Z.of_nat n) == 0) as E by ring.
  rewrite (round_half_even_proper _ _ E). reflexivity.
Qed.

End PyFacts.

(** ** Facts about [sorted] *)

Module SortFacts.

Import PyFacts.

Section Sorting.
Context {A : Type} (key : A -> Q).
Local Open Scope Q_scope.

Lemma insert_asc_perm x l : Py.insert_asc key x l ≡ₚ x :: l.
Proof.
  induction l as [|y l IH]; cbn [Py.insert_asc]; [reflexivity|].
  destruct (Py.leb (key x) (key y)); [reflexivity|].
  rewrite IH. apply Permutation_swap.
Qed.

Lemma sorted_perm l : Py.sorted key l ≡ₚ l.
Proof.
  induction l as [|x l IH]; cbn; [reflexivity|].
  fold (Py.sorted key l). rewrite insert_asc_perm, IH. reflexivity.
Qed.

Lemma insert_asc_sorted x l :
  StronglySorted (fun a b => key a <= key b) l ->
  StronglySorted (fun a b => key a <= key b) (Py.insert_asc key x l).
Proof.
  induction 1 as [|y l Hs IH Hy]; cbn [Py.insert_asc].
  - repeat constructor.
  - destruct (Py.leb (key x) (key y)) eqn:E.
    + apply leb_true in E. constructor; [constructor; assumption|].
      constructor; [exact E|].
      eapply Forall_impl; [exact Hy|]. cbn. intros z Hz. lra.
    + apply leb_false in E. constructor; [exact IH|].
      rewrite insert_asc_perm. constructor; [lra | exact Hy].
Qed.

Lemma sorted_sorted l :
  StronglySorted (fun a b => key a <= key b) (Py.sorted key l).
Proof.
  induction l as [|x l IH]; cbn; [constructor|].
  apply insert_asc_sorted. exact IH.
Qed.

(** Stability: the elements of any one key keep their order. *)
Lemma insert_asc_stable q x l :
  List.filter (fun a => Qeq_bool (key a) q) (Py.insert_asc key x l)
  = List.filter (fun a => Qeq_bool (key a) q) (x :: l).
Proof.
  induction l as [|y l IH]; cbn [Py.insert_asc]; [reflexivity|].
  destruct (Py.leb (key x) (key y)) eqn:E; [reflexivity|].
  apply leb_false in E.
  cbn [List.filter] in *. rewrite IH.
  destruct (Qeq_bool (key x) q) eqn:Ex, (Qeq_bool (key y) q) eqn:Ey;
    try reflexivity.
  apply Qeq_bool_iff in Ex, Ey. lra.
Qed.

Lemma sorted_stable q l :
  List.filter (fun a => Qeq_bool (key a) q) (Py.sorted key l)
  = List.filter (fun a => Qeq_bool (key a) q) l.
Proof.
  induction l as [|x l IH]; cbn; [reflexivity|].
  fold (Py.sorted key l). rewrite insert_asc_stable. cbn [List.filter].
  rewrite IH. reflexivity.
Qed.

Lemma sorted_length l : length (Py.sorted key l) = length l.
Proof. apply Permutation_length, sorted_perm. Qed.
End Sorting.

End SortFacts.

(** ** Facts about [ResumeRatingSystem] *)

Module RatingFacts.

Import PyFacts.
Local Open Scope Q_scope.
Local Open Scope string_scope.

Lemma of_nat_nonneg n : 0 <= Py.of_nat n.
Proof.
  unfold Py.of_nat. replace 0 with (inject_Z 0) by reflexivity.
  rewrite <- Zle_Qle. lia.
Qed.

Lemma of_nat_le n m : (n <= m)%nat -> Py.of_nat n <= Py.of_nat m.
Proof. intros H. unfold Py.of_nat. rewrite <- Zle_Qle. lia. Qed.

Lemma of_nat_S n : Py.of_nat (S n) == Py.of_nat n + 1.
Proof.
  unfold Py.of_nat. rewrite Nat2Z.inj_succ, <- Z.add_1_r, inject_Z_plus.
  reflexivity.
Qed.

(** *** Range of each criterion *)

Lemma skills_diversity_bounds skills :
  0 <= Rating.score_skills_diversity skills <= 10.
Proof.
  unfold Rating.score_skills_diversity.
  destruct (Py.is_empty skills); [lra|].
  pose proof (of_nat_nonneg (length (Py.keys skills))).
  compare_cases; q_arith.
Qed.

Lemma skills_quantity_bounds skills :
  0 <= Rating.score_skills_quantity skills <= 10.
Proof.
  unfold Rating.score_skills_quantity.
  destruct (Py.is_empty skills); [lra|].
  pose proof (of_nat_nonneg (Rating.total_skills_of skills)).
  cbn [Rating.thresholds Rating.ideal_skills Rating.min_skills].
  compare_cases; q_arith.
Qed.

Lemma add_if_present_nonneg {V} (d : gmap string V) pts fields score :
  0 <= pts -> 0 <= score ->
  0 <= Rating.add_if_present d pts score fields.
Proof.
  intros Hp. revert score. unfold Rating.add_if_present.
  induction fields as [|f fields IH]; intros score Hs; cbn [fold_left].
  - exact Hs.
  - apply IH. destruct (Py.map_mem f d); lra.
Qed.

Lemma contact_completeness_bounds contact_info :
  0 <= Rating.score_contact_completeness contact_info <= 10.
Proof.
  unfold Rating.score_contact_completeness.
  destruct (Py.map_is_empty contact_info); [lra|].
  apply capped_bounds. repeat apply add_if_present_nonneg; lra.
Qed.

Lemma add_if_true_nonneg sections pts names score :
  0 <= pts -> 0 <= score ->
  0 <= Rating.add_if_true sections pts score names.
Proof.
  intros Hp. revert score. unfold Rating.add_if_true.
  induction names as [|f names IH]; intros score Hs; cbn [fold_left].
  - exact Hs.
  - apply IH. destruct (default false (Py.get sections f)); lra.
Qed.

Lemma sections_completeness_bounds sections :
  0 <= Rating.score_sections_completeness sections <= 10.
Proof.
  unfold Rating.score_sections_completeness.
  destruct (Py.is_empty sections); [lra|].
  apply capped_bounds. repeat apply add_if_true_nonneg; lra.
Qed.

Lemma readability_bounds readability_metrics :
  0 <= Rating.score_readability readability_metrics <= 10.
Proof.
  unfold Rating.score_readability.
  destruct (Py.map_is_empty readability_metrics); [lra|].
  apply clamp_bounds.
Qed.

Lemma quality_fold_nonneg projects quality_score :
  0 <= quality_score ->
  0 <= fold_left Rating.quality_step projects quality_score.
Proof.
  revert quality_score.
  induction projects as [|p projects IH]; intros q Hq; cbn [fold_left].
  - exact Hq.
  - apply IH. unfold Rating.quality_step. compare_cases; lra.
Qed.

Lemma project_quality_bounds projects :
  0 <= Rating.score_project_quality projects <= 10.
Proof.
  unfold Rating.score_project_quality.
  destruct (Py.is_empty projects); [lra|].
  apply capped_bounds.
  pose proof (quality_fold_nonneg (take 3 projects) 0.0 ltac:(lra)).
  pose proof (of_nat_nonneg (length projects)).
  cbn [Rating.thresholds Rating.ideal_projects Rating.min_projects].
  compare_cases; q_arith.
Qed.

Lemma content_length_bounds word_count :
  0 <= word_count ->
  0 <= Rating.score_content_length word_count <= 10.
Proof.
  intros H. unfold Rating.score_content_length.
  cbn [Rating.thresholds Rating.min_word_count Rating.ideal_word_count
       Rating.max_word_count].
  compare_cases; q_arith.
Qed.


Lemma map_is_empty_false {V} (m : gmap string V) :
  m <> ∅ -> Py.map_is_empty m = false.
Proof.
  intros H. unfold Py.map_is_empty. apply Nat.eqb_neq.
  rewrite map_size_empty_iff. exact H.
Qed.

Lemma content_length_zero word_count :
  word_count == 0 -> Rating.score_content_length word_count == 0.
Proof.
  intros H. unfold Rating.score_content_length.
  cbn [Rating.thresholds Rating.min_word_count Rating.ideal_word_count
       Rating.max_word_count].
  compare_cases; q_arith.
Qed.

Lemma rating_poor overall :
  overall < 3.0 ->
  Rating.rating_of overall = ("Poor", "Resume requires complete overhaul").
Proof.
  intros H. unfold Rating.rating_of. compare_cases; try lra. reflexivity.
Qed.

(** *** The report of a bundle without error *)

Lemma weighted_terms (s1 s2 s3 s4 s5 s6 s7 : Q) :
  mapM (fun '(criterion, score) =>
          w ← Py.get Rating.weights criterion; Some (score * w))
       [ ("skills_diversity", s1); ("skills_quantity", s2);
         ("contact_completeness", s3); ("sections_completeness", s4);
         ("readability", s5); ("project_quality", s6);
         ("content_length", s7) ]
  = Some [ s1 * 0.20; s2 * 0.15; s3 * 0.10; s4 * 0.15; s5 * 0.15;
           s6 * 0.15; s7 * 0.10 ].
Proof. reflexivity. Qed.

Lemma score_breakdown_defined (s1 s2 s3 s4 s5 s6 s7 : Q) :
  is_Some (Rating._generate_score_breakdown
    [ ("skills_diversity", s1); ("skills_quantity", s2);
      ("contact_completeness", s3); ("sections_completeness", s4);
      ("readability", s5); ("project_quality", s6);
      ("content_length", s7) ]).
Proof. eexists. reflexivity. Qed.

Lemma calculate_overall_score_scored (a : AnalysisResult.t)
    (s1 s2 s3 s4 s5 s6 s7 : Q) :
  AnalysisResult.error a = None ->
  Rating.detailed_scores_of a
  = [ ("skills_diversity", s1); ("skills_quantity", s2);
      ("contact_completeness", s3); ("sections_completeness", s4);
      ("readability", s5); ("project_quality", s6);
      ("content_length", s7) ] ->
  let overall :=
    Py.round (0 + s1 * 0.20 + s2 * 0.15 + s3 * 0.10 + s4 * 0.15
              + s5 * 0.15 + s6 * 0.15 + s7 * 0.10) 1 in
  exists breakdown,
    Rating.calculate_overall_score a
    = Some {| RatingResult.overall_score := Some overall;
              RatingResult.rating_category :=
                Some (fst (Rating.rating_of overall));
              RatingResult.rating_description :=
                Some (snd (Rating.rating_of overall));
              RatingResult.detailed_scores := Some
                [ ("skills_diversity", Py.round s1 1);
                  ("skills_quantity", Py.round s2 1);
                  ("contact_completeness", Py.round s3 1);
                  ("sections_completeness", Py.round s4 1);
                  ("readability", Py.round s5 1);
                  ("project_quality", Py.round s6 1);
                  ("content_length", Py.round s7 1) ];
              RatingResult.score_breakdown := Some breakdown;
              RatingResult.improvement_priority := Some
                (Rating._identify_improvement_priorities
                   (Rating.detailed_scores_of a));
              RatingResult.error := None |}.
Proof.
  intros He Hd overall.
  destruct (score_breakdown_defined s1 s2 s3 s4 s5 s6 s7) as [b Hb].
  exists b. unfold Rating.calculate_overall_score.
  rewrite He, Hd. unfold Py.items.
  rewrite weighted_terms, Hb. cbn [mbind option_bind].
  change (Py.round (Py.sum _) 1) with overall.
  destruct (Rating.rating_of overall). reflexivity.
Qed.


Lemma calculate_overall_score_failed (a : AnalysisResult.t) (err : string) :
  AnalysisResult.error a = Some err ->
  Rating.calculate_overall_score a
  = Some {| RatingResult.overall_score := Some 0.0%Q;
            RatingResult.rating_category := None;
            RatingResult.rating_description := None;
            RatingResult.detailed_scores := Some [];
            RatingResult.score_breakdown := None;
            RatingResult.improvement_priority := None;
            RatingResult.error := Some err |}.
Proof.
  intros H. unfold Rating.calculate_overall_score. rewrite H. reflexivity.
Qed.

Lemma raw_scores_bounds (a : AnalysisResult.t) :
  0 <= Spec.word_count_of a ->
  Forall (fun kv => 0 <= snd kv <= 10) (Rating.detailed_scores_of a).
Proof.
  intros Hw. unfold Rating.detailed_scores_of.
  repeat constructor; cbn [snd];
    first [ apply skills_diversity_bounds | apply skills_quantity_bounds
          | apply contact_completeness_bounds
          | apply sections_completeness_bounds | apply readability_bounds
          | apply project_quality_bounds
          | apply content_length_bounds; exact Hw ].
Qed.

(** *** Improvement priorities *)

Lemma priorities_loop (l : list (string * Q)) (init : list string) :
  fold_left (fun priorities '(criterion, score) =>
               if Py.ltb score 7.0
               then Py.append priorities (Rating.display_name criterion)
               else priorities) l init
  = (init ++ map (fun kv => Rating.display_name (fst kv))
                 (List.filter (fun kv => Py.ltb (snd kv) 7.0) l))%list.
Proof.
  revert init. induction l as [|[c s] l IH]; intros init; cbn.
  - rewrite app_nil_r. reflexivity.
  - rewrite IH. destruct (Py.ltb s 7.0); [|reflexivity].
    unfold Py.append. rewrite <- app_assoc. reflexivity.
Qed.

Lemma filter_length_le {A} (f : A -> bool) (l : list A) :
  (length (List.filter f l) <= length l)%nat.
Proof.
  induction l as [|x l IH]; cbn; [lia|]. destruct (f x); cbn; lia.
Qed.

(** The names under which the seven criteria are listed. *)
Lemma display_names :
  map Rating.display_name Spec.criteria
  = [ "Skills Diversity"; "Skills Quantity"; "Contact Completeness";
      "Sections Completeness"; "Readability"; "Project Quality";
      "Content Length" ].
Proof. reflexivity. Qed.

End RatingFacts.

(** ** Theorems about [ResumeRatingSystem] *)

Module RatingTheorems.

Import PyFacts SortFacts RatingFacts.
Local Open Scope Q_scope.
Local Open Scope string_scope.

(** C1, as the code has it.  For a degenerate bundle scoring returns a
    report in which the six detailed scores other than readability are
    0.0, the readability score lies in [[0, 10]], [overall_score] lies in
    [[0, 1.5]] and [rating_category] is Poor.  With an empty readability
    map the readability score is 5.0 and the overall score 0.8; with the
    map [calculate_readability] returns for a text without words they are
    10.0 and 1.5. *)
Theorem degenerate_bundle_report (a : AnalysisResult.t) :
  Spec.degenerate a ->
  let readability := default ∅ (AnalysisResult.readability a) in
  exists r d v o,
    Rating.calculate_overall_score a = Some r /\
    RatingResult.detailed_scores r = Some d /\
    Py.keys d = Spec.criteria /\
    (forall k x, Py.get d k = Some x -> k <> "readability" -> x == 0) /\
    Py.get d "readability" = Some v /\ 0 <= v <= 10 /\
    RatingResult.overall_score r = Some o /\ 0 <= o <= 1.5 /\
    RatingResult.rating_category r = Some "Poor" /\
    (readability = ∅ -> v == 5.0 /\ o == 0.8) /\
    (readability = Analyzer.calculate_readability [] [] ->
     v == 10.0 /\ o == 1.5).
Proof.
  intros (He & Hsk & Hci & Hse & Hpr & Hwc) readability.
  set (s := Rating.score_readability readability).
  destruct (calculate_overall_score_scored a _ _ _ _ _ _ _ He eq_refl)
    as [b Hr].
  rewrite Hsk, Hci, Hse, Hpr in Hr. fold readability in Hr.
  change (default 0%Q (readability !! "word_count"))
    with (Spec.word_count_of a) in Hr.
  fold s in Hr.
  change (Rating.score_skills_diversity []) with 0.0 in Hr.
  change (Rating.score_skills_quantity []) with 0.0 in Hr.
  change (Rating.score_contact_completeness ∅) with 0.0 in Hr.
  change (Rating.score_sections_completeness []) with 0.0 in Hr.
  change (Rating.score_project_quality []) with 0.0 in Hr.
  pose proof (content_length_zero _ Hwc) as Hcl.
  set (cl := Rating.score_content_length (Spec.word_count_of a)) in *.
  pose proof (readability_bounds readability) as Hs. fold s in Hs.
  set (total := 0 + 0.0 * 0.20 + 0.0 * 0.15 + 0.0 * 0.10 + 0.0 * 0.15
                + s * 0.15 + 0.0 * 0.15 + cl * 0.10) in *.
  assert (total == s * 0.15) as Htotal by (unfold total; lra).
  assert (Py.round total 1 = Py.round (s * 0.15) 1) as Ho
    by (apply round_proper; exact Htotal).
  assert (0 <= Py.round total 1 <= 1.5) as Hrange.
  { pose proof (round_between 0 15 total 1) as H.
    change (inject_Z (10 ^ Z.of_nat 1)) with 10 in H.
    assert (inject_Z 0 / 10 == 0) as E0 by reflexivity.
    assert (inject_Z 15 / 10 == 1.5) as E15 by reflexivity.
    rewrite E0, E15 in H. apply H; lra. }
  assert (Py.round total 1 < 3.0) as Hlow by lra.
  rewrite (rating_poor _ Hlow) in Hr. cbn [fst snd] in Hr.
  eexists _, _, _, _. split; [exact Hr|].
  cbn [RatingResult.detailed_scores RatingResult.overall_score
       RatingResult.rating_category].
  split; [reflexivity|]. split; [reflexivity|]. split; [|split].
  - intros k x Hget Hk. cbn [Py.get] in Hget.
    repeat match type of Hget with
    | (if String.eqb k ?n then _ else _) = _ =>
        let E := fresh "E" in
        destruct (String.eqb k n) eqn:E;
        [ apply String.eqb_eq in E; injection Hget as <-;
          try (exfalso; apply Hk; exact E)
        | ]
    end; try discriminate;
      first [ exact (round_zero _ 1 Hcl) | apply round_zero; reflexivity ].
  - reflexivity.
  - split; [apply round_bounds; exact Hs|].
    split; [reflexivity|]. split; [exact Hrange|].
    split; [reflexivity|]. rewrite Ho. subst s.
    split; intros ->; split; reflexivity.
Qed.

Lemma degenerate_bundle_report_witness :
  exists r o,
    Rating.calculate_overall_score Spec.zero_word_bundle = Some r /\
    RatingResult.overall_score r = Some o /\ o == 1.5 /\
    RatingResult.rating_category r = Some "Poor".
Proof.
  assert (Spec.degenerate Spec.zero_word_bundle) as Hd.
  { repeat split. }
  destruct (degenerate_bundle_report Spec.zero_word_bundle Hd)
    as (r & d & v & o & Hr & _ & _ & _ & _ & _ & Ho & _ & Hc & _ & Hz).
  exists r, o. repeat split; try assumption. apply Hz. reflexivity.
Defined.

(** C1, counterexample.  The degenerate bundle of a text without words
    has a readability score of 10.0 and an overall score of 1.5: neither
    is 0.0. *)
Lemma degenerate_scores_are_not_all_zero :
  Spec.degenerate Spec.zero_word_bundle /\
  exists r d v o,
    Rating.calculate_overall_score Spec.zero_word_bundle = Some r /\
    RatingResult.detailed_scores r = Some d /\
    Py.get d "readability" = Some v /\ v == 10.0 /\ ~ v == 0 /\
    RatingResult.overall_score r = Some o /\ o == 1.5 /\ ~ o == 0.
Proof.
  split; [repeat split|].
  eexists _, _, _, _. split; [vm_compute; reflexivity|].
  cbn [RatingResult.detailed_scores RatingResult.overall_score].
  split; [reflexivity|]. split; [reflexivity|].
  repeat split; discriminate.
Qed.

(** C7.  Monotonicity of the two skills criteria: a skills map with at
    least as many categories never scores lower on [skills_diversity],
    and a skills map with at least as many skills in total never scores
    lower on [skills_quantity]. *)
Theorem skills_scores_monotone (skills1 skills2 : Py.dict (list string)) :
  ((length (Py.keys skills1) <= length (Py.keys skills2))%nat ->
   Rating.score_skills_diversity skills1
     <= Rating.score_skills_diversity skills2) /\
  ((Rating.total_skills_of skills1 <= Rating.total_skills_of skills2)%nat ->
   Rating.score_skills_quantity skills1
     <= Rating.score_skills_quantity skills2).
Proof.
  split; intros H.
  - destruct skills1 as [|e1 l1].
    { change (Rating.score_skills_diversity []) with 0.0.
      pose proof (skills_diversity_bounds skills2). lra. }
    destruct skills2 as [|e2 l2]; [cbn in H; lia|].
    apply of_nat_le in H. unfold Rating.score_skills_diversity.
    cbn [Py.is_empty].
    set (c1 := Py.of_nat _) in *. set (c2 := Py.of_nat _) in *.
    compare_cases; q_arith.
  - destruct skills1 as [|e1 l1].
    { change (Rating.score_skills_quantity []) with 0.0.
      pose proof (skills_quantity_bounds skills2). lra. }
    pose proof (of_nat_nonneg (Rating.total_skills_of (e1 :: l1))) as H1.
    apply of_nat_le in H. unfold Rating.score_skills_quantity at 1.
    cbn [Py.is_empty Rating.thresholds Rating.ideal_skills Rating.min_skills].
    destruct skills2 as [|e2 l2].
    + change (Py.of_nat (Rating.total_skills_of [])) with 0 in H.
      change (Rating.score_skills_quantity []) with 0.0.
      set (t1 := Py.of_nat _) in *. compare_cases; q_arith.
    + unfold Rating.score_skills_quantity.
      cbn [Py.is_empty Rating.thresholds Rating.ideal_skills
           Rating.min_skills].
      set (t1 := Py.of_nat _) in *. set (t2 := Py.of_nat _) in *.
      compare_cases; q_arith.
Qed.

Lemma skills_scores_monotone_witness :
  Rating.score_skills_diversity [("databases", ["mysql"])]
    <= Rating.score_skills_diversity
         [("databases", ["mysql"]); ("soft_skills", ["teamwork"])] /\
  Rating.score_skills_quantity [("databases", ["mysql"])]
    <= Rating.score_skills_quantity [("databases", ["mysql"; "redis"])].
Proof.
  split.
  - apply (proj1 (skills_scores_monotone _ _)). cbn. lia.
  - apply (proj2 (skills_scores_monotone _ _)). cbn. lia.
Defined.

(** C2, as the code has it.  The content-length curve: below 150 words
    the score is [word_count / 150 * 4]; from 150 to 400 words it rises
    linearly from 7 to 10; from 400 to 800 words it falls linearly from 10
    to 7; above 800 words it is 5.  At the boundaries the score is 7.0 for
    150 words, 10.0 for 400 words and 7.0 for 800 words. *)
Theorem content_length_curve (word_count : Q) :
  (word_count < 150 ->
   Rating.score_content_length word_count == word_count / 150 * 4) /\
  (150 <= word_count <= 400 ->
   Rating.score_content_length word_count
     == 7 + (word_count - 150) / 250 * 3) /\
  (400 < word_count <= 800 ->
   Rating.score_content_length word_count
     == 10 - (word_count - 400) / 400 * 3) /\
  (800 < word_count -> Rating.score_content_length word_count == 5) /\
  Rating.score_content_length 150 == 7.0 /\
  Rating.score_content_length 400 == 10.0 /\
  Rating.score_content_length 800 == 7.0.
Proof.
  unfold Rating.score_content_length.
  cbn [Rating.thresholds Rating.min_word_count Rating.ideal_word_count
       Rating.max_word_count].
  repeat split; try reflexivity; intros H; compare_cases; q_arith.
Qed.

Lemma content_length_curve_witness :
  Rating.score_content_length 600 == 8.5.
Proof.
  rewrite (proj1 (proj2 (proj2 (content_length_curve 600)))).
  - reflexivity.
  - split; [reflexivity | discriminate].
Defined.

(** C2, counterexample.  An 800-word resume does not score 5.0 on
    content length (it scores 7.0). *)
Lemma content_length_800_is_not_5 :
  ~ Rating.score_content_length 800 == 5.0.
Proof. vm_compute. discriminate. Qed.

(** C5.  Score bounds: for every feature bundle (whose word count, as
    the data model requires, is not negative) scoring returns a report;
    each of the seven criterion scores, before and after rounding, lies in
    [[0, 10]], and so does [overall_score]. *)
Theorem scores_within_bounds (a : AnalysisResult.t) :
  0 <= Spec.word_count_of a ->
  exists r detailed overall,
    Rating.calculate_overall_score a = Some r /\
    RatingResult.detailed_scores r = Some detailed /\
    RatingResult.overall_score r = Some overall /\
    (AnalysisResult.error a = None -> Py.keys detailed = Spec.criteria) /\
    Forall (fun kv => 0 <= snd kv <= 10) (Rating.detailed_scores_of a) /\
    Forall (fun kv => 0 <= snd kv <= 10) detailed /\
    0 <= overall <= 10.
Proof.
  intros Hw. pose proof (raw_scores_bounds a Hw) as Hraw.
  destruct (AnalysisResult.error a) as [err|] eqn:He.
  - eexists _, _, _. split; [apply calculate_overall_score_failed; exact He|].
    cbn. repeat split; try discriminate; try exact Hraw; constructor.
  - destruct (calculate_overall_score_scored a _ _ _ _ _ _ _ He eq_refl)
      as [b Hr].
    eexists _, _, _. split; [exact Hr|]. cbn [RatingResult.detailed_scores
      RatingResult.overall_score].
    split; [reflexivity|]. split; [reflexivity|]. split; [reflexivity|].
    split; [exact Hraw|].
    unfold Rating.detailed_scores_of in Hraw.
    repeat match goal with
    | H : Forall _ (_ :: _) |- _ =>
        let Hx := fresh "Hx" in
        apply Forall_cons in H; destruct H as [Hx H]; cbn [snd] in Hx
    end.
    split.
    + repeat constructor; cbn [snd]; apply round_bounds; assumption.
    + apply round_bounds. lra.
Qed.

Lemma scores_within_bounds_witness :
  exists r detailed overall,
    Rating.calculate_overall_score Spec.ideal_bundle = Some r /\
    RatingResult.detailed_scores r = Some detailed /\
    RatingResult.overall_score r = Some overall /\
    (AnalysisResult.error Spec.ideal_bundle = None ->
     Py.keys detailed = Spec.criteria) /\
    Forall (fun kv => 0 <= snd kv <= 10)
           (Rating.detailed_scores_of Spec.ideal_bundle) /\
    Forall (fun kv => 0 <= snd kv <= 10) detailed /\
    0 <= overall <= 10.
Proof.
  apply (scores_within_bounds Spec.ideal_bundle).
  vm_compute. discriminate.
Defined.

(** C6.  Improvement priorities: the criteria are ranked by score
    ascending ([sorted] permutes them, orders them by score and keeps
    criteria of equal score in their listed order); of the first three of
    the ranking, those that score strictly below 7.0 are returned, in
    that order and under their display names, so at most three and
    possibly none. *)
Theorem improvement_priorities (detailed_scores : Py.dict Q) :
  let ranked := Py.sorted snd (Py.items detailed_scores) in
  ranked ≡ₚ detailed_scores /\
  StronglySorted (fun a b => snd a <= snd b) ranked /\
  (forall q, List.filter (fun kv => Qeq_bool (snd kv) q) ranked
             = List.filter (fun kv => Qeq_bool (snd kv) q) detailed_scores) /\
  Rating._identify_improvement_priorities detailed_scores
  = map (fun kv => Rating.display_name (fst kv))
        (List.filter (fun kv => Py.ltb (snd kv) 7.0) (take 3 ranked)) /\
  Rating._identify_improvement_priorities detailed_scores
  = Spec.improvement_priority_spec detailed_scores /\
  (length (Rating._identify_improvement_priorities detailed_scores) <= 3)%nat.
Proof.
  intros ranked. unfold Py.items in ranked.
  assert (Rating._identify_improvement_priorities detailed_scores
          = map (fun kv => Rating.display_name (fst kv))
                (List.filter (fun kv => Py.ltb (snd kv) 7.0) (take 3 ranked)))
    as Heq.
  { unfold Rating._identify_improvement_priorities. apply priorities_loop. }
  split; [apply sorted_perm|]. split; [apply sorted_sorted|].
  split; [intros q; apply sorted_stable|].
  split; [exact Heq|]. split; [exact Heq|].
  rewrite Heq, length_map.
  etransitivity; [apply filter_length_le|]. rewrite length_take. lia.
Qed.

(** C10.  Readability defaults: the empty mapping scores exactly 5.0; a
    non-empty mapping without [avg_sentence_length] is scored with
    sentence length 20, one without [complexity_ratio] with complexity
    ratio 0.3, which give sub-scores 4.0 and 5.0; a non-empty mapping
    lacking both keys scores 9.0, not 0. *)
Theorem readability_defaults :
  Rating.score_readability ∅ == 5.0 /\
  (forall m : gmap string Q, m <> ∅ ->
     m !! "avg_sentence_length" = None ->
     Rating.score_readability m
     == Py.max 0 (Py.min (Rating.length_score 20
                          + Rating.complexity_score
                              (default 0.3%Q (m !! "complexity_ratio")))
                         10.0)) /\
  (forall m : gmap string Q, m <> ∅ ->
     m !! "complexity_ratio" = None ->
     Rating.score_readability m
     == Py.max 0 (Py.min (Rating.length_score
                            (default 20%Q (m !! "avg_sentence_length"))
                          + Rating.complexity_score 0.3)
                         10.0)) /\
  Rating.length_score 20 == 4.0 /\
  Rating.complexity_score 0.3 == 5.0 /\
  (forall m : gmap string Q, m <> ∅ ->
     m !! "avg_sentence_length" = None ->
     m !! "complexity_ratio" = None ->
     Rating.score_readability m == 9.0).
Proof.
  repeat split; try reflexivity.
  - intros m Hm Ha. unfold Rating.score_readability.
    rewrite (map_is_empty_false m Hm), Ha. reflexivity.
  - intros m Hm Hc. unfold Rating.score_readability.
    rewrite (map_is_empty_false m Hm), Hc. reflexivity.
  - intros m Hm Ha Hc. unfold Rating.score_readability.
    rewrite (map_is_empty_false m Hm), Ha, Hc. reflexivity.
Qed.

Lemma readability_defaults_witness :
  Rating.score_readability {[ "word_count" := 120%Q ]} == 9.0.
Proof.
  apply (proj2 (proj2 (proj2 (proj2 (proj2 readability_defaults))))).
  - apply (map_non_empty_singleton (M := gmap string)).
  - reflexivity.
  - reflexivity.
Defined.

(** C8.  A bundle that carries an [error] is not scored: the result is
    returned without any exception, with [overall_score] 0.0, an empty
    [detailed_scores] and the same [error]. *)
Theorem error_short_circuit (a : AnalysisResult.t) (err : string) :
  AnalysisResult.error a = Some err ->
  Rating.calculate_overall_score a
  = Some {| RatingResult.overall_score := Some 0.0%Q;
            RatingResult.rating_category := None;
            RatingResult.rating_description := None;
            RatingResult.detailed_scores := Some [];
            RatingResult.score_breakdown := None;
            RatingResult.improvement_priority := None;
            RatingResult.error := Some err |}.
Proof. apply calculate_overall_score_failed. Qed.

Lemma error_short_circuit_witness :
  exists r,
    Rating.calculate_overall_score Spec.failed_bundle = Some r /\
    RatingResult.overall_score r = Some 0.0%Q /\
    RatingResult.detailed_scores r = Some [] /\
    RatingResult.error r = Some "No text provided for analysis".
Proof.
  eexists. split.
  - apply (error_short_circuit Spec.failed_bundle
             "No text provided for analysis"). reflexivity.
  - repeat split.
Defined.

End RatingTheorems.

(** ** Theorems about [TextAnalyzer] *)

Module AnalyzerTheorems.

Local Open Scope string_scope.

(** Each contact field is bound exactly when its pattern matches, to the
    first element of the [findall] list. *)
Lemma contact_fields (text : string) :
  let contact_info := Analyzer.analyze_contact_info text in
  contact_info !! "email"
  = Analyzer.as_str <$> head (Re.findall Analyzer.email_pattern text) /\
  contact_info !! "phone"
  = Analyzer.join_if_tuple
      <$> head (Re.findall Analyzer.phone_pattern text) /\
  contact_info !! "linkedin"
  = Analyzer.as_str
      <$> head (Re.findall Analyzer.linkedin_pattern (Py.lower text)) /\
  contact_info !! "github"
  = Analyzer.as_str
      <$> head (Re.findall Analyzer.github_pattern (Py.lower text)).
Proof.
  unfold Analyzer.analyze_contact_info.
  destruct (Re.findall Analyzer.email_pattern text) as [|e es];
  destruct (Re.findall Analyzer.phone_pattern text) as [|p ps];
  destruct (Re.findall Analyzer.linkedin_pattern _) as [|li lis];
  destruct (Re.findall Analyzer.github_pattern _) as [|gh ghs];
  cbn [head fmap option_fmap option_map];
  repeat split; simplify_map_eq; reflexivity.
Qed.

(** C3, at the failing input.  In a text whose first phone number is
    555-123-4567 the phone pattern matches exactly that number, with its
    optional country-code group taking no part; [findall] lists the group,
    not the match, so the [phone] field is bound to the empty string. *)
Theorem phone_field_is_the_empty_group :
  (exists st,
     Re.match_here Analyzer.phone_pattern (Some " "%char) "555-123-4567"
     = Some st /\
     Re.matched st = "555-123-4567" /\ Re.groups st !! 1%nat = None) /\
  Re.findall Analyzer.phone_pattern Spec.phone_text = [Re.Str ""] /\
  Analyzer.analyze_contact_info Spec.phone_text !! "phone" = Some "".
Proof.
  split; [eexists; split; [vm_compute; reflexivity|]; split; reflexivity|].
  split; vm_compute; reflexivity.
Qed.

(** With a country code the field holds the code, not the number. *)
Lemma phone_field_is_the_country_code :
  Analyzer.analyze_contact_info "Call +1 555-123-4567 now" !! "phone"
  = Some "+1 ".
Proof. vm_compute. reflexivity. Qed.

(** C9, as the code has it.  For a job title whose lower-cased form is
    not a key of the job-keyword table, [compare_with_job] returns,
    without raising, an error object with [match_score] 0 and an empty
    [missing_keywords] list; the object has no [required_keywords],
    [matched_keywords] or [recommendations] field. *)
Theorem unknown_job_title (job_keywords : gmap string (list string))
    (resume_analysis : AnalysisResult.t) (job_title : string) :
  job_keywords !! Py.lower job_title = None ->
  Analyzer.compare_with_job job_keywords resume_analysis job_title
  = {| JobComparison.error :=
         Some ("Job title " ++ Analyzer.quote ++ job_title
               ++ Analyzer.quote ++ " not found in database");
       JobComparison.required_keywords := None;
       JobComparison.matched_keywords := None;
       JobComparison.missing_keywords := Some [];
       JobComparison.match_score := Some 0%Q;
       JobComparison.recommendations := None |}.
Proof.
  intros H. unfold Analyzer.compare_with_job. rewrite H. reflexivity.
Qed.

Lemma unknown_job_title_witness :
  JobComparison.match_score
    (Analyzer.compare_with_job Spec.sample_job_keywords Spec.ideal_bundle
                               "Nonexistent Title")
  = Some 0%Q.
Proof.
  rewrite (unknown_job_title Spec.sample_job_keywords Spec.ideal_bundle
             "Nonexistent Title"); reflexivity.
Defined.

(** C9, counterexample.  For the title Nonexistent Title, absent from the
    sample table, the error object binds neither [required_keywords] nor
    [matched_keywords]: they are not empty lists. *)
Lemma unknown_job_title_lists_are_absent :
  Spec.sample_job_keywords !! Py.lower "Nonexistent Title" = None /\
  let result :=
    Analyzer.compare_with_job Spec.sample_job_keywords Spec.ideal_bundle
                              "Nonexistent Title" in
  JobComparison.required_keywords result = None /\
  JobComparison.matched_keywords result = None /\
  JobComparison.required_keywords result <> Some [] /\
  JobComparison.matched_keywords result <> Some [].
Proof. repeat split; discriminate. Qed.

End AnalyzerTheorems.

(** ** Facts about [SuggestionsSystem] *)

Module SuggestionFacts.

Import Random PyFacts.
Local Open Scope string_scope.

(** *** Loops in the generator monad *)

Lemma for_each_invariant {A S} (P : S -> Prop) (xs : list A)
    (body : S -> A -> M S) (s : S) (g : Random.t) :
  P s ->
  (forall s x g, P s -> P (fst (body s x g))) ->
  P (fst (for_each xs body s g)).
Proof.
  intros Hs Hbody. revert s g Hs.
  induction xs as [|x xs IH]; intros s g Hs; cbn [for_each].
  - exact Hs.
  - unfold bind. specialize (Hbody s x g Hs).
    destruct (body s x g) as [s' g']. apply IH. exact Hbody.
Qed.

(** *** Suggestions are never empty strings *)

Lemma filled_append l x :
  Spec.filled l -> x <> EmptyString -> Spec.filled (Py.append l x).
Proof.
  intros Hl Hx. unfold Py.append, Spec.filled. apply Forall_app.
  split; [exact Hl|]. constructor; [exact Hx | constructor].
Qed.

Ltac filled_by_cases :=
  repeat match goal with
  | |- context [if ?b then _ else _] => destruct b
  end;
  repeat first [ apply filled_append; [|discriminate] | constructor ].

Lemma content_suggestions_filled a detailed_scores :
  Spec.filled (Suggestions.generate_content_suggestions a detailed_scores).
Proof. unfold Suggestions.generate_content_suggestions. filled_by_cases. Qed.

Lemma section_suggestions_filled sections detailed_scores g :
  Spec.filled (fst (Suggestions.generate_section_suggestions
                 sections detailed_scores g)).
Proof.
  unfold Suggestions.generate_section_suggestions, bind.
  set (missing := fold_left _ _ _).
  assert (Spec.filled missing) as Hm.
  { subst missing. cbn [fold_left]. filled_by_cases. }
  clearbody missing.
  destruct (for_each _ _ missing g) as [added g1] eqn:E.
  assert (Spec.filled added) as Ha.
  { change added with (fst (added, g1)). rewrite <- E.
    apply for_each_invariant; [exact Hm|].
    intros s x g0 Hs. destruct (negb _); [|exact Hs].
    unfold bind. destruct (choice _ g0) as [c g2]. cbn [ret fst].
    apply filled_append; [exact Hs | discriminate]. }
  destruct (Py.ltb _ _); [|exact Ha].
  apply for_each_invariant; [exact Ha|].
  intros s [section is_present] g0 Hs.
  destruct (is_present && _); [|exact Hs].
  unfold bind. destruct (choice _ g0) as [c g2]. cbn [ret fst].
  apply filled_append; [exact Hs | discriminate].
Qed.

(** *** De-duplication *)

Lemma unique_nonempty_nil (xs : list string) :
  Spec.filled xs -> Suggestions.unique_nonempty xs = [] <-> xs = [].
Proof.
  intros Hf. unfold Suggestions.unique_nonempty, Suggestions.list_of_set.
  rewrite elements_empty_iff. split.
  - intros He. destruct xs as [|x xs]; [reflexivity|]. exfalso.
    apply Forall_cons in Hf. destruct Hf as [Hx _].
    apply (not_elem_of_empty (C := gset string) x). rewrite <- He.
    apply elem_of_list_to_set, list_elem_of_filter.
    split; [exact Hx | apply elem_of_cons; left; reflexivity].
  - intros ->. reflexivity.
Qed.

Lemma slice_nil {A} (l : list A) :
  take 2 (drop 2 l) = [] <-> (length l <= 2)%nat.
Proof.
  rewrite <- length_zero_iff_nil, length_take, length_drop. lia.
Qed.

(** *** When no suggestion is produced *)

Lemma content_suggestions_none a detailed_scores :
  (7.0 <= Suggestions.score_of detailed_scores "content_length")%Q ->
  (7.0 <= Suggestions.score_of detailed_scores "readability")%Q ->
  (7.0 <= Suggestions.score_of detailed_scores "project_quality")%Q ->
  (8.0 <= Suggestions.score_of detailed_scores "contact_completeness")%Q ->
  Suggestions.generate_content_suggestions a detailed_scores = [].
Proof.
  intros H1 H2 H3 H4. unfold Suggestions.generate_content_suggestions.
  apply ltb_false in H1, H2, H3, H4. rewrite H1, H2, H3, H4. reflexivity.
Qed.

Lemma section_suggestions_none sections detailed_scores g :
  Spec.present sections "experience" -> Spec.present sections "education" ->
  Spec.present sections "skills" -> Spec.present sections "summary" ->
  Spec.present sections "projects" ->
  (8.0 <= Suggestions.score_of detailed_scores "sections_completeness")%Q ->
  fst (Suggestions.generate_section_suggestions sections detailed_scores g)
  = [].
Proof.
  unfold Spec.present. intros H1 H2 H3 H4 H5 H6. apply ltb_false in H6.
  unfold Suggestions.generate_section_suggestions, bind.
  cbn [fold_left for_each]. unfold bind.
  rewrite H1, H2, H3, H4, H5, H6. reflexivity.
Qed.

(** *** The important tier *)

Lemma important_tier_slices a r g :
  exists g',
    PrioritySuggestions.important
      (fst (Suggestions.generate_priority_suggestions a r g))
    = Suggestions.unique_nonempty
        (take 2 (drop 2 (Suggestions.generate_content_suggestions a
                           (default [] (RatingResult.detailed_scores r))))
         ++ take 2 (drop 2 (fst (Suggestions.generate_section_suggestions
                           (default [] (AnalysisResult.sections a))
                           (default [] (RatingResult.detailed_scores r))
                           g'))))%list.
Proof.
  unfold Suggestions.generate_priority_suggestions, bind.
  destruct (for_each _ _ _ g) as [critical g1]. exists g1.
  destruct (Suggestions.generate_section_suggestions _ _ g1) as [found g2].
  destruct (Suggestions.generate_formatting_suggestions _ g2) as [tips g3].
  destruct (Suggestions.generate_content_enhancement_tips g3) as [more g4].
  reflexivity.
Qed.

End SuggestionFacts.

(** ** Theorems about [SuggestionsSystem] *)

Module SuggestionTheorems.

Import Random PyFacts SuggestionFacts.
Local Open Scope string_scope.

(** C4, as the code has it.  The important tier is the de-duplicated
    union of the [[2:4]] slices of the content-suggestion and
    section-suggestion lists, whatever the critical tier holds.  It is
    empty exactly when each of the two lists has at most two entries; in
    particular it is empty when the content criteria score at least 7.0,
    contact and sections completeness at least 8.0, and the experience,
    education, skills, summary and projects sections are present. *)
Theorem important_tier (a : AnalysisResult.t) (r : RatingResult.t)
    (g : Random.t) :
  let detailed := default [] (RatingResult.detailed_scores r) in
  let sections := default [] (AnalysisResult.sections a) in
  let content := Suggestions.generate_content_suggestions a detailed in
  let tier :=
    PrioritySuggestions.important
      (fst (Suggestions.generate_priority_suggestions a r g)) in
  exists g',
    let section :=
      fst (Suggestions.generate_section_suggestions sections detailed g') in
    tier = Suggestions.unique_nonempty
             (take 2 (drop 2 content) ++ take 2 (drop 2 section))%list /\
    (tier = [] <-> (length content <= 2 /\ length section <= 2)%nat) /\
    ((7.0 <= Suggestions.score_of detailed "content_length")%Q ->
     (7.0 <= Suggestions.score_of detailed "readability")%Q ->
     (7.0 <= Suggestions.score_of detailed "project_quality")%Q ->
     (8.0 <= Suggestions.score_of detailed "contact_completeness")%Q ->
     (8.0 <= Suggestions.score_of detailed "sections_completeness")%Q ->
     Forall (Spec.present sections)
            ["experience"; "education"; "skills"; "summary"; "projects"] ->
     tier = []).
Proof.
  intros detailed sections content tier.
  destruct (important_tier_slices a r g) as [g' Ht].
  fold detailed sections content tier in Ht. exists g'. intros section.
  fold section in Ht.
  assert (tier = [] <-> (length content <= 2 /\ length section <= 2)%nat)
    as Hiff.
  { rewrite Ht, unique_nonempty_nil.
    - rewrite <- !slice_nil. split.
      + intros H. apply app_eq_nil in H. exact H.
      + intros [-> ->]. reflexivity.
    - apply Forall_app. split; apply Forall_take, Forall_drop.
      + apply content_suggestions_filled.
      + apply section_suggestions_filled. }
  split; [exact Ht|]. split; [exact Hiff|].
  intros H1 H2 H3 H4 H5 Hp. apply Hiff.
  subst content section.
  rewrite content_suggestions_none by assumption.
  repeat match goal with
  | H : Forall _ (_ :: _) |- _ =>
      let Hx := fresh "Hx" in apply Forall_cons in H; destruct H as [Hx H]
  end.
  rewrite section_suggestions_none by assumption. cbn. lia.
Qed.

Lemma important_tier_witness :
  PrioritySuggestions.important
    (fst (Suggestions.generate_priority_suggestions
            Spec.ideal_bundle Spec.ideal_rating Spec.some_generator))
  = [].
Proof.
  destruct (important_tier Spec.ideal_bundle Spec.ideal_rating
              Spec.some_generator) as (g' & _ & _ & H).
  apply H.
  - vm_compute; discriminate.
  - vm_compute; discriminate.
  - vm_compute; discriminate.
  - vm_compute; discriminate.
  - vm_compute; discriminate.
  - repeat (apply Forall_cons; split; [reflexivity|]). constructor.
Defined.

(** C4, counterexample.  For the ideal resume and its report the
    important tier is empty. *)
Lemma important_tier_can_be_empty :
  PrioritySuggestions.important
    (fst (Suggestions.generate_priority_suggestions
            Spec.ideal_bundle Spec.ideal_rating Spec.some_generator))
  = [] /\
  Forall (fun kv => (9.6 <= snd kv)%Q)
         (default [] (RatingResult.detailed_scores Spec.ideal_rating)).
Proof.
  split; [vm_compute; reflexivity|].
  vm_compute. repeat constructor; discriminate.
Qed.

End SuggestionTheorems.

(** ** Rounding and sorting are monotone *)

Module OrderFacts.

Import PyFacts.
Local Open Scope Q_scope.

Lemma round_half_even_mono x y :
  x <= y -> (Py.round_half_even x <= Py.round_half_even y)%Z.
Proof.
  intros H. pose proof (Qfloor_resp_le x y H) as Hf.
  destruct (Z.eq_dec (Qfloor x) (Qfloor y)) as [E|N].
  - unfold Py.round_half_even. rewrite E.
    destruct (Qcompare (x - _) _) eqn:Cx, (Qcompare (y - _) _) eqn:Cy;
      try (destruct (Z.even (Qfloor y))); try lia;
      repeat match goal with
      | C : Qcompare _ _ = Eq |- _ => apply Qeq_alt in C
      | C : Qcompare _ _ = Lt |- _ => apply Qlt_alt in C
      | C : Qcompare _ _ = Gt |- _ => apply Qgt_alt in C
      end;
      exfalso; lra.
  - assert (Qfloor x + 1 <= Qfloor y)%Z as Hlt by lia.
    assert (Py.round_half_even x <= Qfloor x + 1)%Z as Hx.
    { unfold Py.round_half_even.
      destruct (Qcompare _ _); [destruct (Z.even _)| |]; lia. }
    assert (Qfloor y <= Py.round_half_even y)%Z as Hy.
    { unfold Py.round_half_even.
      destruct (Qcompare _ _); [destruct (Z.even _)| |]; lia. }
    lia.
Qed.

Lemma round_mono x y n : x <= y -> Py.round x n <= Py.round y n.
Proof.
  intros H. unfold Py.round. pose proof (pow10_pos n) as Hp.
  set (p := inject_Z (10 ^ Z.of_nat n)) in *.
  assert (x * p <= y * p) as Hxy by (apply Qmult_le_compat_r; lra).
  apply round_half_even_mono in Hxy. rewrite Zle_Qle in Hxy.
  unfold Qdiv. apply Qmult_le_compat_r; [exact Hxy|].
  apply Qlt_le_weak, Qinv_lt_0_compat, Hp.
Qed.

Section SortingDescending.
Context {A : Type} (key : A -> Q).

Lemma insert_desc_perm x l : Py.insert_desc key x l ≡ₚ x :: l.
Proof.
  induction l as [|y l IH]; cbn [Py.insert_desc]; [reflexivity|].
  destruct (Py.leb (key y) (key x)); [reflexivity|].
  rewrite IH. apply Permutation_swap.
Qed.

Lemma sorted_reverse_perm l : Py.sorted_reverse key l ≡ₚ l.
Proof.
  induction l as [|x l IH]; cbn; [reflexivity|].
  fold (Py.sorted_reverse key l). rewrite insert_desc_perm, IH. reflexivity.
Qed.

Lemma insert_desc_sorted x l :
  StronglySorted (fun a b => key b <= key a) l ->
  StronglySorted (fun a b => key b <= key a) (Py.insert_desc key x l).
Proof.
  induction 1 as [|y l Hs IH Hy]; cbn [Py.insert_desc].
  - repeat constructor.
  - destruct (Py.leb (key y) (key x)) eqn:E.
    + apply leb_true in E. constructor; [constructor; assumption|].
      constructor; [exact E|].
      eapply Forall_impl; [exact Hy|]. cbn. intros z Hz. lra.
    + apply leb_false in E. constructor; [exact IH|].
      rewrite insert_desc_perm. constructor; [lra | exact Hy].
Qed.

Lemma sorted_reverse_sorted l :
  StronglySorted (fun a b => key b <= key a) (Py.sorted_reverse key l).
Proof.
  induction l as [|x l IH]; cbn; [constructor|].
  apply insert_desc_sorted. exact IH.
Qed.

Lemma insert_desc_stable q x l :
  List.filter (fun a => Qeq_bool (key a) q) (Py.insert_desc key x l)
  = List.filter (fun a => Qeq_bool (key a) q) (x :: l).
Proof.
  induction l as [|y l IH]; cbn [Py.insert_desc]; [reflexivity|].
  destruct (Py.leb (key y) (key x)) eqn:E; [reflexivity|].
  apply leb_false in E.
  cbn [List.filter] in *. rewrite IH.
  destruct (Qeq_bool (key x) q) eqn:Ex, (Qeq_bool (key y) q) eqn:Ey;
    try reflexivity.
  apply Qeq_bool_iff in Ex, Ey. lra.
Qed.

Lemma sorted_reverse_stable q l :
  List.filter (fun a => Qeq_bool (key a) q) (Py.sorted_reverse key l)
  = List.filter (fun a => Qeq_bool (key a) q) l.
Proof.
  induction l as [|x l IH]; cbn; [reflexivity|].
  fold (Py.sorted_reverse key l). rewrite insert_desc_stable.
  cbn [List.filter]. rewrite IH. reflexivity.
Qed.
End SortingDescending.

Section SortingAscending.
Context {A : Type} (key : A -> Q).

(** An element that is not above any other stays in front. *)
Lemma insert_asc_least x l :
  Forall (fun y => key x <= key y) l ->
  Py.insert_asc key x l = x :: l.
Proof.
  intros H. destruct l as [|y l]; [reflexivity|]. cbn [Py.insert_asc].
  apply Forall_cons in H. destruct H as [Hy _].
  apply leb_true in Hy. rewrite Hy. reflexivity.
Qed.

Lemma sorted_least x l :
  Forall (fun y => key x <= key y) l ->
  Py.sorted key (x :: l) = x :: Py.sorted key l.
Proof.
  intros H. cbn. fold (Py.sorted key l). apply insert_asc_least.
  rewrite (SortFacts.sorted_perm key l). exact H.
Qed.
End SortingAscending.

End OrderFacts.

(** ** Facts about strings *)

Module StringFacts.

Local Open Scope string_scope.

Lemma map_chars_app f s t :
  Py.map_chars f (s ++ t) = Py.map_chars f s ++ Py.map_chars f t.
Proof.
  induction s as [|c s IH]; simpl; [reflexivity|]. rewrite IH. reflexivity.
Qed.

Lemma lower_app s t : Py.lower (s ++ t) = Py.lower s ++ Py.lower t.
Proof. apply map_chars_app. Qed.

Lemma to_lower_idem c : Py.to_lower (Py.to_lower c) = Py.to_lower c.
Proof.
  destruct c as [[] [] [] [] [] [] [] []]; reflexivity.
Qed.

Lemma lower_idem s : Py.lower (Py.lower s) = Py.lower s.
Proof.
  unfold Py.lower. induction s as [|c s IH]; simpl; [reflexivity|].
  rewrite to_lower_idem, IH. reflexivity.
Qed.

Lemma prefix_app k s t :
  String.prefix k s = true -> String.prefix k (s ++ t) = true.
Proof.
  revert s. induction k as [|a k IH]; intros s H;
    [destruct (s ++ t); reflexivity|].
  destruct s as [|b s]; [discriminate|].
  change (String b s ++ t) with (String b (s ++ t)).
  cbn [String.prefix] in *.
  destruct (ascii_dec a b); [|discriminate]. apply IH. exact H.
Qed.

Lemma contains_app_l k s t :
  Py.contains k s = true -> Py.contains k (s ++ t) = true.
Proof.
  induction s as [|c s IH]; intros H.
  - cbn in H. rewrite orb_false_r in H.
    destruct k; [|discriminate]. destruct t; reflexivity.
  - cbn [Py.contains] in H. apply orb_true_iff in H.
    change (String c s ++ t) with (String c (s ++ t)). cbn [Py.contains].
    apply orb_true_iff. destruct H as [H|H].
    + left. apply (prefix_app k (String c s) t H).
    + right. apply IH. exact H.
Qed.

Lemma contains_app_r k s t :
  Py.contains k t = true -> Py.contains k (s ++ t) = true.
Proof.
  intros H. induction s as [|c s IH]; [exact H|].
  change (String c s ++ t) with (String c (s ++ t)). cbn [Py.contains].
  rewrite IH. apply orb_true_r.
Qed.

(** Stripping does not change the words of a string. *)
Lemma split_lstrip s : Py.split (Py.lstrip s) = Py.split s.
Proof.
  unfold Py.split. induction s as [|c s IH]; [reflexivity|].
  cbn [Py.lstrip Py.split_from]. destruct (Py.is_space c) eqn:E.
  - exact IH.
  - cbn [Py.split_from]. rewrite E. reflexivity.
Qed.

Lemma split_from_rstrip cur s :
  Py.split_from cur (Py.rstrip s) = Py.split_from cur s.
Proof.
  revert cur. induction s as [|c s IH]; intros cur; [reflexivity|].
  cbn [Py.rstrip]. destruct (Py.is_space c) eqn:E; cbn [andb].
  - destruct (String.eqb (Py.rstrip s) "") eqn:Er.
    + apply String.eqb_eq in Er. cbn [Py.split_from]. rewrite E.
      pose proof (IH "") as H0. rewrite Er in H0. cbn in H0.
      rewrite <- H0. reflexivity.
    + cbn [Py.split_from]. rewrite E, IH. reflexivity.
  - cbn [Py.split_from]. rewrite E. apply IH.
Qed.

Lemma split_strip s : Py.split (Py.strip s) = Py.split s.
Proof.
  unfold Py.strip, Py.split. rewrite split_from_rstrip. apply split_lstrip.
Qed.

End StringFacts.

(** ** Facts about [Counter] *)

Module CounterFacts.

Import PyFacts OrderFacts RatingFacts.
Local Open Scope string_scope.

Lemma get_count_one x counts y :
  Py.get (Py.count_one x counts) y
  = if String.eqb y x then Some (S (default 0%nat (Py.get counts x)))
    else Py.get counts y.
Proof.
  induction counts as [|[k n] counts IH].
  - cbn. destruct (String.eqb y x); reflexivity.
  - cbn [Py.count_one]. destruct (String.eqb x k) eqn:Exk.
    + apply String.eqb_eq in Exk. subst k.
      change (Py.get ((x, n) :: counts) x)
        with (if String.eqb x x then Some n else Py.get counts x).
      rewrite String.eqb_refl. cbn [Py.get default].
      destruct (String.eqb y x); reflexivity.
    + change (Py.get ((k, n) :: counts) x)
        with (if String.eqb x k then Some n else Py.get counts x).
      rewrite Exk. cbn [Py.get]. rewrite IH.
      destruct (String.eqb y k) eqn:Eyk; [|reflexivity].
      apply String.eqb_eq in Eyk. subst k.
      destruct (String.eqb y x) eqn:Eyx; [|reflexivity].
      apply String.eqb_eq in Eyx. subst y. rewrite String.eqb_refl in Exk.
      discriminate.
Qed.

Lemma keys_count_one x counts :
  NoDup (Py.keys counts) -> NoDup (Py.keys (Py.count_one x counts)) /\
  forall y, y ∈ Py.keys (Py.count_one x counts) <-> y = x \/ y ∈ Py.keys counts.
Proof.
  unfold Py.keys. induction counts as [|[k n] counts IH]; intros Hnd; cbn.
  - split; [repeat constructor; apply not_elem_of_nil|].
    intros y. rewrite list_elem_of_singleton, elem_of_nil. tauto.
  - apply NoDup_cons in Hnd. destruct Hnd as [Hk Hnd].
    destruct (String.eqb x k) eqn:Exk; cbn.
    + apply String.eqb_eq in Exk. subst k.
      split; [apply NoDup_cons; split; assumption|].
      intros y. rewrite elem_of_cons. tauto.
    + apply String.eqb_neq in Exk. destruct (IH Hnd) as [IH1 IH2].
      split.
      * apply NoDup_cons. split; [|exact IH1].
        rewrite IH2. intros [H|H]; [congruence | contradiction].
      * intros y. rewrite !elem_of_cons, IH2. tauto.
Qed.

Lemma counter_spec_from (xs seen : list string) (counts : Py.dict nat) :
  NoDup (Py.keys counts) ->
  (forall y, Py.get counts y
             = if (count_occ string_dec seen y =? 0)%nat then None
               else Some (count_occ string_dec seen y)) ->
  let final := fold_left (fun counts x => Py.count_one x counts) xs counts in
  NoDup (Py.keys final) /\
  forall y, Py.get final y
            = if (count_occ string_dec (seen ++ xs) y =? 0)%nat then None
              else Some (count_occ string_dec (seen ++ xs) y).
Proof.
  revert seen counts. induction xs as [|x xs IH]; intros seen counts Hnd Hget.
  - cbn. rewrite app_nil_r. split; assumption.
  - cbn [fold_left].
    specialize (IH (seen ++ [x])%list (Py.count_one x counts)).
    rewrite <- app_assoc in IH. cbn [app] in IH. apply IH.
    + apply keys_count_one, Hnd.
    + intros y. rewrite get_count_one, count_occ_app. cbn [count_occ].
      destruct (String.eqb y x) eqn:E.
      * apply String.eqb_eq in E. subst y.
        destruct (string_dec x x); [|contradiction].
        rewrite Hget.
        destruct (count_occ string_dec seen x =? 0)%nat eqn:E0.
        -- apply Nat.eqb_eq in E0. rewrite E0. reflexivity.
        -- cbn [default].
           replace (count_occ string_dec seen x + 1)%nat
             with (S (count_occ string_dec seen x)) by lia.
           reflexivity.
      * apply String.eqb_neq in E.
        destruct (string_dec x y); [congruence|].
        rewrite Nat.add_0_r. apply Hget.
Qed.

(** [Counter(xs)] lists each distinct element of [xs] once, with the number
    of its occurrences. *)
Lemma counter_spec (xs : list string) :
  NoDup (Py.keys (Py.counter xs)) /\
  forall y, Py.get (Py.counter xs) y
            = if (count_occ string_dec xs y =? 0)%nat then None
              else Some (count_occ string_dec xs y).
Proof.
  apply (counter_spec_from xs [] []); [constructor|].
  intros y. reflexivity.
Qed.

Lemma get_of_elem {V} (d : Py.dict V) k v :
  NoDup (Py.keys d) -> (k, v) ∈ d -> Py.get d k = Some v.
Proof.
  unfold Py.keys. induction d as [|[k' v'] d IH]; intros Hnd Hin.
  - inversion Hin.
  - cbn in Hnd. apply NoDup_cons in Hnd. destruct Hnd as [Hk Hnd].
    cbn [Py.get]. apply elem_of_cons in Hin. destruct Hin as [Hin|Hin].
    + injection Hin as -> ->. rewrite String.eqb_refl. reflexivity.
    + destruct (String.eqb k k') eqn:E.
      * apply String.eqb_eq in E. subst k'. exfalso. apply Hk.
        apply list_elem_of_fmap. exists (k, v). split; [reflexivity|exact Hin].
      * apply IH; assumption.
Qed.

Lemma counter_elem (xs : list string) k n :
  (k, n) ∈ Py.counter xs -> n = count_occ string_dec xs k /\ (0 < n)%nat.
Proof.
  intros Hin. destruct (counter_spec xs) as [Hnd Hget].
  pose proof (get_of_elem _ _ _ Hnd Hin) as Hg. rewrite Hget in Hg.
  destruct (count_occ string_dec xs k =? 0)%nat eqn:E; [discriminate|].
  injection Hg as <-. apply Nat.eqb_neq in E. split; [reflexivity | lia].
Qed.

End CounterFacts.

(** ** Facts about [random.sample] *)

Module RandomFacts.

Import Random.
Local Open Scope string_scope.

(** Taking the element at [j] out of the pool and moving the last element
    into its place leaves the other elements. *)
Lemma pool_step (pool : list string) (j : nat) :
  (j < length pool)%nat ->
  pool ≡ₚ default EmptyString (pool !! j)
          :: take (Nat.pred (length pool))
               (<[j := default EmptyString (pool !! Nat.pred (length pool))]>
                  pool).
Proof.
  intros Hj.
  destruct (lookup_lt_is_Some_2 pool j Hj) as [x Hx].
  rewrite Hx. cbn [default from_option id].
  destruct (list_elem_of_split_length pool j x Hx) as (l1 & l2 & -> & Hl1).
  destruct (decide (l2 = [])) as [->|Hne].
  - rewrite length_app. cbn [length].
    replace (Nat.pred (length l1 + 1)) with (length l1) by lia.
    rewrite lookup_app_r by lia. rewrite Nat.sub_diag. cbn [lookup list_lookup].
    cbn [default from_option id]. subst j.
    rewrite insert_app_r_alt by lia. rewrite Nat.sub_diag. cbn.
    rewrite take_app_length. rewrite Permutation_app_comm. reflexivity.
  - destruct (exists_last Hne) as (l2' & z & ->).
    rewrite !length_app. cbn [length]. rewrite !length_app. cbn [length].
    replace (Nat.pred (length l1 + S (length l2' + 1)))
      with (length l1 + S (length l2')) by lia.
    replace (l1 ++ x :: l2' ++ [z])%list
      with ((l1 ++ x :: l2') ++ [z])%list
      by (rewrite <- app_assoc; reflexivity).
    rewrite lookup_app_r by (rewrite length_app; cbn; lia).
    rewrite length_app. cbn [length].
    replace (length l1 + S (length l2') - (length l1 + S (length l2')))
      with 0 by lia.
    cbn [lookup list_lookup default from_option id]. subst j.
    rewrite <- app_assoc. cbn [app].
    rewrite insert_app_r_alt by lia. rewrite Nat.sub_diag.
    change (<[0:=z]> (x :: l2' ++ [z])) with (z :: l2' ++ [z]).
    replace (l1 ++ z :: l2' ++ [z])%list
      with ((l1 ++ z :: l2') ++ [z])%list
      by (rewrite <- app_assoc; reflexivity).
    replace (length l1 + S (length l2')) with (length (l1 ++ z :: l2'))
      by (rewrite length_app; reflexivity).
    rewrite take_app_length.
    rewrite <- (Permutation_middle l1 (l2' ++ [z]) x).
    apply Permutation_skip, Permutation_app_head.
    rewrite Permutation_app_comm. reflexivity.
Qed.

(** [random.sample(population, k)] for [k] within the population's size:
    [k] elements of the population, taken from distinct positions. *)
Lemma sample_pool_spec (k : nat) (pool : list string) (g : Random.t) :
  (k <= length pool)%nat ->
  exists rest,
    pool ≡ₚ fst (sample_pool pool k g) ++ rest /\
    length (fst (sample_pool pool k g)) = k.
Proof.
  revert pool g. induction k as [|k IH]; intros pool g Hk.
  - exists pool. split; reflexivity.
  - cbn [sample_pool]. unfold bind, randbelow.
    set (j := (tape g (pos g) mod length pool)%nat).
    assert (j < length pool)%nat as Hj
      by (apply Nat.mod_upper_bound; lia).
    pose proof (pool_step pool j Hj) as Hstep.
    set (x := default EmptyString (pool !! j)) in *.
    set (pool' := take _ _) in *.
    assert (k <= length pool')%nat as Hk'.
    { apply Permutation_length in Hstep. cbn [length] in Hstep. lia. }
    set (g' := {| tape := tape g; pos := S (pos g) |}).
    destruct (IH pool' g' Hk') as (rest & Hperm & Hlen).
    destruct (sample_pool pool' k g') as [result g''] eqn:E.
    cbn [fst ret] in *. exists rest. split.
    + rewrite Hstep, Hperm. reflexivity.
    + cbn [length]. rewrite Hlen. reflexivity.
Qed.

Lemma sample_distinct (k : nat) (population : list string) (g : Random.t) :
  NoDup population -> (k <= length population)%nat ->
  NoDup (fst (sample population k g)) /\
  length (fst (sample population k g)) = k /\
  (forall x, x ∈ fst (sample population k g) -> x ∈ population).
Proof.
  intros Hnd Hk. unfold sample.
  destruct (sample_pool_spec k population g Hk) as (rest & Hperm & Hlen).
  rewrite Hperm in Hnd. apply NoDup_app in Hnd.
  split; [apply Hnd|]. split; [exact Hlen|].
  intros x Hx. rewrite Hperm. apply elem_of_app. left. exact Hx.
Qed.

End RandomFacts.

(** ** Further facts about [ResumeRatingSystem] *)

Module ScoringFacts.

Import PyFacts OrderFacts SortFacts RatingFacts.
Local Open Scope Q_scope.
Local Open Scope string_scope.

Lemma map_is_empty_true {V} (m : gmap string V) :
  Py.map_is_empty m = true -> m = ∅.
Proof.
  unfold Py.map_is_empty. intros H. apply Nat.eqb_eq in H.
  apply map_size_empty_iff. exact H.
Qed.

End ScoringFacts.

(** ** Further theorems about [ResumeRatingSystem] *)

Module ScoringTheorems.

Import PyFacts OrderFacts SortFacts RatingFacts ScoringFacts.
Local Open Scope Q_scope.
Local Open Scope string_scope.

(** X1.  The contact score is 3.5 for each of [email] and [phone] that is
    bound plus 1.5 for each of [linkedin] and [github] that is bound: the
    guard for an empty map and the cap at 10 never change it, and neither
    the values bound nor any other key do. *)
Theorem contact_completeness_formula (contact_info : gmap string string) :
  Rating.score_contact_completeness contact_info
  == (if Py.map_mem "email" contact_info then 3.5 else 0)
     + (if Py.map_mem "phone" contact_info then 3.5 else 0)
     + (if Py.map_mem "linkedin" contact_info then 1.5 else 0)
     + (if Py.map_mem "github" contact_info then 1.5 else 0).
Proof.
  unfold Rating.score_contact_completeness.
  destruct (Py.map_is_empty contact_info) eqn:E.
  - apply map_is_empty_true in E. subst contact_info. reflexivity.
  - unfold Rating.add_if_present. cbn [fold_left].
    destruct (Py.map_mem "email" contact_info),
             (Py.map_mem "phone" contact_info),
             (Py.map_mem "linkedin" contact_info),
             (Py.map_mem "github" contact_info); reflexivity.
Qed.

(** X2.  The sections score is 2.0 for each of experience, education and
    skills that is marked present, 1.5 for each of summary and projects and
    0.5 for each of certifications and achievements; a section that is
    absent from the map or marked false adds nothing, and the contact
    section is not counted. *)
Theorem sections_completeness_formula (sections : Py.dict bool) :
  let present name := default false (Py.get sections name) in
  Rating.score_sections_completeness sections
  == (if present "experience" then 2.0 else 0)
     + (if present "education" then 2.0 else 0)
     + (if present "skills" then 2.0 else 0)
     + (if present "summary" then 1.5 else 0)
     + (if present "projects" then 1.5 else 0)
     + (if present "certifications" then 0.5 else 0)
     + (if present "achievements" then 0.5 else 0).
Proof.
  intros present. subst present. cbv beta.
  unfold Rating.score_sections_completeness.
  destruct sections as [|e sections']; [reflexivity|].
  cbn [Py.is_empty]. generalize (e :: sections'). intros sections.
  unfold Rating.add_if_true. cbn [fold_left].
  destruct (default false (Py.get sections "experience")),
           (default false (Py.get sections "education")),
           (default false (Py.get sections "skills")),
           (default false (Py.get sections "summary")),
           (default false (Py.get sections "projects")),
           (default false (Py.get sections "certifications")),
           (default false (Py.get sections "achievements"));
    reflexivity.
Qed.

(** X3.  Project quality reads the number of projects only up to three and
    the descriptions of the first three projects only: further projects
    leave the score unchanged.  Any non-empty project list scores at least
    3.5, and three projects of fifteen words or more score 10.0. *)
Theorem project_quality_first_three (p1 p2 p3 : string) (more : list string) :
  Rating.score_project_quality (p1 :: p2 :: p3 :: more)
  = Rating.score_project_quality [p1; p2; p3] /\
  (forall projects, projects <> [] ->
     3.5 <= Rating.score_project_quality projects) /\
  ((15 <= length (Py.split p1))%nat -> (15 <= length (Py.split p2))%nat ->
   (15 <= length (Py.split p3))%nat ->
   Rating.score_project_quality (p1 :: p2 :: p3 :: more) == 10.0).
Proof.
  split; [|split].
  - unfold Rating.score_project_quality.
    cbn [Py.is_empty Rating.thresholds Rating.ideal_projects take].
    assert (Py.leb 3 (Py.of_nat (length (p1 :: p2 :: p3 :: more))) = true)
      as ->.
    { apply leb_true. change 3 with (Py.of_nat 3). apply of_nat_le.
      cbn. lia. }
    reflexivity.
  - intros [|p projects] Hne; [contradiction|].
    unfold Rating.score_project_quality.
    cbn [Py.is_empty Rating.thresholds Rating.ideal_projects
         Rating.min_projects take fold_left].
    assert (1 <= Py.of_nat (length (p :: projects))) as Hn.
    { change 1 with (Py.of_nat 1). apply of_nat_le. cbn. lia. }
    set (n := Py.of_nat (length (p :: projects))) in *.
    assert (0.5 <= fold_left Rating.quality_step (take 2 projects)
                     (Rating.quality_step 0.0 p)) as Hq.
    { assert (0.5 <= Rating.quality_step 0.0 p) as H0
        by (unfold Rating.quality_step; compare_cases; lra).
      revert H0. generalize (Rating.quality_step 0.0 p).
      induction (take 2 projects) as [|x l IH]; intros q Hq;
        cbn [fold_left]; [exact Hq|].
      apply IH. unfold Rating.quality_step. compare_cases; lra. }
    destruct (min_cases
      ((if Py.leb 3 n then 5.0
        else if Py.leb 1 n then 3.0 + (n - 1) / 2 * 2.0 else 0.0)
       + fold_left Rating.quality_step (take 2 projects)
           (Rating.quality_step 0.0 p)) 10.0) as [[_ ->]|[_ ->]]; [|lra].
    compare_cases; q_arith.
  - intros H1 H2 H3. unfold Rating.score_project_quality.
    cbn [Py.is_empty Rating.thresholds Rating.ideal_projects take fold_left].
    assert (Py.leb 3 (Py.of_nat (length (p1 :: p2 :: p3 :: more))) = true)
      as ->.
    { apply leb_true. change 3 with (Py.of_nat 3). apply of_nat_le.
      cbn. lia. }
    unfold Rating.quality_step.
    assert (forall p, (15 <= length (Py.split p))%nat ->
              Py.leb 15 (Py.of_nat (length (Py.split p))) = true) as Hw.
    { intros p Hp. apply leb_true. change 15 with (Py.of_nat 15).
      apply of_nat_le. exact Hp. }
    rewrite (Hw p1 H1), (Hw p2 H2), (Hw p3 H3). reflexivity.
Qed.

Lemma project_quality_first_three_witness :
  Rating.score_project_quality
    [Spec.long_project; Spec.long_project; Spec.long_project;
     "One more"%string]
  == 10.0.
Proof.
  apply (proj2 (proj2 (project_quality_first_three _ _ _ _)));
    vm_compute; lia.
Defined.

(** The report of any bundle, whichever branch produced it. *)
Lemma overall_score_of_scores (a : AnalysisResult.t) :
  AnalysisResult.error a = None ->
  exists r s1 s2 s3 s4 s5 s6 s7,
    Rating.calculate_overall_score a = Some r /\
    map snd (Rating.detailed_scores_of a) = [s1; s2; s3; s4; s5; s6; s7] /\
    RatingResult.overall_score r
    = Some (Py.round (0 + s1 * 0.20 + s2 * 0.15 + s3 * 0.10 + s4 * 0.15
                      + s5 * 0.15 + s6 * 0.15 + s7 * 0.10) 1) /\
    RatingResult.rating_category r
    = Some (fst (Rating.rating_of
         (Py.round (0 + s1 * 0.20 + s2 * 0.15 + s3 * 0.10 + s4 * 0.15
                    + s5 * 0.15 + s6 * 0.15 + s7 * 0.10) 1))).
Proof.
  intros He.
  destruct (calculate_overall_score_scored a _ _ _ _ _ _ _ He eq_refl)
    as [b Hr].
  eexists _, _, _, _, _, _, _, _. split; [exact Hr|].
  split; [reflexivity|]. split; reflexivity.
Qed.

(** X4.  Raising criterion scores never lowers the overall score: if
    every criterion of one bundle scores at most what it scores for
    another, the first overall score is at most the second. *)
Theorem overall_score_monotone (a b : AnalysisResult.t) :
  AnalysisResult.error a = None -> AnalysisResult.error b = None ->
  Forall2 (fun x y => snd x <= snd y)
          (Rating.detailed_scores_of a) (Rating.detailed_scores_of b) ->
  exists ra rb oa ob,
    Rating.calculate_overall_score a = Some ra /\
    Rating.calculate_overall_score b = Some rb /\
    RatingResult.overall_score ra = Some oa /\
    RatingResult.overall_score rb = Some ob /\
    oa <= ob.
Proof.
  intros Ha Hb Hle.
  destruct (overall_score_of_scores a Ha)
    as (ra & a1 & a2 & a3 & a4 & a5 & a6 & a7 & Hra & Hsa & Hoa & _).
  destruct (overall_score_of_scores b Hb)
    as (rb & b1 & b2 & b3 & b4 & b5 & b6 & b7 & Hrb & Hsb & Hob & _).
  exists ra, rb. eexists _, _.
  split; [exact Hra|]. split; [exact Hrb|].
  split; [exact Hoa|]. split; [exact Hob|].
  unfold Rating.detailed_scores_of in Hle, Hsa, Hsb.
  cbn [map snd] in Hsa, Hsb.
  injection Hsa as <- <- <- <- <- <- <-.
  injection Hsb as <- <- <- <- <- <- <-.
  repeat match goal with
  | H : Forall2 _ (_ :: _) (_ :: _) |- _ =>
      let Hx := fresh "Hx" in
      apply Forall2_cons in H; destruct H as [Hx H]; cbn [snd] in Hx
  end.
  apply round_mono. lra.
Qed.

Lemma overall_score_monotone_witness :
  exists ra rb oa ob,
    Rating.calculate_overall_score (Spec.bare_bundle ∅) = Some ra /\
    Rating.calculate_overall_score Spec.ideal_bundle = Some rb /\
    RatingResult.overall_score ra = Some oa /\
    RatingResult.overall_score rb = Some ob /\
    oa <= ob.
Proof.
  apply (overall_score_monotone (Spec.bare_bundle ∅) Spec.ideal_bundle).
  - reflexivity.
  - reflexivity.
  - repeat (constructor; [apply Qle_bool_iff; vm_compute; reflexivity|]).
    constructor.
Defined.

Lemma get_is_Some {V} (d : Py.dict V) (k : string) :
  is_Some (Py.get d k) <-> k ∈ Py.keys d.
Proof.
  unfold Py.keys. induction d as [|[k' v] d IH]; cbn.
  - split; [intros [x Hx]; discriminate | intros H; inversion H].
  - destruct (String.eqb k k') eqn:E.
    + apply String.eqb_eq in E. subst. split; [intros _; left | eauto].
    + apply String.eqb_neq in E. rewrite IH. split.
      * intros H. right. exact H.
      * intros H. apply elem_of_cons in H. destruct H as [H|H];
          [contradiction | exact H].
Qed.

(** Rounding moves a number by at most one half. *)
Lemma round_half_even_near x :
  inject_Z (Py.round_half_even x) - (1 # 2) <= x
  <= inject_Z (Py.round_half_even x) + (1 # 2).
Proof.
  pose proof (Qfloor_le x) as Hlo. pose proof (Qlt_floor x) as Hhi.
  rewrite inject_Z_plus in Hhi. change (inject_Z 1) with 1 in Hhi.
  unfold Py.round_half_even.
  destruct (Qcompare (x - inject_Z (Qfloor x)) (1 # 2)) eqn:C.
  - apply Qeq_alt in C. destruct (Z.even _);
      [|rewrite inject_Z_plus; change (inject_Z 1) with 1]; lra.
  - apply Qlt_alt in C. lra.
  - apply Qgt_alt in C. rewrite inject_Z_plus.
    change (inject_Z 1) with 1. lra.
Qed.

Lemma round1_near x : Qabs (Py.round x 1 - x) <= 0.05.
Proof.
  unfold Py.round. change (inject_Z (10 ^ Z.of_nat 1)) with 10.
  pose proof (round_half_even_near (x * 10)) as [Hlo Hhi].
  apply Qabs_Qle_condition. split; q_arith.
Qed.

Lemma breakdown_entries (d : Py.dict Q) (entries : list BreakdownEntry.t) :
  mapM (fun '(criterion, score) =>
      w ← Py.get Rating.weights criterion;
      e ← Py.get Rating.explanations criterion;
      Some {| BreakdownEntry.criterion := Rating.display_name criterion;
              BreakdownEntry.score := score;
              BreakdownEntry.weight := w * 100;
              BreakdownEntry.explanation := e;
              BreakdownEntry.contribution := Py.round (score * w) 1 |}) d
  = Some entries ->
  map (fun e => (BreakdownEntry.criterion e, BreakdownEntry.score e,
                 BreakdownEntry.weight e, BreakdownEntry.explanation e))
      entries
  = map (fun '(c, s) =>
           (Rating.display_name c, s,
            default 0 (Py.get Rating.weights c) * 100,
            default "" (Py.get Rating.explanations c))) d /\
  Forall (fun e => Qabs (BreakdownEntry.contribution e
                         - BreakdownEntry.score e
                           * (BreakdownEntry.weight e / 100)) < 0.1)
         entries.
Proof.
  intros H. apply mapM_Some in H.
  induction H as [|[c s] e d entries He _ IH].
  - split; [reflexivity | constructor].
  - destruct IH as [IHf IHc].
    destruct (Py.get Rating.weights c) as [w|] eqn:Ew; [|discriminate He].
    destruct (Py.get Rating.explanations c) as [x|] eqn:Ex;
      [|discriminate He].
    cbn [mbind option_bind] in He. injection He as <-.
    split.
    + cbn [map BreakdownEntry.criterion BreakdownEntry.score
           BreakdownEntry.weight BreakdownEntry.explanation].
      rewrite Ew, Ex, IHf. reflexivity.
    + constructor; [|exact IHc].
      cbn [BreakdownEntry.contribution BreakdownEntry.score
           BreakdownEntry.weight].
      assert (s * (w * 100 / 100) == s * w) as E by (field; lra).
      rewrite E. apply Qle_lt_trans with 0.05; [apply round1_near|].
      reflexivity.
Qed.

(** X5.  The score breakdown is defined exactly for score maps whose
    keys are all criteria (any other key raises [KeyError]).  When it is
    defined it has one entry for each entry of the score map: the entry
    carries the criterion's display name, the score as given, the
    criterion's weight as a percentage and its explanation.  The entries
    are ordered by contribution descending, and each contribution is
    within 0.1 of the score times the weight; which way a product that
    ends in 5 at the second decimal is rounded depends on its binary
    representation and is not stated. *)
Theorem score_breakdown_shape (detailed_scores : Py.dict Q) :
  (is_Some (Rating._generate_score_breakdown detailed_scores)
   <-> Forall (fun k => k ∈ Spec.criteria) (Py.keys detailed_scores)) /\
  (forall breakdown,
     Rating._generate_score_breakdown detailed_scores = Some breakdown ->
     map (fun e => (BreakdownEntry.criterion e, BreakdownEntry.score e,
                    BreakdownEntry.weight e, BreakdownEntry.explanation e))
         breakdown
     ≡ₚ map (fun '(criterion, score) =>
               (Rating.display_name criterion, score,
                default 0 (Py.get Rating.weights criterion) * 100,
                default "" (Py.get Rating.explanations criterion)))
            detailed_scores /\
     StronglySorted (fun x y => BreakdownEntry.contribution y
                                <= BreakdownEntry.contribution x)
                    breakdown /\
     Forall (fun e => Qabs (BreakdownEntry.contribution e
                            - BreakdownEntry.score e
                              * (BreakdownEntry.weight e / 100)) < 0.1)
            breakdown).
Proof.
  split.
  - unfold Rating._generate_score_breakdown, Py.items.
    destruct (mapM _ detailed_scores) as [b|] eqn:E.
    + cbn [mbind option_bind]. split; [intros _|intros _; eexists; reflexivity].
      assert (is_Some (mapM (fun '(criterion, score) =>
        w ← Py.get Rating.weights criterion;
        e ← Py.get Rating.explanations criterion;
        Some {| BreakdownEntry.criterion := Rating.display_name criterion;
                BreakdownEntry.score := score;
                BreakdownEntry.weight := w * 100;
                BreakdownEntry.explanation := e;
                BreakdownEntry.contribution := Py.round (score * w) 1 |})
        detailed_scores))
        as Hs by (rewrite E; eexists; reflexivity).
      apply mapM_is_Some_1 in Hs. unfold Py.keys.
      apply Forall_fmap. eapply Forall_impl; [exact Hs|].
      intros [k v] [x Hx]. cbn [fst].
      apply (get_is_Some Rating.weights k).
      destruct (Py.get Rating.weights k) eqn:Ew; [eexists; reflexivity|].
      exfalso. cbn [mbind option_bind] in Hx. discriminate.
    + cbn [mbind option_bind]. split; [intros [x Hx]; discriminate|].
      intros Hk. exfalso. apply mapM_None_1 in E.
      apply Exists_exists in E. destruct E as ([k v] & Hin & Hnone).
      unfold Py.keys in Hk. rewrite Forall_fmap, Forall_forall in Hk.
      specialize (Hk _ Hin). cbn [fst] in Hk.
      pose proof (proj2 (get_is_Some Rating.weights k) Hk) as [w Hw].
      pose proof (proj2 (get_is_Some Rating.explanations k) Hk) as [e He].
      rewrite Hw, He in Hnone. discriminate.
  - intros breakdown Hb.
    unfold Rating._generate_score_breakdown, Py.items in Hb.
    destruct (mapM _ detailed_scores) as [entries|] eqn:E;
      [|discriminate Hb].
    cbn [mbind option_bind] in Hb. injection Hb as <-.
    destruct (breakdown_entries detailed_scores entries E) as [Hf Hc].
    split; [|split].
    + rewrite <- Hf. apply fmap_Permutation, sorted_reverse_perm.
    + apply sorted_reverse_sorted.
    + rewrite sorted_reverse_perm. exact Hc.
Qed.

Lemma identify_as_filter (d : Py.dict Q) :
  Rating._identify_improvement_priorities d
  = map (fun kv => Rating.display_name (fst kv))
        (List.filter (fun kv => Py.ltb (snd kv) 7.0)
                     (take 3 (Py.sorted snd d))).
Proof. unfold Rating._identify_improvement_priorities. apply priorities_loop. Qed.

(** X6.  No improvement priority is reported exactly when every criterion
    scores at least 7.0; otherwise the first priority is a criterion of
    lowest score, and that score is below 7.0. *)
Theorem improvement_priorities_head (detailed_scores : Py.dict Q) :
  (Rating._identify_improvement_priorities detailed_scores = []
   <-> Forall (fun kv => 7.0 <= snd kv) detailed_scores) /\
  (Exists (fun kv => snd kv < 7.0) detailed_scores ->
   exists criterion score others,
     Rating._identify_improvement_priorities detailed_scores
     = Rating.display_name criterion :: others /\
     (criterion, score) ∈ detailed_scores /\
     score < 7.0 /\
     Forall (fun kv => score <= snd kv) detailed_scores).
Proof.
  rewrite identify_as_filter.
  pose proof (sorted_perm snd detailed_scores) as Hperm.
  pose proof (sorted_sorted snd detailed_scores) as Hsort.
  destruct (Py.sorted snd detailed_scores) as [|[c s] ranked] eqn:E.
  { apply Permutation_nil_l in Hperm. subst detailed_scores. cbn.
    split; [split; [constructor|reflexivity]|]. intros H. inversion H. }
  apply StronglySorted_inv in Hsort. destruct Hsort as [_ Hmin].
  cbn [snd] in Hmin.
  assert (Forall (fun kv => s <= snd kv) detailed_scores) as Hall.
  { rewrite <- Hperm. constructor; [cbn; lra | exact Hmin]. }
  cbn [take List.filter snd].
  destruct (Py.ltb s 7.0) eqn:Hs.
  - apply ltb_true in Hs. split.
    + split; [discriminate|]. intros Hge. exfalso.
      rewrite <- Hperm in Hge. apply Forall_cons in Hge. cbn in Hge. lra.
    + intros _. exists c, s. eexists. split; [reflexivity|].
      split; [rewrite <- Hperm; left|]. split; assumption.
  - apply ltb_false in Hs.
    assert (Forall (fun kv => 7.0 <= snd kv) detailed_scores) as Hge.
    { eapply Forall_impl; [exact Hall|]. cbn. intros kv Hkv. lra. }
    assert (List.filter (fun kv : string * Q => Py.ltb (snd kv) 7.0)
                        (take 2 ranked) = []) as ->.
    { assert (Forall (fun kv => 7.0 <= snd kv) (take 2 ranked)) as Ht.
      { apply Forall_take. eapply Forall_impl; [exact Hmin|].
        cbn. intros kv Hkv. lra. }
      induction Ht as [|x l Hx _ IH]; [reflexivity|]. cbn [List.filter].
      apply ltb_false in Hx. rewrite Hx. exact IH. }
    split; [split; [intros _; exact Hge | reflexivity]|].
    intros Hex. exfalso. apply Exists_exists in Hex.
    destruct Hex as (kv & Hin & Hlt).
    rewrite Forall_forall in Hge. specialize (Hge kv Hin). lra.
Qed.

Lemma improvement_priorities_head_witness :
  exists criterion score others,
    Rating._identify_improvement_priorities
      [("readability", 8.0%Q); ("project_quality", 3.0%Q);
       ("content_length", 5.0%Q)]
    = Rating.display_name criterion :: others /\
    (criterion, score)
      ∈ [("readability", 8.0%Q); ("project_quality", 3.0%Q);
         ("content_length", 5.0%Q)] /\
    score < 7.0 /\
    Forall (fun kv => score <= snd kv)
           [("readability", 8.0%Q); ("project_quality", 3.0%Q);
            ("content_length", 5.0%Q)].
Proof.
  apply (proj2 (improvement_priorities_head
                  [("readability", 8.0%Q); ("project_quality", 3.0%Q);
                   ("content_length", 5.0%Q)])).
  apply Exists_cons_tl, Exists_cons_hd. reflexivity.
Defined.

(** X7.  A bundle without skills always has Skills Diversity and Skills
    Quantity as its first two improvement priorities. *)
Theorem no_skills_priorities (a : AnalysisResult.t) :
  AnalysisResult.error a = None ->
  default [] (AnalysisResult.skills a) = [] ->
  0 <= Spec.word_count_of a ->
  exists r others,
    Rating.calculate_overall_score a = Some r /\
    RatingResult.improvement_priority r
    = Some ("Skills Diversity" :: "Skills Quantity" :: others).
Proof.
  intros He Hsk Hwc.
  destruct (calculate_overall_score_scored a _ _ _ _ _ _ _ He eq_refl)
    as [b Hr].
  eexists _, _. split; [exact Hr|]. cbn [RatingResult.improvement_priority].
  f_equal. rewrite identify_as_filter.
  pose proof (raw_scores_bounds a Hwc) as Hb.
  unfold Rating.detailed_scores_of in *. rewrite Hsk in *.
  change (Rating.score_skills_diversity []) with 0.0 in *.
  change (Rating.score_skills_quantity []) with 0.0 in *.
  apply Forall_cons in Hb. destruct Hb as [_ Hb].
  apply Forall_cons in Hb. destruct Hb as [_ Hb].
  match type of Hb with Forall _ ?l => set (rest := l) in * end.
  assert (Forall (fun y : string * Q => 0.0 <= snd y) rest) as H0.
  { eapply Forall_impl; [exact Hb|]. cbn. intros kv Hkv. lra. }
  rewrite (sorted_least snd ("skills_diversity", 0.0)
             (("skills_quantity", 0.0) :: rest))
    by (constructor; [cbn; lra | exact H0]).
  rewrite (sorted_least snd ("skills_quantity", 0.0) rest) by exact H0.
  reflexivity.
Qed.

Lemma no_skills_priorities_witness :
  exists r others,
    Rating.calculate_overall_score Spec.zero_word_bundle = Some r /\
    RatingResult.improvement_priority r
    = Some ("Skills Diversity" :: "Skills Quantity" :: others).
Proof.
  apply (no_skills_priorities Spec.zero_word_bundle);
    [reflexivity | reflexivity | vm_compute; discriminate].
Defined.

End ScoringTheorems.

(** ** Theorems about sections, skills and projects *)

Module ExtractionTheorems.

Import PyFacts OrderFacts RatingFacts StringFacts.
Local Open Scope string_scope.

Lemma any_in_app keywords s t :
  Analyzer.any_in keywords s = true \/ Analyzer.any_in keywords t = true ->
  Analyzer.any_in keywords (s ++ t) = true.
Proof.
  unfold Analyzer.any_in. rewrite !existsb_exists.
  intros [(k & Hk & Hc)|(k & Hk & Hc)]; exists k; split; try exact Hk.
  - apply contains_app_l, Hc.
  - apply contains_app_r, Hc.
Qed.

(** X8.  Section detection always reports the same eight sections, in
    the same order, whatever the text (so the map is never empty); it
    ignores letter case; and appending or prepending text never unmarks a
    section. *)
Theorem detect_sections_shape (text more : string) :
  Py.keys (Analyzer.detect_sections text)
  = [ "contact"; "summary"; "experience"; "education"; "skills";
      "projects"; "certifications"; "achievements" ] /\
  Analyzer.detect_sections (Py.lower text) = Analyzer.detect_sections text /\
  (forall section,
     Spec.present (Analyzer.detect_sections text) section ->
     Spec.present (Analyzer.detect_sections (text ++ more)) section /\
     Spec.present (Analyzer.detect_sections (more ++ text)) section).
Proof.
  split; [reflexivity|]. split.
  { unfold Analyzer.detect_sections. rewrite lower_idem. reflexivity. }
  intros section. unfold Spec.present, Analyzer.detect_sections.
  rewrite !lower_app. unfold Py.items, Analyzer.resume_sections.
  cbn [map Py.get].
  repeat match goal with
  | |- context [String.eqb section ?n] => destruct (String.eqb section n)
  end; cbn [default]; try discriminate; intros H;
    (split; apply any_in_app; [left | right]; exact H).
Qed.

Lemma detect_sections_shape_witness :
  Spec.present (Analyzer.detect_sections ("Education: BSc" ++ ", 2020"))
               "education".
Proof.
  apply (proj2 (proj2 (detect_sections_shape "Education: BSc" ", 2020"))).
  reflexivity.
Defined.

(** X9.  Skill extraction keeps no empty category: every category of the
    result lists at least one skill.  Its categories are categories of the
    database in database order, the skills of a category are skills of
    that category in database order, and each is mentioned in the
    lower-cased text.  With an empty database nothing is found. *)
Theorem extract_skills_shape (skills_database : Py.dict (list string))
    (text : string) :
  let found := Analyzer.extract_skills skills_database text in
  Forall (fun kv => snd kv <> []) found /\
  sublist (Py.keys found) (Py.keys skills_database) /\
  Forall (fun kv =>
            exists skills_list,
              (fst kv, skills_list) ∈ skills_database /\
              sublist (snd kv) skills_list /\
              Forall (fun skill =>
                        Analyzer.mentions (Py.lower text) skill = true)
                     (snd kv))
         found /\
  (length (Py.keys found) <= Rating.total_skills_of found)%nat /\
  Analyzer.extract_skills [] text = [].
Proof.
  intros found. subst found. unfold Analyzer.extract_skills, Py.items.
  split; [|split; [|split; [|split; [|reflexivity]]]].
  - induction skills_database as [|[k v] db IH]; cbn; [constructor|].
    destruct (List.filter _ v) eqn:E; cbn; [exact IH|].
    constructor; [cbn; discriminate | exact IH].
  - unfold Py.keys.
    induction skills_database as [|[k v] db IH]; cbn; [constructor|].
    destruct (List.filter _ v); cbn.
    + apply sublist_cons, IH.
    + apply sublist_skip, IH.
  - induction skills_database as [|[k v] db IH]; cbn; [constructor|].
    assert (Forall (fun kv : string * list string =>
              exists skills_list,
                (fst kv, skills_list) ∈ (k, v) :: db /\
                sublist (snd kv) skills_list /\
                Forall (fun skill =>
                          Analyzer.mentions (Py.lower text) skill = true)
                       (snd kv))
              (List.filter (fun '(_, v0) => negb (Py.is_empty v0))
                 (map (fun '(category, skills_list) =>
                         (category,
                          List.filter (Analyzer.mentions (Py.lower text))
                                      skills_list)) db))) as IH'.
    { eapply Forall_impl; [exact IH|]. intros [k' v'] (sl & Hin & Hrest).
      exists sl. split; [right; exact Hin | exact Hrest]. }
    destruct (List.filter _ v) eqn:E; cbn; [exact IH'|].
    constructor; [|exact IH']. exists v. cbn [fst snd].
    split; [left|]. rewrite <- E. split.
    + clear. induction v as [|x v IHv]; cbn; [constructor|].
      destruct (Analyzer.mentions _ x);
        [apply sublist_skip | apply sublist_cons]; exact IHv.
    + apply Forall_forall. intros x Hx. apply list_elem_of_In in Hx.
      apply filter_In in Hx. apply Hx.
  - unfold Py.keys, Rating.total_skills_of, Py.values.
    assert (forall (l : Py.dict (list string)) n,
              Forall (fun kv => snd kv <> []) l ->
              (n + length (map fst l)
               <= fold_left Nat.add (map (@length string) (map snd l)) n)%nat)
      as Hgen.
    { induction l as [|[k v] l IHl]; intros n Hl; cbn; [lia|].
      apply Forall_cons in Hl. destruct Hl as [Hv Hl]. cbn in Hv.
      specialize (IHl (n + length v)%nat Hl).
      destruct v; [contradiction|]. cbn in *. lia. }
    apply (Hgen _ 0%nat).
    induction skills_database as [|[k v] db IH]; cbn; [constructor|].
    destruct (List.filter _ v) eqn:E; cbn; [exact IH|].
    constructor; [cbn; discriminate | exact IH].
Qed.

Lemma projects_loop (sentences : list string) (init : list string) :
  fold_left (fun projects sentence =>
               let sentence_lower := Py.lower sentence in
               if Analyzer.any_in Analyzer.project_indicators sentence_lower
               then
                 if (8 <? length (Py.split sentence))%nat
                 then Py.append projects (Py.strip sentence)
                 else projects
               else projects)
            sentences init
  = (init ++ map Py.strip
       (List.filter (fun sentence =>
                       Analyzer.any_in Analyzer.project_indicators
                                       (Py.lower sentence)
                       && (8 <? length (Py.split sentence))%nat)
                    sentences))%list.
Proof.
  revert init.
  induction sentences as [|s l IH]; intros init;
    cbn [fold_left List.filter]; cbv zeta.
  - cbn [map]. rewrite app_nil_r. reflexivity.
  - rewrite IH.
    destruct (Analyzer.any_in Analyzer.project_indicators (Py.lower s));
      cbn [andb]; [|reflexivity].
    destruct (8 <? length (Py.split s))%nat; [|reflexivity].
    cbn [map]. unfold Py.append. rewrite <- app_assoc. reflexivity.
Qed.

Lemma filter_sublist {A} (f : A -> bool) (l : list A) :
  sublist (List.filter f l) l.
Proof.
  induction l as [|x l IH]; cbn; [constructor|].
  destruct (f x); [apply sublist_skip | apply sublist_cons]; exact IH.
Qed.

(** X10.  Project detection returns at most five sentences, stripped, in
    document order; each contains a project indicator and has more than
    eight words.  Hence a detected project is never scored as too brief,
    and a non-empty detection scores at least 4.0 on project quality. *)
Theorem detect_projects_shape (sent_tokenize : string -> list string)
    (text : string) :
  let projects := Analyzer.detect_projects sent_tokenize text in
  (length projects <= 5)%nat /\
  sublist projects (map Py.strip (sent_tokenize text)) /\
  Forall (fun project =>
            exists sentence,
              sentence ∈ sent_tokenize text /\
              project = Py.strip sentence /\
              Analyzer.any_in Analyzer.project_indicators
                              (Py.lower sentence) = true /\
              (8 < length (Py.split project))%nat)
         projects /\
  (projects <> [] -> (4.0 <= Rating.score_project_quality projects)%Q).
Proof.
  intros projects. subst projects. unfold Analyzer.detect_projects.
  rewrite projects_loop. cbn [app].
  set (kept := List.filter _ (sent_tokenize text)).
  assert (Forall (fun project =>
            exists sentence,
              sentence ∈ sent_tokenize text /\
              project = Py.strip sentence /\
              Analyzer.any_in Analyzer.project_indicators
                              (Py.lower sentence) = true /\
              (8 < length (Py.split project))%nat)
            (take 5 (map Py.strip kept))) as Hall.
  { apply Forall_take, Forall_fmap, Forall_forall. intros s Hs.
    subst kept. apply list_elem_of_In, filter_In in Hs.
    destruct Hs as [Hin Hq]. apply andb_true_iff in Hq.
    destruct Hq as [Hi Hw]. apply Nat.ltb_lt in Hw.
    exists s. split; [apply list_elem_of_In; exact Hin|].
    split; [reflexivity|]. split; [exact Hi|].
    cbn. rewrite split_strip. exact Hw. }
  split; [rewrite length_take; lia|]. split.
  { etransitivity; [apply sublist_take|].
    apply (fmap_sublist Py.strip). subst kept. apply filter_sublist. }
  split; [exact Hall|].
  intros Hne. destruct (take 5 (map Py.strip kept)) as [|p ps] eqn:E;
    [contradiction|].
  apply Forall_cons in Hall. destruct Hall as [(s & _ & _ & _ & Hw) Hps].
  unfold Rating.score_project_quality.
  cbn [Py.is_empty Rating.thresholds Rating.ideal_projects
       Rating.min_projects take fold_left].
  assert (1 <= Py.of_nat (length (p :: ps)))%Q as Hn.
  { change 1%Q with (Py.of_nat 1). apply of_nat_le. cbn. lia. }
  set (n := Py.of_nat (length (p :: ps))) in *.
  assert (1.0 <= Rating.quality_step 0.0 p)%Q as H0.
  { unfold Rating.quality_step.
    assert (Py.leb 8 (Py.of_nat (length (Py.split p))) = true) as H8.
    { apply leb_true. change 8%Q with (Py.of_nat 8). apply of_nat_le. lia. }
    rewrite H8. destruct (Py.leb 15 _); lra. }
  assert (1.0 <= fold_left Rating.quality_step (take 2 ps)
                   (Rating.quality_step 0.0 p))%Q as Hq.
  { revert H0. generalize (Rating.quality_step 0.0 p).
    induction (take 2 ps) as [|x l IH]; intros q Hq0;
      cbn [fold_left]; [exact Hq0|].
    apply IH. unfold Rating.quality_step. compare_cases; lra. }
  destruct (min_cases
    ((if Py.leb 3 n then 5.0
      else if Py.leb 1 n then 3.0 + (n - 1) / 2 * 2.0 else 0.0)
     + fold_left Rating.quality_step (take 2 ps)
         (Rating.quality_step 0.0 p))%Q 10.0%Q) as [[_ ->]|[_ ->]]; [|lra].
  compare_cases; q_arith.
Qed.

Lemma detect_projects_shape_witness :
  (4.0 <= Rating.score_project_quality
            (Analyzer.detect_projects
               (fun _ => [Spec.long_project; "Short app."]) "resume"))%Q.
Proof.
  apply (proj2 (proj2 (proj2 (detect_projects_shape
           (fun _ => [Spec.long_project; "Short app."]) "resume")))).
  vm_compute. discriminate.
Defined.

End ExtractionTheorems.

(** ** Facts about [calculate_readability] *)

Module ReadabilityFacts.

Import PyFacts OrderFacts RatingFacts StringFacts.
Local Open Scope Q_scope.
Local Open Scope string_scope.

Lemma round_range (lo hi : Z) x n :
  inject_Z lo <= x <= inject_Z hi ->
  inject_Z lo <= Py.round x n <= inject_Z hi.
Proof.
  intros [Hlo Hhi]. pose proof (pow10_pos n) as Hp.
  pose proof (round_between (lo * 10 ^ Z.of_nat n) (hi * 10 ^ Z.of_nat n)
                x n) as H.
  rewrite !inject_Z_mult in H.
  set (p := inject_Z (10 ^ Z.of_nat n)) in *.
  assert (inject_Z lo * p / p == inject_Z lo) as El by (field; lra).
  assert (inject_Z hi * p / p == inject_Z hi) as Eh by (field; lra).
  rewrite El, Eh in H. apply H; assumption.
Qed.

Lemma round_nonneg x n : 0 <= x -> 0 <= Py.round x n.
Proof.
  intros H. apply Qle_trans with (Py.round 0 n); [|apply round_mono; exact H].
  rewrite (round_zero 0 n); [lra | reflexivity].
Qed.

Lemma of_nat_zero_iff {A} (l : list A) :
  Qeq_bool (Py.of_nat (length l)) 0 = true <-> l = [].
Proof.
  rewrite Qeq_bool_iff. unfold Py.of_nat. split.
  - intros H. destruct l; [reflexivity|]. exfalso.
    cbn [length] in H. unfold Qeq in H. cbn in H. lia.
  - intros ->. reflexivity.
Qed.

Lemma of_nat_pos {A} (l : list A) : l <> [] -> 0 < Py.of_nat (length l).
Proof.
  intros H. destruct l; [contradiction|]. unfold Py.of_nat.
  change 0 with (inject_Z 0). rewrite <- Zlt_Qlt. cbn [length]. lia.
Qed.

End ReadabilityFacts.

(** ** Theorems about [calculate_readability] *)

Module ReadabilityTheorems.

Import PyFacts OrderFacts RatingFacts StringFacts ReadabilityFacts.
Local Open Scope Q_scope.
Local Open Scope string_scope.

(** X11.  Readability metrics.  Without a sentence or without a word the
    map binds [readability_score] and [avg_sentence_length] to 0 and
    [word_count] to the number of words, and has no [sentence_count] or
    [complexity_ratio].  Otherwise all five metrics are bound,
    [readability_score] lies in [[1, 10]], [complexity_ratio] in [[0, 1]],
    and the two counts are the numbers of words and sentences. *)
Theorem calculate_readability_ranges (blob_sentences blob_words : list string) :
  let metrics := Analyzer.calculate_readability blob_sentences blob_words in
  (blob_sentences = [] \/ blob_words = [] ->
   metrics !! "readability_score" = Some 0 /\
   metrics !! "avg_sentence_length" = Some 0 /\
   metrics !! "word_count" = Some (Py.of_nat (length blob_words)) /\
   metrics !! "sentence_count" = None /\
   metrics !! "complexity_ratio" = None) /\
  (blob_sentences <> [] -> blob_words <> [] ->
   exists score avg ratio,
     metrics !! "readability_score" = Some score /\ 1 <= score <= 10 /\
     metrics !! "avg_sentence_length" = Some avg /\ 0 <= avg /\
     metrics !! "complexity_ratio" = Some ratio /\ 0 <= ratio <= 1 /\
     metrics !! "word_count" = Some (Py.of_nat (length blob_words)) /\
     metrics !! "sentence_count" = Some (Py.of_nat (length blob_sentences))).
Proof.
  intros metrics. subst metrics. unfold Analyzer.calculate_readability.
  split.
  - intros H.
    assert (Qeq_bool (Py.of_nat (length blob_sentences)) 0
            || Qeq_bool (Py.of_nat (length blob_words)) 0 = true) as ->.
    { apply orb_true_iff.
      destruct H as [H|H]; [left|right]; apply of_nat_zero_iff; exact H. }
    repeat split; simplify_map_eq; reflexivity.
  - intros Hs Hw.
    assert (Qeq_bool (Py.of_nat (length blob_sentences)) 0
            || Qeq_bool (Py.of_nat (length blob_words)) 0 = false) as ->.
    { apply orb_false_iff.
      split; apply not_true_iff_false; rewrite of_nat_zero_iff; assumption. }
    pose proof (of_nat_pos _ Hs) as Hsp. pose proof (of_nat_pos _ Hw) as Hwp.
    set (s := Py.of_nat (length blob_sentences)) in *.
    set (w := Py.of_nat (length blob_words)) in *.
    assert (Py.ltb 0 w = true) as -> by (apply ltb_true; exact Hwp).
    set (c := Py.of_nat (length (filter _ blob_words))).
    assert (0 <= c <= w) as Hc.
    { subst c w. split; [apply of_nat_nonneg|]. apply of_nat_le.
      apply length_filter. }
    assert (0 <= w / s) as Havg.
    { apply Qle_shift_div_l; [exact Hsp|]. lra. }
    assert (0 <= c / w <= 1) as Hratio.
    { split; [apply Qle_shift_div_l; [exact Hwp|]; lra|].
      apply Qle_shift_div_r; [exact Hwp|]. lra. }
    eexists _, _, _.
    split; [simplify_map_eq; reflexivity|]. split.
    { apply (round_range 1 10).
      change (inject_Z 1) with 1. change (inject_Z 10) with 10.
      assert (0 <= w / s / 3) by (apply Qle_shift_div_l; lra).
      destruct (max_cases 1 (10 - w / s / 3 - c / w * 5)) as [[H1 ->]|[H1 ->]];
        lra. }
    split; [simplify_map_eq; reflexivity|]. split.
    { apply round_nonneg. exact Havg. }
    split; [simplify_map_eq; reflexivity|]. split.
    { apply (round_range 0 1). exact Hratio. }
    split; simplify_map_eq; reflexivity.
Qed.

Lemma calculate_readability_ranges_witness :
  Analyzer.calculate_readability [] [] !! "complexity_ratio" = None.
Proof.
  apply (proj1 (calculate_readability_ranges [] [])). left. reflexivity.
Defined.

End ReadabilityTheorems.

(** ** Theorems about [compare_with_job] *)

Module JobComparisonTheorems.

Import PyFacts OrderFacts RatingFacts StringFacts ReadabilityFacts.
Local Open Scope Q_scope.
Local Open Scope string_scope.

Lemma partition_loop (hit : string -> bool) (l matched missing : list string) :
  fold_left (fun '(matched, missing) keyword =>
               if hit keyword
               then (Py.append matched keyword, missing)
               else (matched, Py.append missing keyword))
            l (matched, missing)
  = ((matched ++ List.filter hit l)%list,
     (missing ++ List.filter (fun k => negb (hit k)) l)%list).
Proof.
  revert matched missing.
  induction l as [|k l IH]; intros matched missing; cbn [fold_left List.filter].
  - rewrite !app_nil_r. reflexivity.
  - destruct (hit k); cbn [negb]; rewrite IH; unfold Py.append;
      rewrite <- app_assoc; reflexivity.
Qed.

(** X12.  Job comparison for a known title.  The required keywords are
    split, in order, into those whose lower-cased form occurs in the
    lower-cased, space-joined resume keywords and those that do not; the
    match score lies in [[0, 100]], is 0 for an empty requirement list and
    100 when every required keyword occurs; there is one recommendation
    for each of the first five missing keywords. *)
Theorem known_job_title (job_keywords : gmap string (list string))
    (resume_analysis : AnalysisResult.t) (job_title : string)
    (required : list string) :
  job_keywords !! Py.lower job_title = Some required ->
  let resume_text :=
    Py.lower (Py.join " " (default [] (AnalysisResult.keywords resume_analysis))) in
  let hit keyword := Py.contains (Py.lower keyword) resume_text in
  let result :=
    Analyzer.compare_with_job job_keywords resume_analysis job_title in
  JobComparison.error result = None /\
  JobComparison.required_keywords result = Some required /\
  JobComparison.matched_keywords result = Some (List.filter hit required) /\
  JobComparison.missing_keywords result
  = Some (List.filter (fun k => negb (hit k)) required) /\
  (exists score,
     JobComparison.match_score result = Some score /\
     0 <= score <= 100 /\
     (required = [] -> score == 0) /\
     (required <> [] -> Forall (fun k => hit k = true) required ->
      score == 100)) /\
  (exists recommendations,
     JobComparison.recommendations result = Some recommendations /\
     length recommendations
     = Nat.min 5 (length (List.filter (fun k => negb (hit k)) required))).
Proof.
  intros Hreq resume_text hit result. subst result.
  unfold Analyzer.compare_with_job. rewrite Hreq.
  fold resume_text.
  change (fun '(matched, missing) keyword =>
            if Py.contains (Py.lower keyword) resume_text
            then (Py.append matched keyword, missing)
            else (matched, Py.append missing keyword))
    with (fun '(matched, missing) keyword =>
            if hit keyword
            then (Py.append matched keyword, missing)
            else (matched, Py.append missing keyword)).
  rewrite (partition_loop hit required [] []). cbn [app].
  cbn [JobComparison.error JobComparison.required_keywords
       JobComparison.matched_keywords JobComparison.missing_keywords
       JobComparison.match_score JobComparison.recommendations].
  split; [reflexivity|]. split; [reflexivity|]. split; [reflexivity|].
  split; [reflexivity|]. split.
  - eexists. split; [reflexivity|].
    destruct required as [|k required'] eqn:Er.
    { cbn [Py.is_empty].
      split; [split; vm_compute; discriminate|].
      split; [intros _; reflexivity | intros H; exfalso; apply H; reflexivity]. }
    assert (required <> []) as Hne by (rewrite Er; discriminate).
    rewrite <- Er. clear Er.
    assert (Py.is_empty required = false) as ->
      by (destruct required; [contradiction | reflexivity]).
    pose proof (of_nat_pos required Hne) as Hr.
    pose proof (of_nat_nonneg (length (List.filter hit required))) as Hm0.
    assert (Py.of_nat (length (List.filter hit required))
            <= Py.of_nat (length required)) as Hm
      by (apply of_nat_le, filter_length_le).
    set (m := Py.of_nat (length (List.filter hit required))) in *.
    set (r := Py.of_nat (length required)) in *.
    assert (0 <= m / r <= 1) as Hq.
    { split; [apply Qle_shift_div_l; [exact Hr|]; lra|].
      apply Qle_shift_div_r; [exact Hr|]. lra. }
    split.
    { change 0 with (inject_Z 0). change 100 with (inject_Z 100).
      apply round_range. change (inject_Z 0) with 0.
      change (inject_Z 100) with 100. lra. }
    split; [intros H; subst required; contradiction|].
    intros _ Hall.
    assert (List.filter hit required = required) as Hid.
    { clear -Hall. induction Hall as [|x l Hx _ IH]; [reflexivity|].
      cbn [List.filter]. rewrite Hx, IH. reflexivity. }
    subst m. rewrite Hid. fold r.
    assert (r / r * 100 == 100) as E by (field; lra).
    rewrite (round_proper _ _ 2 E).
    pose proof (round_range 100 100 100 2) as H100.
    change (inject_Z 100) with 100 in H100.
    assert (100 <= 100 <= 100) as Htriv by lra.
    specialize (H100 Htriv). lra.
  - eexists. split; [reflexivity|].
    rewrite length_map, length_take. reflexivity.
Qed.

Lemma known_job_title_witness :
  JobComparison.missing_keywords
    (Analyzer.compare_with_job Spec.sample_job_keywords Spec.ideal_bundle
                               "Data Scientist")
  = Some ["statistics"; "machine learning"].
Proof.
  rewrite (proj1 (proj2 (proj2 (proj2
    (known_job_title Spec.sample_job_keywords Spec.ideal_bundle
       "Data Scientist" ["python"; "statistics"; "machine learning"]
       eq_refl))))).
  reflexivity.
Defined.

End JobComparisonTheorems.

(** ** Theorems about [extract_keywords] *)

Module KeywordTheorems.

Import PyFacts OrderFacts RatingFacts CounterFacts.
Local Open Scope string_scope.

Lemma elem_of_take_in {A} (x : A) n l : x ∈ take n l -> x ∈ l.
Proof.
  intros H. rewrite <- (take_drop n l). apply elem_of_app. left. exact H.
Qed.

Lemma most_common_spec (n : nat) (xs : list string) :
  let top := map fst (Py.most_common n (Py.counter xs)) in
  let occ k := count_occ string_dec xs k in
  (length top <= n)%nat /\
  NoDup top /\
  (forall k, k ∈ top -> k ∈ xs) /\
  StronglySorted (fun a b => (occ b <= occ a)%nat) top /\
  (forall k k', k ∈ xs -> k ∉ top -> k' ∈ top -> (occ k <= occ k')%nat) /\
  ((length top < n)%nat -> forall k, k ∈ xs -> k ∈ top).
Proof.
  intros top occ. subst top. unfold Py.most_common.
  set (key := fun kv : string * nat => Py.of_nat (snd kv)).
  set (ranked := Py.sorted_reverse key (Py.counter xs)).
  destruct (counter_spec xs) as [Hnd Hget].
  pose proof (sorted_reverse_perm key (Py.counter xs)) as Hperm.
  pose proof (sorted_reverse_sorted key (Py.counter xs)) as Hsort.
  fold ranked in Hperm, Hsort.
  assert (forall k m, (k, m) ∈ ranked -> m = occ k /\ (0 < m)%nat) as Helem.
  { intros k m Hin. apply counter_elem. rewrite <- Hperm. exact Hin. }
  assert (NoDup (map fst ranked)) as Hnd'.
  { unfold Py.keys in Hnd. rewrite Hperm. exact Hnd. }
  assert (forall k, k ∈ xs -> (k, occ k) ∈ ranked) as Hall.
  { intros k Hk. rewrite Hperm. specialize (Hget k).
    apply list_elem_of_In, (count_occ_In string_dec) in Hk.
    fold (occ k) in Hget, Hk.
    destruct (occ k =? 0)%nat eqn:E; [apply Nat.eqb_eq in E; lia|].
    clear -Hget. induction (Py.counter xs) as [|[k' v'] d IH];
      cbn [Py.get] in Hget; [discriminate|].
    destruct (String.eqb k k') eqn:Ek.
    - apply String.eqb_eq in Ek. subst k'. injection Hget as ->. left.
    - right. apply IH. exact Hget. }
  assert (forall a b, key b <= key a -> (snd b <= snd a)%nat)%Q as Hkey.
  { intros a b H. unfold key, Py.of_nat in H. rewrite <- Zle_Qle in H. lia. }
  rewrite <- (take_drop n ranked) in Hsort.
  split; [rewrite length_map, length_take; lia|].
  split.
  { eapply sublist_NoDup; [exact Hnd'|].
    apply (fmap_sublist fst), sublist_take. }
  split.
  { intros k Hk. apply list_elem_of_fmap in Hk.
    destruct Hk as ([k' m] & -> & Hin). cbn [fst].
    apply elem_of_take_in in Hin. destruct (Helem _ _ Hin) as [-> Hpos].
    apply list_elem_of_In, (count_occ_In string_dec). exact Hpos. }
  split.
  { apply StronglySorted_app_1_l in Hsort.
    assert (Forall (fun kv => snd kv = occ (fst kv)) (take n ranked)) as Hocc.
    { apply Forall_forall. intros [k m] Hin. cbn.
      apply elem_of_take_in in Hin. apply (Helem _ _ Hin). }
    induction Hsort as [|kv l Hs IH Hkv]; cbn [map]; [constructor|].
    apply Forall_cons in Hocc. destruct Hocc as [Hkv0 Hocc].
    constructor; [apply IH; exact Hocc|].
    apply Forall_fmap, Forall_forall. intros kv' Hin. cbn.
    rewrite Forall_forall in Hkv, Hocc.
    rewrite <- Hkv0, <- (Hocc _ Hin). apply Hkey, Hkv, Hin. }
  split.
  { intros k k' Hk Hnot Hk'.
    apply list_elem_of_fmap in Hk'. destruct Hk' as ([k2 m2] & -> & Hin2).
    cbn [fst]. pose proof (Hall k Hk) as Hin.
    rewrite <- (take_drop n ranked) in Hin. apply elem_of_app in Hin.
    destruct Hin as [Hin|Hin].
    - exfalso. apply Hnot. apply list_elem_of_fmap.
      exists (k, occ k). split; [reflexivity | exact Hin].
    - pose proof (StronglySorted_app_1_elem_of _ _ _ _ _ Hsort Hin2 Hin) as H.
      apply Hkey in H. cbn [snd] in H.
      apply elem_of_take_in in Hin2.
      destruct (Helem _ _ Hin2) as [<- _]. exact H. }
  intros Hlt k Hk. rewrite length_map, length_take in Hlt.
  rewrite take_ge by lia. apply list_elem_of_fmap.
  exists (k, occ k). split; [reflexivity | apply Hall, Hk].
Qed.

(** X13.  Keyword extraction.  The candidate words are the words the
    tagger tags as nouns or adjectives when it is given the filtered
    tokens, and the filtered tokens themselves when its model is missing.
    The result holds at most twenty candidates, all distinct, by frequency
    among the candidates descending; a candidate left out is no more
    frequent than any keyword returned, and none is left out when fewer
    than twenty are returned.  Every filtered token is alphabetic, is no
    stop word and has more than two characters. *)
Theorem extract_keywords_shape (word_tokenize : string -> list string)
    (stop_words : gset string)
    (pos_tag : list string -> option (list (string * string)))
    (text : string) :
  let filtered :=
    List.filter (fun token =>
                   Py.isalpha token
                   && negb (bool_decide (token ∈ stop_words))
                   && (2 <? String.length token)%nat)
                (word_tokenize (Py.lower text)) in
  let candidates :=
    match pos_tag filtered with
    | Some pos_tags =>
        map fst (List.filter
                   (fun '(_, pos) =>
                      String.prefix "NN" pos || String.prefix "JJ" pos)
                   pos_tags)
    | None => filtered
    end in
  let occ k := count_occ string_dec candidates k in
  let keywords :=
    Analyzer.extract_keywords word_tokenize stop_words pos_tag text in
  (length keywords <= 20)%nat /\
  NoDup keywords /\
  (forall k, k ∈ keywords -> k ∈ candidates) /\
  StronglySorted (fun a b => (occ b <= occ a)%nat) keywords /\
  (forall k k', k ∈ candidates -> k ∉ keywords -> k' ∈ keywords ->
                (occ k <= occ k')%nat) /\
  ((length keywords < 20)%nat -> forall k, k ∈ candidates -> k ∈ keywords) /\
  Forall (fun token =>
            Py.isalpha token = true /\ (token ∉ stop_words) /\
            (2 < String.length token)%nat)
         filtered.
Proof.
  intros filtered candidates occ keywords. subst keywords occ.
  unfold Analyzer.extract_keywords. fold filtered. fold candidates.
  destruct (most_common_spec 20 candidates) as (H1 & H2 & H3 & H4 & H5 & H6).
  split; [exact H1|]. split; [exact H2|]. split; [exact H3|].
  split; [exact H4|]. split; [exact H5|]. split; [exact H6|].
  apply Forall_forall. intros t Ht. subst filtered.
  apply list_elem_of_In, filter_In in Ht. destruct Ht as [_ Ht].
  apply andb_true_iff in Ht. destruct Ht as [Ht Hlen].
  apply andb_true_iff in Ht. destruct Ht as [Ha Hs].
  split; [exact Ha|]. split.
  - apply negb_true_iff, bool_decide_eq_false in Hs. exact Hs.
  - apply Nat.ltb_lt. exact Hlen.
Qed.

End KeywordTheorems.

(** ** Facts about analysis followed by rating *)

Module PipelineFacts.

Import PyFacts OrderFacts RatingFacts ReadabilityFacts.
Local Open Scope Q_scope.
Local Open Scope string_scope.

Lemma readability_word_count (blob_sentences blob_words : list string) :
  Analyzer.calculate_readability blob_sentences blob_words !! "word_count"
  = Some (Py.of_nat (length blob_words)).
Proof.
  unfold Analyzer.calculate_readability.
  destruct (Qeq_bool _ 0 || Qeq_bool _ 0); simplify_map_eq; reflexivity.
Qed.

(** The report of a bundle without error and with a word count that is not
    negative. *)
Lemma scored_report (a : AnalysisResult.t) :
  AnalysisResult.error a = None ->
  0 <= Spec.word_count_of a ->
  exists r detailed overall category,
    Rating.calculate_overall_score a = Some r /\
    RatingResult.error r = None /\
    RatingResult.detailed_scores r = Some detailed /\
    Py.keys detailed = Spec.criteria /\
    Forall (fun kv => 0 <= snd kv <= 10) detailed /\
    RatingResult.overall_score r = Some overall /\
    0 <= overall <= 10 /\
    RatingResult.rating_category r = Some category.
Proof.
  intros He Hw. pose proof (raw_scores_bounds a Hw) as Hraw.
  destruct (calculate_overall_score_scored a _ _ _ _ _ _ _ He eq_refl)
    as [b Hr].
  eexists _, _, _, _. split; [exact Hr|].
  cbn [RatingResult.detailed_scores RatingResult.overall_score
       RatingResult.error RatingResult.rating_category].
  split; [reflexivity|]. split; [reflexivity|]. split; [reflexivity|].
  unfold Rating.detailed_scores_of in Hraw.
  repeat match goal with
  | H : Forall _ (_ :: _) |- _ =>
      let Hx := fresh "Hx" in
      apply Forall_cons in H; destruct H as [Hx H]; cbn [snd] in Hx
  end.
  split; [repeat constructor; cbn [snd]; apply round_bounds; assumption|].
  split; [reflexivity|]. split; [apply round_bounds; lra | reflexivity].
Qed.

End PipelineFacts.

(** ** Theorems about analysis followed by rating *)

Module PipelineTheorems.

Import PyFacts OrderFacts RatingFacts PipelineFacts.
Local Open Scope Q_scope.
Local Open Scope string_scope.

Section Analysis.
Variable skills_database : Py.dict (list string).
Variable sent_tokenize : string -> option (list string).
Variable word_tokenize : string -> option (list string).
Variable stop_words : gset string.
Variable pos_tag : list string -> option (list (string * string)).
Variable blob_sentences : string -> option (list string).
Variable blob_words : string -> option (list string).

(** X14.  Analysis followed by rating, on ASCII text.  A text that is
    empty or only whitespace gives the error bundle (every map empty, no
    summary statistics) before any tokenizer is called, and rating hands
    it on with overall score 0.0, no detailed scores and the same error.
    For any other text the analysis raises exactly when one of
    [word_tokenize], [sent_tokenize] and TextBlob's two segmentations
    does; when it returns, the bundle has no error and summary
    statistics, and its report has an overall score in [[0, 10]], a
    rating category and the seven detailed scores, each in [[0, 10]]. *)
Theorem analyze_then_rate (text : string) :
  Spec.ascii_text text = true ->
  let outcome :=
    Analyzer.analyze_resume skills_database sent_tokenize word_tokenize
      stop_words pos_tag blob_sentences blob_words text in
  (Py.strip text = "" ->
   exists analysis r,
     outcome = Some analysis /\
     AnalysisResult.error (Analysis.bundle analysis)
     = Some "No text provided for analysis" /\
     AnalysisResult.skills (Analysis.bundle analysis) = Some [] /\
     AnalysisResult.readability (Analysis.bundle analysis) = Some ∅ /\
     Analysis.summary_stats analysis = None /\
     Rating.rate_resume (Analysis.bundle analysis) = Some r /\
     RatingResult.error r = Some "No text provided for analysis" /\
     RatingResult.detailed_scores r = Some [] /\
     RatingResult.overall_score r = Some 0.0) /\
  (Py.strip text <> "" ->
   (outcome = None
    <-> word_tokenize (Py.lower text) = None \/ sent_tokenize text = None
        \/ blob_sentences text = None \/ blob_words text = None) /\
   (forall analysis,
      outcome = Some analysis ->
      AnalysisResult.error (Analysis.bundle analysis) = None /\
      is_Some (Analysis.summary_stats analysis) /\
      exists r overall detailed,
        Rating.rate_resume (Analysis.bundle analysis) = Some r /\
        RatingResult.error r = None /\
        RatingResult.overall_score r = Some overall /\
        0 <= overall <= 10 /\
        is_Some (RatingResult.rating_category r) /\
        RatingResult.detailed_scores r = Some detailed /\
        Py.keys detailed = Spec.criteria /\
        Forall (fun kv => 0 <= snd kv <= 10) detailed)).
Proof.
  intros _ outcome. subst outcome. unfold Analyzer.analyze_resume.
  destruct (String.eqb text "" || String.eqb (Py.strip text) "") eqn:E.
  - split; [|intros H; exfalso; apply H].
    + intros _. eexists _, _. split; [reflexivity|].
      cbn. repeat split; reflexivity.
    + apply orb_true_iff in E. destruct E as [E|E];
        apply String.eqb_eq in E; [subst text; reflexivity | exact E].
  - apply orb_false_iff in E. destruct E as [_ E].
    apply String.eqb_neq in E.
    split; [intros H; contradiction|]. intros _.
    destruct (word_tokenize (Py.lower text)) as [tokens|];
      cbn [mbind option_bind];
      [|split; [split; [auto | reflexivity] | intros ? [=]]].
    destruct (sent_tokenize text) as [sentences|];
      cbn [mbind option_bind];
      [|split; [split; [auto | reflexivity] | intros ? [=]]].
    destruct (blob_sentences text) as [blob_sentence_list|];
      cbn [mbind option_bind];
      [|split; [split; [auto | reflexivity] | intros ? [=]]].
    destruct (blob_words text) as [blob_word_list|];
      cbn [mbind option_bind];
      [|split; [split; [auto | reflexivity] | intros ? [=]]].
    split.
    { split; [intros [=] | intros [H|[H|[H|H]]]; discriminate H]. }
    intros analysis [= <-].
    cbn [Analysis.bundle Analysis.summary_stats].
    match goal with |- context [Rating.rate_resume ?b] => set (a := b) end.
    destruct (scored_report a) as (r & d & o & c & Hr & Her & Hd & Hk & Hb
                                    & Ho & Hob & Hc).
    { reflexivity. }
    { unfold Spec.word_count_of. subst a.
      cbn [AnalysisResult.readability default from_option id].
      rewrite readability_word_count. cbn [default from_option id].
      apply of_nat_nonneg. }
    split; [reflexivity|]. split; [eexists; reflexivity|].
    exists r, o, d. split; [exact Hr|]. split; [exact Her|].
    split; [exact Ho|]. split; [exact Hob|].
    split; [rewrite Hc; eexists; reflexivity|].
    repeat split; assumption.
Qed.
End Analysis.

Lemma analyze_then_rate_witness :
  let tokens (_ : string) := Some ["python"; "developer"] in
  exists analysis r overall,
    Analyzer.analyze_resume [] tokens tokens ∅ (fun _ => None) tokens tokens
      "Python developer" = Some analysis /\
    Rating.rate_resume (Analysis.bundle analysis) = Some r /\
    RatingResult.overall_score r = Some overall /\
    0 <= overall <= 10.
Proof.
  intros tokens.
  destruct (analyze_then_rate [] tokens tokens ∅ (fun _ => None) tokens tokens
              "Python developer" eq_refl) as [_ H].
  destruct H as [Hraise Hreturn]; [vm_compute; discriminate|].
  destruct (Analyzer.analyze_resume [] tokens tokens ∅ (fun _ => None)
              tokens tokens "Python developer") as [analysis|] eqn:E.
  - destruct (Hreturn analysis eq_refl)
      as (_ & _ & r & overall & d & Hr & _ & Ho & Hb & _).
    exists analysis, r, overall. repeat split; assumption || apply Hb.
  - exfalso. destruct (proj1 Hraise eq_refl) as [H|[H|[H|H]]];
      discriminate H.
Defined.

End PipelineTheorems.

(** ** Facts about the suggestion tiers *)

Module TierFacts.

Import Random PyFacts SuggestionFacts RandomFacts.
Local Open Scope string_scope.

Lemma unique_nonempty_spec (xs : list string) :
  NoDup (Suggestions.unique_nonempty xs) /\
  (forall x, x ∈ Suggestions.unique_nonempty xs
             <-> x ∈ xs /\ x <> EmptyString) /\
  (length (Suggestions.unique_nonempty xs) <= length xs)%nat.
Proof.
  unfold Suggestions.unique_nonempty, Suggestions.list_of_set.
  assert (forall x, x ∈ elements (list_to_set (C := gset string)
                        (filter (fun s => s <> EmptyString) xs))
                    <-> x ∈ xs /\ x <> EmptyString) as Hin.
  { intros x. rewrite elem_of_elements, elem_of_list_to_set,
      list_elem_of_filter. tauto. }
  split; [apply NoDup_elements|]. split; [exact Hin|].
  apply submseteq_length, NoDup_submseteq; [apply NoDup_elements|].
  intros x Hx. apply Hin in Hx. apply Hx.
Qed.

Lemma for_each_length {A} (xs : list A)
    (body : list string -> A -> M (list string)) (bound : nat)
    (s : list string) (g : Random.t) :
  (forall s x g, length (fst (body s x g)) <= length s + bound)%nat ->
  (length (fst (for_each xs body s g)) <= length s + bound * length xs)%nat.
Proof.
  intros Hbody. revert s g.
  induction xs as [|x xs IH]; intros s g; cbn [for_each length].
  - cbn. lia.
  - unfold bind. specialize (Hbody s x g).
    destruct (body s x g) as [s' g']. cbn [fst] in Hbody.
    specialize (IH s' g'). lia.
Qed.

Lemma for_each_invariant_in {A S} (P : S -> Prop) (xs : list A)
    (body : S -> A -> M S) (s : S) (g : Random.t) :
  P s ->
  (forall s x g, x ∈ xs -> P s -> P (fst (body s x g))) ->
  P (fst (for_each xs body s g)).
Proof.
  revert s g. induction xs as [|x xs IH]; intros s g Hs Hbody;
    cbn [for_each].
  - exact Hs.
  - unfold bind.
    pose proof (Hbody s x g (list_elem_of_here x xs) Hs) as Hx.
    destruct (body s x g) as [s' g']. apply IH; [exact Hx|].
    intros s0 y g0 Hy. apply Hbody. apply list_elem_of_further. exact Hy.
Qed.

Lemma filter_filled (xs : list string) :
  Spec.filled xs -> filter (fun s => s <> EmptyString) xs = xs.
Proof.
  induction 1 as [|x xs Hx _ IH]; [reflexivity|].
  rewrite filter_cons_True by exact Hx. rewrite IH. reflexivity.
Qed.

Lemma unique_nonempty_perm (xs : list string) :
  NoDup xs -> Spec.filled xs -> Suggestions.unique_nonempty xs ≡ₚ xs.
Proof.
  intros Hnd Hf. unfold Suggestions.unique_nonempty, Suggestions.list_of_set.
  rewrite (filter_filled xs Hf). apply elements_list_to_set. exact Hnd.
Qed.

Lemma formatting_suggestions_NoDup : NoDup Suggestions.formatting_suggestions.
Proof. apply (bool_decide_unpack _). vm_compute. reflexivity. Qed.

Lemma action_verbs_NoDup : NoDup Suggestions.action_verbs.
Proof. apply (bool_decide_unpack _). vm_compute. reflexivity. Qed.

Lemma metrics_examples_NoDup : NoDup Suggestions.metrics_examples.
Proof. apply (bool_decide_unpack _). vm_compute. reflexivity. Qed.

Lemma formatting_suggestions_spec (detailed_scores : Py.dict Q) g :
  exists tip1 tip2 tip3,
    fst (Suggestions.generate_formatting_suggestions detailed_scores g)
    = [ "🎨 **Formatting**: " ++ tip1; "🎨 **Formatting**: " ++ tip2;
        "🎨 **Formatting**: " ++ tip3 ] /\
    NoDup [tip1; tip2; tip3] /\
    (forall tip, tip ∈ [tip1; tip2; tip3] ->
                 tip ∈ Suggestions.formatting_suggestions).
Proof.
  unfold Suggestions.generate_formatting_suggestions, bind.
  destruct (sample_distinct 3 Suggestions.formatting_suggestions g
              formatting_suggestions_NoDup) as (Hnd & Hlen & Hin).
  { cbn. lia. }
  destruct (sample Suggestions.formatting_suggestions 3 g) as [tips g1].
  cbn [fst] in *.
  destruct tips as [|t1 [|t2 [|t3 [|t4 tips]]]]; try discriminate Hlen.
  exists t1, t2, t3. split; [reflexivity|]. split; assumption.
Qed.

Lemma enhancement_tips_spec g :
  exists verbs metrics,
    fst (Suggestions.generate_content_enhancement_tips g)
    = [ "💪 **Action Verbs**: Start bullet points with strong verbs like: "
        ++ Py.join ", " verbs;
        "📊 **Quantify Achievements**: Include specific metrics and numbers (e.g., "
        ++ Py.join " | " metrics ++ ")" ] /\
    (NoDup verbs /\ length verbs = 4%nat /\
     forall v, v ∈ verbs -> v ∈ Suggestions.action_verbs) /\
    (NoDup metrics /\ length metrics = 3%nat /\
     forall m, m ∈ metrics -> m ∈ Suggestions.metrics_examples).
Proof.
  unfold Suggestions.generate_content_enhancement_tips, bind.
  pose proof (sample_distinct 4 Suggestions.action_verbs g
                action_verbs_NoDup) as Hv.
  destruct (sample Suggestions.action_verbs 4 g) as [verbs g1].
  pose proof (sample_distinct 3 Suggestions.metrics_examples g1
                metrics_examples_NoDup) as Hm.
  destruct (sample Suggestions.metrics_examples 3 g1) as [metrics g2].
  cbn [fst] in *. exists verbs, metrics.
  split; [reflexivity|]. split; [apply Hv | apply Hm]; cbn; lia.
Qed.


Lemma enhancement_four (tip1 tip2 verbs metrics : string) :
  tip1 <> tip2 ->
  let tips :=
    [ "🎨 **Formatting**: " ++ tip1; "🎨 **Formatting**: " ++ tip2;
      "💪 **Action Verbs**: Start bullet points with strong verbs like: "
      ++ verbs;
      "📊 **Quantify Achievements**: Include specific metrics and numbers (e.g., "
      ++ metrics ] in
  Suggestions.unique_nonempty tips ≡ₚ tips.
Proof.
  intros Hne tips. subst tips. apply unique_nonempty_perm.
  - cbn. repeat (apply NoDup_cons; split);
      rewrite ?elem_of_cons, ?elem_of_nil; try apply NoDup_nil_2.
    + intros [H|[H|[H|[]]]]; try discriminate H.
      apply Hne. injection H as H. exact H.
    + intros [H|[H|[]]]; discriminate H.
    + intros [H|[]]; discriminate H.
    + intros [].
  - cbn. repeat (apply Forall_cons; split; [discriminate|]).
    apply Forall_nil_2.
Qed.

(** The three tiers before de-duplication. *)
Lemma priority_suggestions_tiers (a : AnalysisResult.t)
    (r : RatingResult.t) (g : Random.t) :
  exists critical important tip1 tip2 verbs metrics,
    fst (Suggestions.generate_priority_suggestions a r g)
    = {| PrioritySuggestions.critical := Suggestions.unique_nonempty critical;
         PrioritySuggestions.important :=
           Suggestions.unique_nonempty important;
         PrioritySuggestions.enhancement :=
           Suggestions.unique_nonempty
             [ "🎨 **Formatting**: " ++ tip1; "🎨 **Formatting**: " ++ tip2;
               "💪 **Action Verbs**: Start bullet points with strong verbs like: "
               ++ Py.join ", " verbs;
               "📊 **Quantify Achievements**: Include specific metrics and numbers (e.g., "
               ++ Py.join " | " metrics ++ ")" ] |} /\
    (length critical
     <= 2 * length (default [] (RatingResult.improvement_priority r)))%nat /\
    (length important <= 4)%nat /\
    (tip1 <> tip2 /\ tip1 ∈ Suggestions.formatting_suggestions /\
     tip2 ∈ Suggestions.formatting_suggestions) /\
    (NoDup verbs /\ length verbs = 4%nat /\
     forall v, v ∈ verbs -> v ∈ Suggestions.action_verbs) /\
    (NoDup metrics /\ length metrics = 3%nat /\
     forall m, m ∈ metrics -> m ∈ Suggestions.metrics_examples).
Proof.
  unfold Suggestions.generate_priority_suggestions, bind.
  set (priorities := default [] (RatingResult.improvement_priority r)).
  match goal with |- context [for_each priorities ?b ?s g] =>
    pose proof (for_each_length priorities b 2 s g) as Hcrit;
    destruct (for_each priorities b s g) as [critical g1]
  end.
  destruct (Suggestions.generate_section_suggestions _ _ g1) as [found g2].
  destruct (formatting_suggestions_spec
              (default [] (RatingResult.detailed_scores r)) g2)
    as (t1 & t2 & t3 & Ht & Hnd & Hin).
  destruct (Suggestions.generate_formatting_suggestions _ g2) as [tips g3].
  destruct (enhancement_tips_spec g3) as (verbs & metrics & Hm & Hv & Hx).
  destruct (Suggestions.generate_content_enhancement_tips g3) as [more g4].
  cbn [fst] in Ht, Hm. subst tips more. unfold ret. cbn [fst].
  eexists critical, _, t1, t2, verbs, metrics.
  split; [reflexivity|]. split; [|split]; [| |split; [|split; assumption]].
  - cbn [fst length] in Hcrit.
    enough (length critical <= 0 + 2 * length priorities)%nat by lia.
    apply Hcrit. intros s x g0.
    repeat match goal with
    | |- context [if ?c then _ else _] => destruct c
    end; unfold bind;
      try match goal with
      | |- context [Suggestions.generate_skill_suggestions ?x ?y g0] =>
          destruct (Suggestions.generate_skill_suggestions x y g0)
      | |- context [Suggestions.generate_section_suggestions ?x ?y g0] =>
          destruct (Suggestions.generate_section_suggestions x y g0)
      end;
      cbn [ret fst]; unfold Py.extend;
      rewrite ?length_app, ?length_take; lia.
  - unfold Py.extend. rewrite !length_app, !length_take. cbn [length]. lia.
  - split; [|split; apply Hin; rewrite !elem_of_cons; auto].
    intros ->. apply NoDup_cons in Hnd. destruct Hnd as [Hnd _].
    apply Hnd. apply list_elem_of_here.
Qed.

End TierFacts.

(** ** Theorems about the suggestion tiers *)

Module TierTheorems.

Import Random PyFacts SuggestionFacts TierFacts.
Local Open Scope string_scope.

(** X15.  Every tier of the priority suggestions is free of duplicates
    and of empty strings; the critical tier holds at most two suggestions
    for each improvement priority and the important tier at most four. *)
Theorem tiers_are_sets (a : AnalysisResult.t) (r : RatingResult.t)
    (g : Random.t) :
  let tiers := fst (Suggestions.generate_priority_suggestions a r g) in
  let priorities := default [] (RatingResult.improvement_priority r) in
  (NoDup (PrioritySuggestions.critical tiers) /\
   Spec.filled (PrioritySuggestions.critical tiers) /\
   (length (PrioritySuggestions.critical tiers) <= 2 * length priorities)%nat) /\
  (NoDup (PrioritySuggestions.important tiers) /\
   Spec.filled (PrioritySuggestions.important tiers) /\
   (length (PrioritySuggestions.important tiers) <= 4)%nat) /\
  (NoDup (PrioritySuggestions.enhancement tiers) /\
   Spec.filled (PrioritySuggestions.enhancement tiers)).
Proof.
  intros tiers priorities. subst tiers.
  destruct (priority_suggestions_tiers a r g)
    as (critical & important & t1 & t2 & verbs & metrics & -> & Hc & Hi & _).
  fold priorities in Hc.
  cbn [PrioritySuggestions.critical PrioritySuggestions.important
       PrioritySuggestions.enhancement].
  assert (forall xs, Spec.filled (Suggestions.unique_nonempty xs)) as Hfilled.
  { intros xs. apply Forall_forall. intros x Hx.
    apply unique_nonempty_spec in Hx. apply Hx. }
  assert (forall xs n, (length xs <= n)%nat ->
            (length (Suggestions.unique_nonempty xs) <= n)%nat) as Hlen.
  { intros xs n Hn. etransitivity; [apply unique_nonempty_spec | exact Hn]. }
  split; [|split].
  - split; [apply unique_nonempty_spec|]. split; [apply Hfilled|].
    apply Hlen. exact Hc.
  - split; [apply unique_nonempty_spec|]. split; [apply Hfilled|].
    apply Hlen. exact Hi.
  - split; [apply unique_nonempty_spec | apply Hfilled].
Qed.

(** X16.  Improvement priorities that name neither skills, sections,
    content nor readability add nothing to the critical tier: when the
    report's priorities are only Contact Completeness and Project Quality
    (or there are none), the critical tier is empty, whatever the bundle
    and the scores. *)
Theorem contact_and_project_priorities_are_not_critical
    (a : AnalysisResult.t) (r : RatingResult.t) (g : Random.t) :
  Forall (fun priority => priority = "Contact Completeness"
                          \/ priority = "Project Quality")
         (default [] (RatingResult.improvement_priority r)) ->
  PrioritySuggestions.critical
    (fst (Suggestions.generate_priority_suggestions a r g)) = [].
Proof.
  intros Hp. unfold Suggestions.generate_priority_suggestions, bind.
  match goal with |- context [for_each ?xs ?b ?s g] =>
    assert (fst (for_each xs b s g) = []) as Hcrit
  end.
  { apply (for_each_invariant_in (fun s => s = [])); [reflexivity|].
    intros s x g0 Hx ->. rewrite Forall_forall in Hp.
    destruct (Hp x Hx) as [-> | ->]; reflexivity. }
  destruct (for_each _ _ _ g) as [critical g1]. cbn [fst] in Hcrit.
  subst critical.
  destruct (Suggestions.generate_section_suggestions _ _ g1) as [found g2].
  destruct (Suggestions.generate_formatting_suggestions _ g2) as [tips g3].
  destruct (Suggestions.generate_content_enhancement_tips g3) as [more g4].
  reflexivity.
Qed.

Lemma contact_and_project_priorities_are_not_critical_witness :
  PrioritySuggestions.critical
    (fst (Suggestions.generate_priority_suggestions
            Spec.zero_word_bundle
            {| RatingResult.overall_score := Some 6.5%Q;
               RatingResult.rating_category := Some "Fair";
               RatingResult.rating_description := None;
               RatingResult.detailed_scores :=
                 Some [("contact_completeness", 2.0%Q);
                       ("project_quality", 0.0%Q)];
               RatingResult.score_breakdown := None;
               RatingResult.improvement_priority :=
                 Some ["Project Quality"; "Contact Completeness"];
               RatingResult.error := None |}
            Spec.some_generator)) = [].
Proof.
  apply contact_and_project_priorities_are_not_critical.
  cbn [RatingResult.improvement_priority default from_option id].
  apply Forall_cons_2; [right; reflexivity|].
  apply Forall_cons_2; [left; reflexivity|]. apply Forall_nil_2.
Defined.

(** X17.  The enhancement tier always holds exactly four suggestions: two
    formatting tips drawn from different entries of the formatting list,
    the action-verb tip naming four different verbs of the verb list, and
    the metrics tip quoting three different examples of the examples
    list. *)
Theorem enhancement_tier_has_four (a : AnalysisResult.t)
    (r : RatingResult.t) (g : Random.t) :
  let tier :=
    PrioritySuggestions.enhancement
      (fst (Suggestions.generate_priority_suggestions a r g)) in
  exists tip1 tip2 verbs metrics,
    tier ≡ₚ
      [ "🎨 **Formatting**: " ++ tip1; "🎨 **Formatting**: " ++ tip2;
        "💪 **Action Verbs**: Start bullet points with strong verbs like: "
        ++ Py.join ", " verbs;
        "📊 **Quantify Achievements**: Include specific metrics and numbers (e.g., "
        ++ Py.join " | " metrics ++ ")" ] /\
    length tier = 4%nat /\
    (tip1 <> tip2 /\ tip1 ∈ Suggestions.formatting_suggestions /\
     tip2 ∈ Suggestions.formatting_suggestions) /\
    (NoDup verbs /\ length verbs = 4%nat /\
     forall v, v ∈ verbs -> v ∈ Suggestions.action_verbs) /\
    (NoDup metrics /\ length metrics = 3%nat /\
     forall m, m ∈ metrics -> m ∈ Suggestions.metrics_examples).
Proof.
  intros tier. subst tier.
  destruct (priority_suggestions_tiers a r g)
    as (critical & important & t1 & t2 & verbs & metrics & -> & _ & _
        & Ht & Hv & Hm).
  cbn [PrioritySuggestions.enhancement].
  exists t1, t2, verbs, metrics.
  pose proof (enhancement_four t1 t2 (Py.join ", " verbs)
                (Py.join " | " metrics ++ ")") (proj1 Ht)) as Hperm.
  cbv zeta in Hperm.
  split; [exact Hperm|]. split; [rewrite Hperm; reflexivity|].
  split; [exact Ht|]. split; assumption.
Qed.

(** X18.  The action plan lists one entry for each tier that is not
    empty, in the order High, Medium, Low Priority, and each entry holds
    the first three suggestions of its tier, so between one and three
    items; the plan is empty only when all three tiers are. *)
Theorem action_plan_shape (s : PrioritySuggestions.t) :
  let plan := Suggestions.generate_improvement_action_plan s in
  let entries (tier : list string) := if Py.is_empty tier then 0%nat else 1%nat in
  length plan
  = (entries (PrioritySuggestions.critical s)
     + entries (PrioritySuggestions.important s)
     + entries (PrioritySuggestions.enhancement s))%nat /\
  map ActionItem.priority plan
    `sublist_of` ["High Priority"; "Medium Priority"; "Low Priority"] /\
  Forall (fun entry =>
            (1 <= length (ActionItem.items entry) <= 3)%nat /\
            exists tier,
              (ActionItem.priority entry, tier)
                ∈ [ ("High Priority", PrioritySuggestions.critical s);
                    ("Medium Priority", PrioritySuggestions.important s);
                    ("Low Priority", PrioritySuggestions.enhancement s) ] /\
              ActionItem.items entry = take 3 tier) plan.
Proof.
  intros plan entries. subst plan entries.
  unfold Suggestions.generate_improvement_action_plan.
  destruct s as [c i e]. cbn [PrioritySuggestions.critical
    PrioritySuggestions.important PrioritySuggestions.enhancement].
  assert (forall (l : list string) x, (1 <= length (take 3 (x :: l)) <= 3)%nat)
    as Hlen.
  { intros l x. rewrite length_take. cbn [length]. lia. }
  destruct c as [|c1 c], i as [|i1 i], e as [|e1 e];
    cbn [Py.is_empty negb Py.append app length map ActionItem.priority];
    (split; [reflexivity|]);
    (split; [repeat first [ apply sublist_nil | apply sublist_skip
                          | apply sublist_cons ] |]);
    repeat (apply Forall_cons; split;
            [cbn [ActionItem.items ActionItem.priority];
             split; [apply Hlen|];
             eexists; split; [|reflexivity];
             rewrite !elem_of_cons; auto |]);
    apply Forall_nil_2.
Qed.

(** X19.  The result of [generate_suggestions] always has an action plan
    of one to three entries whose last entry is the Low Priority one with
    exactly three items, and [total_suggestions] is the sum of the tier
    sizes: at least four, and at most eight more than twice the number of
    improvement priorities. *)
Theorem generate_suggestions_shape (a : AnalysisResult.t)
    (r : RatingResult.t) (g : Random.t) :
  let result := fst (Suggestions.generate_suggestions a r g) in
  let tiers := SuggestionsResult.suggestions_by_priority result in
  let plan := SuggestionsResult.action_plan result in
  tiers = fst (Suggestions.generate_priority_suggestions a r g) /\
  (1 <= length plan <= 3)%nat /\
  (exists entry, last plan = Some entry /\
     ActionItem.priority entry = "Low Priority" /\
     ActionItem.items entry = take 3 (PrioritySuggestions.enhancement tiers) /\
     length (ActionItem.items entry) = 3%nat) /\
  SuggestionsResult.total_suggestions result
  = (length (PrioritySuggestions.critical tiers)
     + length (PrioritySuggestions.important tiers)
     + length (PrioritySuggestions.enhancement tiers))%nat /\
  (4 <= SuggestionsResult.total_suggestions result
     <= 2 * length (default [] (RatingResult.improvement_priority r)) + 8)%nat.
Proof.
  intros result tiers plan. subst plan tiers result.
  unfold Suggestions.generate_suggestions, bind.
  destruct (priority_suggestions_tiers a r g)
    as (critical & important & t1 & t2 & verbs & metrics & Ht & Hc & Hi
        & Hne & _).
  destruct (Suggestions.generate_priority_suggestions a r g) as [tiers g1].
  cbn [fst] in Ht. subst tiers. unfold ret.
  cbn [fst SuggestionsResult.suggestions_by_priority
       SuggestionsResult.action_plan SuggestionsResult.total_suggestions
       PrioritySuggestions.critical PrioritySuggestions.important
       PrioritySuggestions.enhancement].
  pose proof (enhancement_four t1 t2 (Py.join ", " verbs)
                (Py.join " | " metrics ++ ")") (proj1 Hne)) as Hperm.
  cbv zeta in Hperm. apply Permutation_length in Hperm.
  cbn [length] in Hperm.
  pose proof (proj2 (proj2 (unique_nonempty_spec critical))) as Hc'.
  pose proof (proj2 (proj2 (unique_nonempty_spec important))) as Hi'.
  unfold Suggestions.generate_improvement_action_plan.
  cbn [PrioritySuggestions.critical PrioritySuggestions.important
       PrioritySuggestions.enhancement].
  destruct (Suggestions.unique_nonempty [_; _; _; _])
    as [|e1 [|e2 [|e3 [|e4 [|e5 enhancement]]]]]; try discriminate Hperm.
  split; [reflexivity|].
  destruct (Suggestions.unique_nonempty critical) as [|c1 cs],
           (Suggestions.unique_nonempty important) as [|i1 imps];
    cbn [Py.is_empty negb Py.append app length last take ActionItem.priority
         ActionItem.items] in *;
    (split; [lia|]);
    (split; [eexists; repeat split; reflexivity|]);
    (split; [reflexivity | lia]).
Qed.

End TierTheorems.

(** ** Facts about content suggestions *)

Module AdviceFacts.

Import Random PyFacts OrderFacts RatingFacts SuggestionFacts TierFacts.
Local Open Scope string_scope.

Lemma append_other (s : list string) (x line : string) :
  line <> x -> line ∈ Py.append s x <-> line ∈ s.
Proof.
  intros Hne. unfold Py.append.
  rewrite elem_of_app, list_elem_of_singleton. tauto.
Qed.

Lemma append_same (s : list string) (line : string) :
  line ∈ Py.append s line.
Proof.
  unfold Py.append. rewrite elem_of_app, list_elem_of_singleton. tauto.
Qed.

Ltac other_line :=
  let H := fresh "H" in
  intros H; cbn [String.append] in H; discriminate H.

(** Where the two content-length lines come from. *)
Lemma content_length_lines (a : AnalysisResult.t) (d : Py.dict Q) :
  let found := Suggestions.generate_content_suggestions a d in
  let low := Py.ltb (Suggestions.score_of d "content_length") 7.0 in
  (Spec.too_brief ∈ found
   <-> low = true /\ Py.ltb (Spec.word_count_of a) 150 = true) /\
  (Spec.too_long ∈ found
   <-> low = true /\ Py.ltb (Spec.word_count_of a) 150 = false
       /\ Py.ltb 800 (Spec.word_count_of a) = true).
Proof.
  intros found low. subst found low.
  unfold Suggestions.generate_content_suggestions, Spec.word_count_of.
  cbv zeta.
  set (S1 := if Py.ltb (Suggestions.score_of d "content_length") 7.0
             then _ else _).
  set (S2 := if Py.ltb (Suggestions.score_of d "readability") 7.0
             then _ else _).
  set (S3 := if Py.ltb (Suggestions.score_of d "project_quality") 7.0
             then _ else _).
  set (S4 := if Py.ltb (Suggestions.score_of d "contact_completeness") 8.0
             then _ else _).
  assert (forall line, line = Spec.too_brief \/ line = Spec.too_long ->
            line ∈ S2 <-> line ∈ S1) as H2.
  { intros line Hl. subst S2.
    repeat match goal with
    | |- context [if ?b then _ else _] => destruct b
    end;
    destruct Hl as [-> | ->];
    rewrite ?append_other by other_line; reflexivity. }
  assert (forall line, line = Spec.too_brief \/ line = Spec.too_long ->
            line ∈ S3 <-> line ∈ S2) as H3.
  { intros line Hl. subst S3. clearbody S2.
    repeat match goal with
    | |- context [if ?b then _ else _] => destruct b
    end;
    destruct Hl as [-> | ->];
    rewrite ?append_other by other_line; reflexivity. }
  assert (forall line, line = Spec.too_brief \/ line = Spec.too_long ->
            line ∈ S4 <-> line ∈ S3) as H4.
  { intros line Hl. subst S4. clearbody S3.
    destruct (Py.ltb _ 8.0); [|reflexivity].
    destruct (negb _); [|reflexivity].
    destruct Hl as [-> | ->];
    rewrite ?append_other by other_line; reflexivity. }
  rewrite !H4, !H3, !H2 by auto. subst S1. clear.
  destruct (Py.ltb (Suggestions.score_of d "content_length") 7.0);
  destruct (Py.ltb _ 150); destruct (Py.ltb 800 _);
  (split; (split;
   [ let H := fresh "H" in
     intros H; rewrite ?append_other in H by other_line;
     first [ apply elem_of_nil in H; contradiction
           | repeat split; reflexivity ]
   | let H := fresh "H" in
     intros H; first [ destruct H as (? & ? & ?) | destruct H as (? & ?) ];
     first [ discriminate | apply append_same ] ])).
Qed.


(** The content-length score of a report is below 7.0 exactly outside
    the range of 150 to 800 words. *)
Lemma content_length_low (word_count : Q) :
  (Py.round (Rating.score_content_length word_count) 1 < 7.0
   <-> word_count < 150 \/ 800 < word_count)%Q.
Proof.
  unfold Rating.score_content_length.
  cbn [Rating.min_word_count Rating.ideal_word_count Rating.max_word_count
       Rating.thresholds].
  assert (forall x, (7 <= x -> x <= 10 -> 7 <= Py.round x 1)%Q) as Hhigh.
  { intros x H7 H10.
    pose proof (round_between 70 100 x 1) as H.
    change (inject_Z (10 ^ Z.of_nat 1)) with 10%Q in H.
    assert (inject_Z 70 / 10 == 7)%Q as E7 by reflexivity.
    assert (inject_Z 100 / 10 == 10)%Q as E10 by reflexivity.
    rewrite E7, E10 in H. apply H; assumption. }
  assert (forall x, (x <= 5 -> Py.round x 1 <= 5)%Q) as Hlow.
  { intros x Hx. pose proof (round1_upper 50 x) as H.
    assert (inject_Z 50 / 10 == 5)%Q as E5 by reflexivity.
    rewrite E5 in H. apply H. exact Hx. }
  compare_cases;
    first
      [ split;
        [ intros _; first [left; assumption | right; assumption]
        | intros _; apply Qle_lt_trans with 5%Q; [|reflexivity];
          apply Hlow; q_arith ]
      | split;
        [ let H := fresh "H" in
          intros H; exfalso;
          match type of H with (Py.round ?x 1 < _)%Q =>
            assert (7 <= Py.round x 1)%Q by (apply Hhigh; q_arith)
          end;
          lra
        | let H := fresh "H" in intros [H|H]; exfalso; lra ] ].
Qed.

End AdviceFacts.

(** ** Theorems about skill and content suggestions *)

Module AdviceTheorems.

Import Random PyFacts OrderFacts RatingFacts SuggestionFacts TierFacts AdviceFacts.
Local Open Scope string_scope.

(** X20.  The skill suggestions are empty exactly when both skills scores
    are at least 7.0.  Otherwise the list opens with the Skills Diversity
    line when the diversity score is below 7.0; it never holds an empty
    string, and it has at most four entries more than the bundle has skill
    categories. *)
Theorem skill_suggestions_shape (skills : Py.dict (list string))
    (detailed_scores : Py.dict Q) (g : Random.t) :
  let found :=
    fst (Suggestions.generate_skill_suggestions skills detailed_scores g) in
  let diversity := Suggestions.score_of detailed_scores "skills_diversity" in
  let quantity := Suggestions.score_of detailed_scores "skills_quantity" in
  (found = [] <-> (7.0 <= diversity)%Q /\ (7.0 <= quantity)%Q) /\
  ((diversity < 7.0)%Q ->
   head found = Some "💡 **Skills Diversity**: Add skills from different categories (technical, tools, soft skills)") /\
  ((7.0 <= diversity)%Q -> (quantity < 7.0)%Q ->
   head found = Some "📈 **Skills Quantity**: Add more specific skills and technologies you've worked with") /\
  Spec.filled found /\
  (length found <= 4 + length skills)%nat.
Proof.
  intros found diversity quantity. subst found.
  unfold Suggestions.generate_skill_suggestions, bind.
  fold diversity quantity.
  assert (forall (s : list string) (x line : string),
            head s = Some line -> head (Py.append s x) = Some line) as Happ.
  { intros s x line Hs. destruct s; [discriminate Hs | exact Hs]. }
  set (first_loop := for_each (take 2 _) _ _).
  set (second_body := fun (suggestions : list string)
                          (entry : string * list string) => _).
  assert (forall (line : string) (s : list string) (xs : list (string * list string)) g0,
            head s = Some line ->
            head (fst (for_each xs second_body s g0)) = Some line) as Hhead2.
  { intros line s xs g0 Hs.
    apply (for_each_invariant (fun s => head s = Some line)); [exact Hs|].
    intros s0 [category skills_list] g1 H0. subst second_body. cbv beta iota.
    destruct (length skills_list <? 3)%nat; [|exact H0].
    unfold bind. destruct (choice _ g1) as [c g2]. cbn [ret fst].
    apply Happ. exact H0. }
  assert (forall (s : list string) (xs : list (string * list string)) g0,
            Spec.filled s ->
            Spec.filled (fst (for_each xs second_body s g0))) as Hfilled2.
  { intros s xs g0 Hs. apply for_each_invariant; [exact Hs|].
    intros s0 [category skills_list] g1 H0. subst second_body. cbv beta iota.
    destruct (length skills_list <? 3)%nat; [|exact H0].
    unfold bind. destruct (choice _ g1) as [c g2]. cbn [ret fst].
    apply filled_append; [exact H0 | discriminate]. }
  assert (forall (s : list string) (xs : list (string * list string)) g0,
            (length (fst (for_each xs second_body s g0))
             <= length s + 1 * length xs)%nat) as Hlen2.
  { intros s xs g0. apply for_each_length.
    intros s0 [category skills_list] g1. subst second_body. cbv beta iota.
    destruct (length skills_list <? 3)%nat; [|cbn [ret fst]; lia].
    unfold bind. destruct (choice _ g1) as [c g2]. cbn [ret fst].
    unfold Py.append. rewrite length_app. cbn [length]. lia. }
  clearbody second_body.
  destruct (Py.ltb diversity 7.0) eqn:Ed;
    [apply ltb_true in Ed | apply ltb_false in Ed].
  - (* the diversity line opens the list *)
    assert (head (fst (first_loop g))
            = Some "💡 **Skills Diversity**: Add skills from different categories (technical, tools, soft skills)"
            /\ Spec.filled (fst (first_loop g))
            /\ (length (fst (first_loop g)) <= 3)%nat) as (Hh & Hf & Hl).
    { subst first_loop. split; [|split].
      - apply (for_each_invariant (fun s => head s = Some _));
          [reflexivity|].
        intros s0 category g1 H0. unfold bind.
        destruct (choice _ g1) as [c g2]. cbn [ret fst].
        apply Happ. exact H0.
      - apply for_each_invariant.
        + apply filled_append; [constructor | discriminate].
        + intros s0 category g1 H0. unfold bind.
          destruct (choice _ g1) as [c g2]. cbn [ret fst].
          apply filled_append; [exact H0 | discriminate].
      - match goal with |- context [for_each ?xs ?b ?s g] =>
          pose proof (for_each_length xs b 1 s g) as H
        end.
        etransitivity; [apply H|].
        + intros s0 category g1. unfold bind.
          destruct (choice _ g1) as [c g2]. cbn [ret fst].
          unfold Py.append. rewrite length_app. cbn [length]. lia.
        + unfold Py.append. rewrite length_take. cbn [app length]. lia. }
    destruct (first_loop g) as [s1 g1]. cbn [fst] in Hh, Hf, Hl.
    destruct (Py.ltb quantity 7.0).
    + split; [|split; [|split; [|split]]].
      * split.
        -- intros H.
           match type of H with fst (for_each ?xs _ (Py.append _ ?x) _) = _ =>
             pose proof (Hhead2 _ _ xs g1 (Happ s1 x _ Hh)) as Hhd
           end.
           rewrite H in Hhd. discriminate Hhd.
        -- intros [H _]. exfalso. lra.
      * intros _. apply Hhead2, Happ. exact Hh.
      * intros H. exfalso. lra.
      * apply Hfilled2. apply filled_append; [exact Hf | discriminate].
      * etransitivity; [apply Hlen2|]. unfold Py.append, Py.items.
        rewrite length_app. cbn [length]. lia.
    + cbn [ret fst]. split; [|split; [|split; [|split]]].
      * split; [intros ->; discriminate Hh | intros [H _]; exfalso; lra].
      * intros _. exact Hh.
      * intros H. exfalso. lra.
      * exact Hf.
      * lia.
  - subst first_loop. cbn [ret fst].
    destruct (Py.ltb quantity 7.0) eqn:Eq;
      [apply ltb_true in Eq | apply ltb_false in Eq].
    + split; [|split; [|split; [|split]]].
      * split.
        -- intros H.
           match type of H with fst (for_each ?xs _ (Py.append [] ?x) _) = _ =>
             pose proof (Hhead2 x (Py.append [] x) xs g eq_refl) as Hhd
           end.
           rewrite H in Hhd. discriminate Hhd.
        -- intros [_ H]. exfalso. lra.
      * intros H. exfalso. lra.
      * intros _ _. apply Hhead2. reflexivity.
      * apply Hfilled2. apply filled_append; [constructor | discriminate].
      * etransitivity; [apply Hlen2|]. unfold Py.append, Py.items.
        cbn [app length]. lia.
    + cbn [ret fst]. split; [|split; [|split; [|split]]].
      * split; [intros _; split; assumption | reflexivity].
      * intros H. exfalso. lra.
      * intros _ H. exfalso. lra.
      * constructor.
      * cbn [length]. lia.
Qed.

(** X21.  Rating and content suggestions agree on the resume's length.  In
    the report of a bundle without error the content-length score is below
    7.0 exactly when the word count is below 150 or above 800; the
    suggestions built from that report hold the too-brief line exactly
    when the word count is below 150 and the too-long line exactly when it
    is above 800. *)
Theorem content_length_advice (a : AnalysisResult.t) :
  AnalysisResult.error a = None ->
  exists r detailed,
    Rating.rate_resume a = Some r /\
    RatingResult.detailed_scores r = Some detailed /\
    let found := Suggestions.generate_content_suggestions a detailed in
    let word_count := Spec.word_count_of a in
    ((Suggestions.score_of detailed "content_length" < 7.0)%Q
     <-> (word_count < 150 \/ 800 < word_count)%Q) /\
    (Spec.too_brief ∈ found <-> (word_count < 150)%Q) /\
    (Spec.too_long ∈ found <-> (800 < word_count)%Q).
Proof.
  intros He.
  destruct (calculate_overall_score_scored a _ _ _ _ _ _ _ He eq_refl)
    as [b Hr].
  eexists _, _. split; [exact Hr|].
  cbn [RatingResult.detailed_scores]. split; [reflexivity|].
  cbv zeta.
  match goal with
  | |- context [Suggestions.generate_content_suggestions a ?d] =>
      destruct (content_length_lines a d) as [Hb Hl]
  end.
  cbv zeta in Hb, Hl. unfold Spec.word_count_of in *.
  set (word_count := default 0%Q (default ∅ (AnalysisResult.readability a)
                                    !! "word_count")) in *.
  change (Suggestions.score_of _ "content_length")
    with (Py.round (Rating.score_content_length word_count) 1) in *.
  pose proof (content_length_low word_count) as Hlow.
  rewrite ltb_true in Hb, Hl. rewrite ltb_true in Hb, Hl.
  rewrite ltb_false in Hl. rewrite Hlow in Hb, Hl.
  split; [exact Hlow|]. split.
  - rewrite Hb. split; [intros [_ H]; exact H|]. intros H. auto.
  - rewrite Hl. split; [intros (_ & _ & H); exact H|]. intros H.
    split; [right; exact H|]. split; [lra | exact H].
Qed.

Lemma content_length_advice_witness :
  exists r detailed,
    Rating.rate_resume Spec.zero_word_bundle = Some r /\
    RatingResult.detailed_scores r = Some detailed /\
    let found :=
      Suggestions.generate_content_suggestions Spec.zero_word_bundle
        detailed in
    let word_count := Spec.word_count_of Spec.zero_word_bundle in
    ((Suggestions.score_of detailed "content_length" < 7.0)%Q
     <-> (word_count < 150 \/ 800 < word_count)%Q) /\
    (Spec.too_brief ∈ found <-> (word_count < 150)%Q) /\
    (Spec.too_long ∈ found <-> (800 < word_count)%Q).
Proof. apply (content_length_advice Spec.zero_word_bundle). reflexivity. Defined.

End AdviceTheorems.

(** ** Facts about section suggestions *)

Module SectionAdviceFacts.

Import Random PyFacts SuggestionFacts TierFacts.
Local Open Scope string_scope.

(** A loop that only appends keeps what it started from. *)
Lemma for_each_extends {A} (xs : list A)
    (body : list string -> A -> M (list string)) (s : list string)
    (g : Random.t) :
  (forall s x g, exists more, fst (body s x g) = (s ++ more)%list) ->
  exists rest, fst (for_each xs body s g) = (s ++ rest)%list.
Proof.
  intros Hbody. revert s g.
  induction xs as [|x xs IH]; intros s g; cbn [for_each].
  - exists []. cbn [ret fst]. rewrite app_nil_r. reflexivity.
  - unfold bind. destruct (Hbody s x g) as [more Hm].
    destruct (body s x g) as [s' g']. cbn [fst] in Hm. subst s'.
    destruct (IH (s ++ more)%list g') as [rest Hr].
    exists (more ++ rest)%list. rewrite Hr, app_assoc. reflexivity.
Qed.

Lemma get_elem_of {V} (d : Py.dict V) (k : string) (v : V) :
  Py.get d k = Some v -> (k, v) ∈ d.
Proof.
  induction d as [|[k' v'] d IH]; cbn [Py.get]; [discriminate|].
  destruct (String.eqb k k') eqn:E.
  - apply String.eqb_eq in E. subst k'. intros [= ->].
    apply list_elem_of_here.
  - intros H. apply list_elem_of_further, IH, H.
Qed.

(** The loop over the sections that are present adds a line as soon as
    one of them has a template. *)
Lemma improve_loop_adds (sections : Py.dict bool) (section : string)
    (body : list string -> string * bool -> M (list string))
    (s : list string) (g : Random.t) :
  (forall s x g, exists more, fst (body s x g) = (s ++ more)%list) ->
  (forall s g, fst (body s (section, true) g) <> []) ->
  (section, true) ∈ sections ->
  fst (for_each (Py.items sections) body s g) <> [].
Proof.
  intros Hext Hadd Hin. unfold Py.items. revert s g.
  induction sections as [|x sections IH]; intros s g;
    [apply elem_of_nil in Hin; contradiction|].
  cbn [for_each]. unfold bind. apply elem_of_cons in Hin.
  destruct Hin as [<- | Hin].
  - pose proof (Hadd s g) as Hne.
    destruct (body s (section, true) g) as [s' g']. cbn [fst] in Hne.
    destruct (for_each_extends sections body s' g' Hext) as [rest ->].
    destruct s'; [contradiction | discriminate].
  - destruct (body s x g) as [s' g']. apply IH. exact Hin.
Qed.

End SectionAdviceFacts.

(** ** Theorems about section suggestions *)

Module SectionAdviceTheorems.

Import Random PyFacts SuggestionFacts TierFacts SectionAdviceFacts.
Local Open Scope string_scope.

(** X22.  The section suggestions are empty exactly when the experience,
    education, skills, summary and projects sections are all present and
    sections completeness scores at least 8.0.  The list opens with one
    Missing line for each absent essential section, in the order
    experience, education, skills, and it has at most five entries more
    than the bundle has sections. *)
Theorem section_suggestions_shape (sections : Py.dict bool)
    (detailed_scores : Py.dict Q) (g : Random.t) :
  let found :=
    fst (Suggestions.generate_section_suggestions sections detailed_scores g) in
  let absent section := negb (default false (Py.get sections section)) in
  (found = []
   <-> Forall (Spec.present sections)
              ["experience"; "education"; "skills"; "summary"; "projects"] /\
       (8.0 <= Suggestions.score_of detailed_scores "sections_completeness")%Q) /\
  (let missing :=
     map (fun section =>
            "⚠️ **Missing " ++ Py.title section
            ++ " Section**: This is essential for any resume")
         (List.filter absent ["experience"; "education"; "skills"]) in
   exists rest, found = Py.extend missing rest) /\
  (length found <= 5 + length sections)%nat.
Proof.
  intros found absent. subst found.
  split; [|split].
  - split.
    + intros Hnil.
      unfold Suggestions.generate_section_suggestions, bind in Hnil.
      set (improve := fun (suggestions : list string)
                          (entry : string * bool) => _) in Hnil.
      assert (forall s x g, exists more,
                fst (improve s x g) = (s ++ more)%list) as Hext.
      { intros s [section is_present] g0. subst improve. cbv beta iota.
        destruct (is_present && _).
        - unfold bind. destruct (choice _ g0) as [c g1]. cbn [ret fst].
          eexists. reflexivity.
        - exists []. cbn [ret fst]. rewrite app_nil_r. reflexivity. }
      assert (forall section,
                Py.mem section Suggestions.section_suggestions = true ->
                forall s g, fst (improve s (section, true) g) <> []) as Hadd.
      { intros section Hmem s g0. subst improve. cbv beta iota.
        rewrite Hmem. cbn [andb]. unfold bind.
        destruct (choice _ g0) as [c g1]. cbn [ret fst]. unfold Py.append.
        destruct s; discriminate. }
      clearbody improve.
      set (add := fun (suggestions : list string) (section : string) => _)
        in Hnil.
      assert (forall s x g, exists more,
                fst (add s x g) = (s ++ more)%list) as Hext'.
      { intros s section g0. subst add. cbv beta.
        destruct (negb _).
        - unfold bind. destruct (choice _ g0) as [c g1]. cbn [ret fst].
          eexists. reflexivity.
        - exists []. cbn [ret fst]. rewrite app_nil_r. reflexivity. }
      set (missing := fold_left _ _ _) in Hnil.
      destruct (for_each_extends ["summary"; "projects"] add missing g Hext')
        as [added Hadded].
      subst add.
      destruct (for_each _ _ missing g) as [s1 g1] eqn:E1.
      cbn [fst] in Hadded. subst s1.
      assert ((missing ++ added)%list = []) as Hempty.
      { destruct (Py.ltb _ 8.0); [|exact Hnil].
        destruct (for_each_extends (Py.items sections) improve
                    (missing ++ added)%list g1 Hext) as [rest Hr].
        rewrite Hnil in Hr. symmetry in Hr.
        apply app_eq_nil in Hr. apply Hr. }
      apply app_eq_nil in Hempty. destruct Hempty as [Hm Ha].
      subst added. rewrite app_nil_r in *.
      assert (Forall (Spec.present sections)
                ["experience"; "education"; "skills"]) as Hess.
      { subst missing. cbn [fold_left] in Hm. unfold Spec.present.
        destruct (default false (Py.get sections "experience")) eqn:Ee,
                 (default false (Py.get sections "education")) eqn:Ed,
                 (default false (Py.get sections "skills")) eqn:Es;
          cbn [negb] in Hm; unfold Py.append in Hm; cbn [app] in Hm;
          try discriminate Hm.
        repeat (apply Forall_cons_2; [assumption|]). apply Forall_nil_2. }
      rewrite Hm in *. clear Hm. clearbody missing.
      assert (Forall (Spec.present sections) ["summary"; "projects"]) as Himp.
      { unfold Spec.present. cbn [for_each] in E1. unfold bind in E1.
        destruct (default false (Py.get sections "summary")) eqn:Es,
                 (default false (Py.get sections "projects")) eqn:Ep;
          cbn [negb] in E1;
          repeat match type of E1 with
          | context [choice ?l ?g0] => destruct (choice l g0)
          end;
          cbn [ret] in E1; unfold Py.append in E1; cbn [app] in E1;
          try discriminate E1.
        repeat (apply Forall_cons_2; [assumption|]). apply Forall_nil_2. }
      split.
      { apply Forall_app_2 with (l1 := [_; _; _]); assumption. }
      destruct (Py.ltb _ 8.0) eqn:Elt; [|apply ltb_false in Elt; exact Elt].
      exfalso. apply Forall_cons in Hess. destruct Hess as [Hexp _].
      unfold Spec.present in Hexp.
      destruct (Py.get sections "experience") as [[|]|] eqn:Eg;
        try discriminate Hexp.
      apply get_elem_of in Eg.
      apply (improve_loop_adds sections "experience" improve [] g1 Hext
               (Hadd "experience" eq_refl) Eg).
      exact Hnil.
    + intros [Hp Hs].
      repeat match goal with
      | H : Forall _ (_ :: _) |- _ =>
          let Hx := fresh "Hx" in
          apply Forall_cons in H; destruct H as [Hx H]
      end.
      apply section_suggestions_none; assumption.
  - cbv zeta. unfold Py.extend.
    unfold Suggestions.generate_section_suggestions, bind.
    set (missing := fold_left _ _ _).
    assert (missing
            = map (fun section =>
                     "⚠️ **Missing " ++ Py.title section
                     ++ " Section**: This is essential for any resume")
                  (List.filter absent ["experience"; "education"; "skills"]))
      as Hm.
    { subst missing absent. cbn [fold_left List.filter].
      destruct (negb (default false (Py.get sections "experience"))),
               (negb (default false (Py.get sections "education"))),
               (negb (default false (Py.get sections "skills")));
        reflexivity. }
    rewrite <- Hm. clearbody missing. clear Hm.
    match goal with |- context [for_each ?xs ?b missing g] =>
      destruct (for_each_extends xs b missing g) as [added Ha]
    end.
    { intros s section g0. destruct (negb _).
      - unfold bind. destruct (choice _ g0) as [c g1]. cbn [ret fst].
        eexists. reflexivity.
      - exists []. cbn [ret fst]. rewrite app_nil_r. reflexivity. }
    destruct (for_each _ _ missing g) as [s1 g1]. cbn [fst] in Ha. subst s1.
    destruct (Py.ltb _ 8.0); [|exists added; reflexivity].
    match goal with |- context [for_each ?xs ?b ?s g1] =>
      destruct (for_each_extends xs b s g1) as [rest Hr]
    end.
    { intros s [section is_present] g0. destruct (is_present && _).
      - unfold bind. destruct (choice _ g0) as [c g2]. cbn [ret fst].
        eexists. reflexivity.
      - exists []. cbn [ret fst]. rewrite app_nil_r. reflexivity. }
    exists (added ++ rest)%list. rewrite Hr, app_assoc. reflexivity.
  - unfold Suggestions.generate_section_suggestions, bind.
    set (missing := fold_left _ _ _).
    assert (length missing <= 3)%nat as Hm.
    { subst missing. cbn [fold_left].
      destruct (negb (default false (Py.get sections "experience"))),
               (negb (default false (Py.get sections "education"))),
               (negb (default false (Py.get sections "skills")));
        cbn; lia. }
    clearbody missing.
    match goal with |- context [for_each ?xs ?b missing g] =>
      pose proof (for_each_length xs b 1 missing g) as Ha
    end.
    destruct (for_each _ _ missing g) as [s1 g1]. cbn [fst length] in Ha.
    assert (length s1 <= 5)%nat as H1.
    { etransitivity; [apply Ha|lia].
      intros s section g0. destruct (negb _).
      - unfold bind. destruct (choice _ g0) as [c g2]. cbn [ret fst].
        unfold Py.append. rewrite length_app. cbn [length]. lia.
      - cbn [ret fst]. lia. }
    destruct (Py.ltb _ 8.0); [|cbn [ret fst]; lia].
    match goal with |- context [for_each ?xs ?b s1 g1] =>
      pose proof (for_each_length xs b 1 s1 g1) as Hb
    end.
    unfold Py.items in *. etransitivity; [apply Hb|lia].
    intros s [section is_present] g0. destruct (is_present && _).
    + unfold bind. destruct (choice _ g0) as [c g2]. cbn [ret fst].
      unfold Py.append. rewrite length_app. cbn [length]. lia.
    + cbn [ret fst]. lia.
Qed.

End SectionAdviceTheorems.
